(** * 1plan: request/response contract of the REST API and the MCP gateway

    A shallow embedding of the TypeScript sources
    - [api/src/types/document.ts]      (schemas, [generateSlug])
    - [api/src/middleware/error-handler.ts] ([errorHandler])
    - [api/src/routes/{projects,documents,features,sprints}.ts]
    - [mcp-gateway/src/lib/api-client.ts], [mcp-gateway/src/tools/documents.ts]
    followed by the properties of the specification that concern them.

    Conventions.  A JavaScript string is a [string]; its characters are read
    as code units in the range U+0000..U+00FF.  JSON numbers that the code
    treats as integers are [Z]; a number read from a query string is a
    [Zod.Coerced].  [undefined] is [None]. *)

From Stdlib Require Import ZArith List String Ascii Bool Lia Arith Sorted Permutation.
Import ListNotations.
Open Scope string_scope.
Open Scope list_scope.

(* ===================================================================== *)
(** * Part I — the program                                                *)
(* ===================================================================== *)

(** ** Characters and the regular expressions of the sources *)

Module Chars.

Definition code (c : ascii) : nat := nat_of_ascii c.

Definition between (lo hi : nat) (c : ascii) : bool :=
  (lo <=? code c)%nat && (code c <=? hi)%nat.

Definition isDigit (c : ascii) : bool := between 48 57 c.        (* \d *)
Definition isLowerAZ (c : ascii) : bool := between 97 122 c.     (* a-z *)
Definition isUpperAZ (c : ascii) : bool := between 65 90 c.      (* A-Z *)
Definition isHyphen (c : ascii) : bool := (code c =? 45)%nat.    (* - *)

(** [\s] of a JavaScript regular expression, on the code units below 256:
    TAB, LF, VT, FF, CR, SPACE and NO-BREAK SPACE. *)
Definition isSpace (c : ascii) : bool :=
  between 9 13 c || (code c =? 32)%nat || (code c =? 160)%nat.

(** [String.prototype.toLowerCase] on one code unit below 256: A-Z and the
    Latin-1 capitals U+00C0..U+00DE (but not the multiplication sign
    U+00D7) move up by 32. *)
Definition toLowerChar (c : ascii) : ascii :=
  if isUpperAZ c || (between 192 222 c && negb (code c =? 215)%nat)
  then ascii_of_nat (code c + 32)
  else c.

Definition isHex (c : ascii) : bool :=
  isDigit c || between 97 102 c || between 65 70 c.

End Chars.

(** ** [generateSlug] (api/src/types/document.ts) *)

Module Slug.
Import Chars.

Definition hyphen : ascii := "-"%char.

(** [s.replace(/p+/g, '-')]: every maximal run of characters matching [p]
    becomes one hyphen.  [prev] records that the previous character was
    part of the run being replaced. *)
Fixpoint collapse (p : ascii -> bool) (prev : bool) (s : list ascii) : list ascii :=
  match s with
  | [] => []
  | c :: r =>
      if p c
      then (if prev then collapse p true r else hyphen :: collapse p true r)
      else c :: collapse p false r
  end.

Definition replaceRuns (p : ascii -> bool) (s : list ascii) : list ascii :=
  collapse p false s.

(** The class [[^a-z0-9\s-]] is removed; what stays is its complement. *)
Definition kept (c : ascii) : bool :=
  isLowerAZ c || isDigit c || isSpace c || isHyphen c.

(** [s.replace(/^-|-$/g, '')]: one hyphen at the start and one at the end
    are removed. *)
Definition stripLeading (s : list ascii) : list ascii :=
  match s with
  | c :: r => if isHyphen c then r else s
  | [] => []
  end.

Fixpoint stripTrailing (s : list ascii) : list ascii :=
  match s with
  | [] => []
  | c :: r =>
      match r with
      | [] => if isHyphen c then [] else [c]
      | _ :: _ => c :: stripTrailing r
      end
  end.

Definition toLowerCase (s : list ascii) : list ascii := map toLowerChar s.

Definition generateSlugChars (title : list ascii) : list ascii :=
  let s0 := toLowerCase title in
  let s1 := filter kept s0 in                  (* .replace(/[^a-z0-9\s-]/g, '') *)
  let s2 := replaceRuns isSpace s1 in          (* .replace(/\s+/g, '-') *)
  let s3 := replaceRuns isHyphen s2 in         (* .replace(/-+/g, '-') *)
  stripTrailing (stripLeading s3).             (* .replace(/^-|-$/g, '') *)

Definition generateSlug (title : string) : string :=
  string_of_list_ascii (generateSlugChars (list_ascii_of_string title)).

(** *** Two descriptions of the result, used to state the slug property *)

(** [split p s]: the pieces of [s] between the characters matching [p]
    (empty pieces included). *)
Fixpoint split (p : ascii -> bool) (s : list ascii) : list (list ascii) :=
  match s with
  | [] => [[]]
  | c :: r =>
      if p c then [] :: split p r
      else match split p r with
           | w :: ws => (c :: w) :: ws
           | [] => [[c]]
           end
  end.

Definition nonEmpty (w : list ascii) : bool :=
  match w with [] => false | _ :: _ => true end.

Definition words (p : ascii -> bool) (s : list ascii) : list (list ascii) :=
  filter nonEmpty (split p s).

Fixpoint joinHyphen (ws : list (list ascii)) : list ascii :=
  match ws with
  | [] => []
  | w :: rest =>
      match rest with
      | [] => w
      | _ :: _ => w ++ hyphen :: joinHyphen rest
      end
  end.

Definition isSeparator (c : ascii) : bool := isSpace c || isHyphen c.

(** What the code computes: the lower-cased title loses every character
    that is not a lower-case letter, a digit, white space or a hyphen; the
    words between white space and hyphens are joined by single hyphens. *)
Definition slugOfWords (title : string) : string :=
  string_of_list_ascii
    (joinHyphen (words isSeparator
       (filter kept (toLowerCase (list_ascii_of_string title))))).

(** The shape of a slug: empty, or groups of letters and digits separated
    by single hyphens, with no hyphen at either end.  [prev] records that
    the previous character was a letter or a digit. *)
Definition isAlnum (c : ascii) : bool := isLowerAZ c || isDigit c.

Fixpoint groups (prev : bool) (s : list ascii) : bool :=
  match s with
  | [] => prev
  | c :: r =>
      if isAlnum c then groups true r
      else if isHyphen c then prev && groups false r
      else false
  end.

Definition wellShaped (slug : string) : bool :=
  match list_ascii_of_string slug with
  | [] => true
  | s => groups false s
  end.

(** Modelled on the wording of the specification (data model, Document):
    "lower-cased, non-alphanumerics replaced by single hyphens,
    leading/trailing hyphens stripped".  Every character outside [a-z0-9]
    separates words. *)
Definition slugBySpecWording (title : string) : string :=
  string_of_list_ascii
    (joinHyphen (words (fun c => negb (isAlnum c))
       (toLowerCase (list_ascii_of_string title)))).

(** Modelled on the wording of the specification (testable properties):
    "the title lower-cased, stripped of characters outside [a-z0-9] and
    whitespace, with runs of whitespace ... collapsed to a single hyphen
    and no leading/trailing hyphen", read step by step: the hyphens of the
    title are among the characters stripped. *)
Definition slugStrippedThenCollapsed (title : string) : string :=
  string_of_list_ascii
    (joinHyphen (words isSpace
       (filter (fun c => isAlnum c || isSpace c)
          (toLowerCase (list_ascii_of_string title))))).

End Slug.

(** ** Patterns used by the schemas *)

Module Pattern.
Import Chars.

Definition chars (s : string) : list ascii := list_ascii_of_string s.

Definition nonEmptyAll (p : ascii -> bool) (s : list ascii) : bool :=
  match s with [] => false | _ :: _ => forallb p s end.

(** [/^[a-z0-9-]+$/] *)
Definition slugPattern (s : string) : bool :=
  nonEmptyAll (fun c => isLowerAZ c || isDigit c || isHyphen c) (chars s).

(** [/^PREFIX\d+$/] for a literal prefix. *)
Fixpoint afterPrefix (pre s : list ascii) : option (list ascii) :=
  match pre, s with
  | [], _ => Some s
  | a :: pre', b :: s' => if Ascii.eqb a b then afterPrefix pre' s' else None
  | _ :: _, [] => None
  end.

Definition prefixDigits (pre : string) (s : string) : bool :=
  match afterPrefix (chars pre) (chars s) with
  | Some rest => nonEmptyAll isDigit rest
  | None => false
  end.

Definition featPattern : string -> bool := prefixDigits "FEAT-".   (* /^FEAT-\d+$/ *)
Definition sprPattern : string -> bool := prefixDigits "SPR-".     (* /^SPR-\d+$/ *)

(** zod's [cuid()]: [/^c[^\s-]{8,}$/i]. *)
Definition cuidPattern (s : string) : bool :=
  match chars s with
  | c :: rest =>
      Ascii.eqb (toLowerChar c) "c"%char
      && (8 <=? List.length rest)%nat
      && forallb (fun x => negb (isSpace x || isHyphen x)) rest
  | [] => false
  end.

(** zod's [uuid()]: five groups of 8, 4, 4, 4 and 12 hexadecimal digits
    joined by hyphens. *)
Fixpoint hexGroups (groups : list nat) (s : list ascii) : bool :=
  match groups with
  | [] => match s with [] => true | _ :: _ => false end
  | n :: more =>
      (List.length (firstn n s) =? n)%nat && forallb isHex (firstn n s)
      && match more, skipn n s with
         | [], [] => true
         | _ :: _, c :: rest => isHyphen c && hexGroups more rest
         | _, _ => false
         end
  end.

Definition uuidPattern (s : string) : bool := hexGroups [8; 4; 4; 4; 12]%nat (chars s).

(** Case-insensitive literal prefix ([pat] is lower case). *)
Fixpoint afterPrefixCI (pat s : list ascii) : option (list ascii) :=
  match pat, s with
  | [], _ => Some s
  | a :: pat', b :: s' =>
      if Ascii.eqb a (toLowerChar b) then afterPrefixCI pat' s' else None
  | _ :: _, [] => None
  end.

Fixpoint dropSpaces (s : list ascii) : list ascii :=
  match s with
  | c :: r => if isSpace c then dropSpaces r else s
  | [] => []
  end.

Definition rateLimitHere (s : list ascii) : bool :=
  match afterPrefixCI (chars "rate") s with
  | Some r =>
      match afterPrefixCI (chars "limit") (dropSpaces r) with
      | Some _ => true
      | None => false
      end
  | None => false
  end.

(** [/rate\s*limit/i.test(s)]: the pattern occurs somewhere in [s]. *)
Fixpoint rateLimitIn (s : list ascii) : bool :=
  rateLimitHere s || match s with [] => false | _ :: r => rateLimitIn r end.

Definition mentionsRateLimit (s : string) : bool := rateLimitIn (chars s).

End Pattern.

(** ** Validation issues and the field checks of zod *)

Module Zod.

Inductive IssueCode :=
| invalid_type | too_small | too_big | invalid_string | invalid_enum_value.

Inductive PathSeg := Key (k : string) | Index (i : nat).

(** One entry of [ZodError.issues]; [message] is the schema's own message
    where it gives one. *)
Record Issue := mkIssue {
  path : list PathSeg;
  code : IssueCode;
  message : option string
}.

Definition Issues := list Issue.

(** The checks that a [z.string()] chain accumulates, in source order. *)
Inductive StringCheck :=
| Min (n : nat) (msg : option string)
| Max (n : nat) (msg : option string)
| Regex (re : string -> bool) (msg : option string)
| Cuid (msg : option string)
| Uuid.

Definition checkString (p : list PathSeg) (s : string) (c : StringCheck) : Issues :=
  match c with
  | Min n msg => if (String.length s <? n)%nat then [mkIssue p too_small msg] else []
  | Max n msg => if (n <? String.length s)%nat then [mkIssue p too_big msg] else []
  | Regex re msg => if re s then [] else [mkIssue p invalid_string msg]
  | Cuid msg => if Pattern.cuidPattern s then [] else [mkIssue p invalid_string msg]
  | Uuid => if Pattern.uuidPattern s then [] else [mkIssue p invalid_string None]
  end.

(** [z.string()....]: every check is run and every failure reported. *)
Definition zString (checks : list StringCheck) (p : list PathSeg) (s : string) : Issues :=
  flat_map (checkString p s) checks.

(** A required field that is missing is one [invalid_type] issue. *)
Definition required {A} (check : list PathSeg -> A -> Issues)
    (p : list PathSeg) (v : option A) : Issues :=
  match v with
  | Some a => check p a
  | None => [mkIssue p invalid_type None]
  end.

(** [.optional()]: a missing field passes. *)
Definition optional {A} (check : list PathSeg -> A -> Issues)
    (p : list PathSeg) (v : option A) : Issues :=
  match v with
  | Some a => check p a
  | None => []
  end.

(** [z.enum([...])] on a string. *)
Definition zEnum (members : list string) (p : list PathSeg) (s : string) : Issues :=
  if existsb (String.eqb s) members then [] else [mkIssue p invalid_enum_value None].

(** A JSON date-time string, by what [z.string().datetime()] and
    [new Date(s)] make of it: rejected, or accepted with [getTime()] the
    given number of milliseconds. *)
Inductive DateString :=
| NotIsoDatetime (s : string)
| IsoDatetime (ms : Z).

Definition zDatetime (p : list PathSeg) (d : DateString) : Issues :=
  match d with
  | NotIsoDatetime _ => [mkIssue p invalid_string None]
  | IsoDatetime _ => []
  end.

(** [z.number().int().min(lo)]; the value is integral by representation. *)
Definition zIntMin (lo : Z) (p : list PathSeg) (n : Z) : Issues :=
  if (n <? lo)%Z then [mkIssue p too_small None] else [].

(** The number [Number(s)] that [z.coerce.number()] makes of a query
    string value: not a number, an integer, a finite number that is not an
    integer, or an infinity.  [NonInteger floor numerator rest] is the
    number [floor + numerator / (numerator + rest)], which lies strictly
    between [floor] and [floor + 1]. *)
Inductive Coerced :=
| NaN
| Num (n : Z)
| NonInteger (floor : Z) (numerator rest : positive)
| Infinity (negative : bool).

(** [z.coerce.number().min(lo).max(hi)]: the schema has no [.int()] and no
    [.finite()], so only [NaN] is refused for its type; the bounds are
    integers, and a number strictly between [floor] and [floor + 1] is
    below [lo] when [floor < lo] and above [h] when [h <= floor]. *)
Definition zCoerceRange (lo : Z) (hi : option Z) (p : list PathSeg) (v : Coerced) : Issues :=
  match v with
  | NaN => [mkIssue p invalid_type None]
  | Num n =>
      (if (n <? lo)%Z then [mkIssue p too_small None] else [])
      ++ match hi with
         | Some h => if (h <? n)%Z then [mkIssue p too_big None] else []
         | None => []
         end
  | NonInteger floor _ _ =>
      (if (floor <? lo)%Z then [mkIssue p too_small None] else [])
      ++ match hi with
         | Some h => if (h <=? floor)%Z then [mkIssue p too_big None] else []
         | None => []
         end
  | Infinity negative =>
      (if negative then [mkIssue p too_small None] else [])
      ++ match hi with
         | Some _ => if negative then [] else [mkIssue p too_big None]
         | None => []
         end
  end.

(** [.default(d)] *)
Definition coercedOr (d : Z) (v : option Coerced) : Coerced :=
  match v with
  | Some x => x
  | None => Num d
  end.

(** The result of [schema.safeParse]: the issues, or the parsed data. *)
Definition finish {D} (issues : Issues) (data : D) : Issues + D :=
  match issues with
  | [] => inr data
  | _ :: _ => inl issues
  end.

End Zod.

(** ** The store (Prisma client over the tables of the init migration) *)

Module Db.

Definition Id := string.

Inductive DocumentKind := PRD | TECH_OVERVIEW | SPRINT_OVERVIEW | SPRINT | FREEFORM.
Inductive FeatureStatus := F_PLANNED | F_IN_PROGRESS | F_COMPLETED | F_CANCELLED.
Inductive SprintStatus := S_PLANNED | S_ACTIVE | S_DONE | S_CANCELLED.

Definition kindName (k : DocumentKind) : string :=
  match k with
  | PRD => "PRD" | TECH_OVERVIEW => "TECH_OVERVIEW"
  | SPRINT_OVERVIEW => "SPRINT_OVERVIEW" | SPRINT => "SPRINT" | FREEFORM => "FREEFORM"
  end.

Definition allKinds := [PRD; TECH_OVERVIEW; SPRINT_OVERVIEW; SPRINT; FREEFORM].

Definition kindOfName (s : string) : option DocumentKind :=
  find (fun k => String.eqb (kindName k) s) allKinds.

Definition featureStatusName (s : FeatureStatus) : string :=
  match s with
  | F_PLANNED => "PLANNED" | F_IN_PROGRESS => "IN_PROGRESS"
  | F_COMPLETED => "COMPLETED" | F_CANCELLED => "CANCELLED"
  end.

Definition allFeatureStatuses := [F_PLANNED; F_IN_PROGRESS; F_COMPLETED; F_CANCELLED].

Definition featureStatusOfName (s : string) : option FeatureStatus :=
  find (fun k => String.eqb (featureStatusName k) s) allFeatureStatuses.

Definition sprintStatusName (s : SprintStatus) : string :=
  match s with
  | S_PLANNED => "PLANNED" | S_ACTIVE => "ACTIVE"
  | S_DONE => "DONE" | S_CANCELLED => "CANCELLED"
  end.

Definition allSprintStatuses := [S_PLANNED; S_ACTIVE; S_DONE; S_CANCELLED].

Definition sprintStatusOfName (s : string) : option SprintStatus :=
  find (fun k => String.eqb (sprintStatusName k) s) allSprintStatuses.

Record Project := mkProject {
  p_id : Id; p_name : string; p_createdAt : Z; p_updatedAt : Z
}.

Record Document := mkDocument {
  d_id : Id; d_projectId : Id; d_kind : DocumentKind; d_title : string;
  d_slug : option string; d_content : string;
  d_createdAt : Z; d_updatedAt : Z
}.

Record Feature := mkFeature {
  f_id : Id; f_projectId : Id; f_featureId : string; f_title : string;
  f_version : string; f_status : FeatureStatus; f_area : string;
  f_createdAt : Z; f_updatedAt : Z
}.

Record Sprint := mkSprint {
  s_id : Id; s_projectId : Id; s_code : string; s_name : string;
  s_status : SprintStatus; s_startDate : option Z; s_endDate : option Z;
  s_createdAt : Z; s_updatedAt : Z
}.

Record SprintItem := mkSprintItem {
  i_id : Id; i_sprintId : Id; i_text : string; i_checked : bool; i_order : Z;
  i_createdAt : Z; i_updatedAt : Z
}.

(** The committed contents of the five tables, rows in insertion order. *)
Record Store := mkStore {
  projects : list Project;
  documents : list Document;
  features : list Feature;
  sprints : list Sprint;
  sprintItems : list SprintItem
}.

(** What the client raises. [P2002]: unique constraint; [P2003]: foreign
    key constraint; [P2025]: record to update not found;
    [ClientValidation]: an argument of the wrong type, an unknown argument
    or an unknown enum member ([PrismaClientValidationError], which is not
    a [PrismaClientKnownRequestError]); [StoreFailure]: the store rejected
    a write for a reason outside this model. *)
Inductive DbError :=
| P2002 (target : string)
| P2003
| P2025
| ClientValidation
| StoreFailure.

(** What a request takes from its environment: the clock, the identifiers
    the store generates ([freshId 0] for the entity, [freshId (S i)] for its
    [i]-th item), and which item inserts the store rejects. *)
Record Env := mkEnv {
  now : Z;
  freshId : nat -> Id;
  itemInsertFails : nat -> bool
}.

(** *** Lookups *)

Definition project_findUnique (id : Id) (st : Store) : option Project :=
  find (fun p => String.eqb (p_id p) id) (projects st).

Definition sprint_findUnique (id : Id) (st : Store) : option Sprint :=
  find (fun s => String.eqb (s_id s) id) (sprints st).

Definition feature_findUnique (id : Id) (st : Store) : option Feature :=
  find (fun f => String.eqb (f_id f) id) (features st).

(** [where: { projectId_code: { projectId, code } }] *)
Definition sprint_findByCode (projectId : Id) (code : string) (st : Store) : option Sprint :=
  find (fun s => String.eqb (s_projectId s) projectId && String.eqb (s_code s) code)
       (sprints st).

Definition feature_findByFeatureId (projectId : Id) (featureId : string) (st : Store)
  : option Feature :=
  find (fun f => String.eqb (f_projectId f) projectId && String.eqb (f_featureId f) featureId)
       (features st).

Definition sprintItems_of (sprintId : Id) (st : Store) : list SprintItem :=
  filter (fun i => String.eqb (i_sprintId i) sprintId) (sprintItems st).

(** *** Writes *)

Definition project_create (env : Env) (name : string) (st : Store) : Project * Store :=
  let p := mkProject (freshId env 0) name (now env) (now env) in
  (p, mkStore (projects st ++ [p]) (documents st) (features st) (sprints st) (sprintItems st)).

Definition optEqb (a b : option string) : bool :=
  match a, b with
  | Some x, Some y => String.eqb x y
  | _, _ => false       (* NULLs never collide in a unique index *)
  end.

(** The unique index [documents_projectId_slug_key]. *)
Definition slugTaken (projectId : Id) (slug : option string) (except : option Id)
    (st : Store) : bool :=
  existsb (fun d => String.eqb (d_projectId d) projectId && optEqb (d_slug d) slug
                    && match except with
                       | Some id => negb (String.eqb (d_id d) id)
                       | None => true
                       end)
          (documents st).

Definition document_create (env : Env) (projectId : Id) (kind : DocumentKind)
    (title content : string) (slug : option string) (st : Store)
  : DbError + (Document * Store) :=
  if slugTaken projectId slug None st then inl (P2002 "projectId,slug")
  else
    let d := mkDocument (freshId env 0) projectId kind title slug content (now env) (now env) in
    inr (d, mkStore (projects st) (documents st ++ [d]) (features st) (sprints st)
                    (sprintItems st)).

Definition feature_create (env : Env) (projectId : Id) (featureId title version : string)
    (status : FeatureStatus) (area : string) (st : Store) : DbError + (Feature * Store) :=
  match feature_findByFeatureId projectId featureId st with
  | Some _ => inl (P2002 "projectId,featureId")
  | None =>
      let f := mkFeature (freshId env 0) projectId featureId title version status area
                         (now env) (now env) in
      inr (f, mkStore (projects st) (documents st) (features st ++ [f]) (sprints st)
                      (sprintItems st))
  end.

Definition sprint_create (env : Env) (projectId : Id) (code name : string)
    (status : SprintStatus) (startDate endDate : option Z) (st : Store)
  : DbError + (Sprint * Store) :=
  match sprint_findByCode projectId code st with
  | Some _ => inl (P2002 "projectId,code")
  | None =>
      let s := mkSprint (freshId env 0) projectId code name status startDate endDate
                        (now env) (now env) in
      inr (s, mkStore (projects st) (documents st) (features st) (sprints st ++ [s])
                      (sprintItems st))
  end.

(** [tx.sprintItem.create] for the [i]-th item of the request. *)
Definition sprintItem_create (env : Env) (i : nat) (sprintId : Id) (text : string)
    (checked : bool) (order : Z) (st : Store) : DbError + (SprintItem * Store) :=
  if itemInsertFails env i then inl StoreFailure
  else
    let it := mkSprintItem (freshId env (S i)) sprintId text checked order (now env) (now env) in
    inr (it, mkStore (projects st) (documents st) (features st) (sprints st)
                     (sprintItems st ++ [it])).

Definition sprintItem_deleteMany (sprintId : Id) (st : Store) : Store :=
  mkStore (projects st) (documents st) (features st) (sprints st)
          (filter (fun i => negb (String.eqb (i_sprintId i) sprintId)) (sprintItems st)).

(** [db.$transaction(body)]: the writes of [body] are committed together
    when it returns and discarded when it throws. *)
Definition transaction {A} (body : Store -> DbError + (A * Store)) (st : Store)
  : (DbError + A) * Store :=
  match body st with
  | inr (a, st') => (inr a, st')
  | inl e => (inl e, st)
  end.

(** *** Updates *)

Definition orElse {A} (new : option A) (old : A) : A :=
  match new with Some a => a | None => old end.

(** A member of [data] that is not [undefined]. *)
Definition given {A} (v : option A) : bool :=
  match v with Some _ => true | None => false end.

(** [db.document.update({ where: { id }, data })] with the members of
    [data] that are not [undefined], [projectId] among them.  With no
    member at all nothing is written and the row is returned as it is, its
    [updatedAt] included.  The row as written must be alone in its project
    with its slug ([documents_projectId_slug_key]) and its project must
    exist ([documents_projectId_fkey]). *)
Definition document_update (env : Env) (id : Id) (projectId : option Id)
    (kind : option DocumentKind) (title content slug : option string) (st : Store)
  : DbError + (Document * Store) :=
  match find (fun d => String.eqb (d_id d) id) (documents st) with
  | None => inl P2025
  | Some old =>
      let new :=
        if given projectId || given kind || given title || given content || given slug
        then mkDocument (d_id old) (orElse projectId (d_projectId old))
               (orElse kind (d_kind old)) (orElse title (d_title old))
               (match slug with Some s => Some s | None => d_slug old end)
               (orElse content (d_content old))
               (d_createdAt old) (now env)
        else old in
      if (given projectId || given slug)
         && slugTaken (d_projectId new) (d_slug new) (Some id) st
      then inl (P2002 "projectId,slug")
      else if match projectId with
              | Some p => negb (given (project_findUnique p st))
              | None => false
              end
      then inl P2003
      else inr (new,
                mkStore (projects st)
                  (map (fun d => if String.eqb (d_id d) id then new else d) (documents st))
                  (features st) (sprints st) (sprintItems st))
  end.

Definition project_update (env : Env) (id : Id) (name : option string) (st : Store)
  : DbError + (Project * Store) :=
  match project_findUnique id st with
  | None => inl P2025
  | Some old =>
      let new :=
        if given name
        then mkProject (p_id old) (orElse name (p_name old)) (p_createdAt old) (now env)
        else old in
      inr (new,
           mkStore (map (fun p => if String.eqb (p_id p) id then new else p) (projects st))
                   (documents st) (features st) (sprints st) (sprintItems st))
  end.

Definition feature_update (env : Env) (id : Id) (featureId title version : option string)
    (status : option FeatureStatus) (area : option string) (st : Store)
  : DbError + (Feature * Store) :=
  match feature_findUnique id st with
  | None => inl P2025
  | Some old =>
      let new :=
        if given featureId || given title || given version || given status || given area
        then mkFeature (f_id old) (f_projectId old) (orElse featureId (f_featureId old))
               (orElse title (f_title old)) (orElse version (f_version old))
               (orElse status (f_status old)) (orElse area (f_area old))
               (f_createdAt old) (now env)
        else old in
      if match featureId with
         | Some c => existsb (fun f => String.eqb (f_projectId f) (f_projectId old)
                                       && String.eqb (f_featureId f) c
                                       && negb (String.eqb (f_id f) id)) (features st)
         | None => false
         end
      then inl (P2002 "projectId,featureId")
      else inr (new,
                mkStore (projects st) (documents st)
                  (map (fun f => if String.eqb (f_id f) id then new else f) (features st))
                  (sprints st) (sprintItems st))
  end.

(** For the two dates [None] leaves the column, [Some None] sets it to
    NULL and [Some (Some t)] to [t].  As for every update, nothing is
    written when [data] has no member. *)
Definition sprint_update (env : Env) (id : Id) (code name : option string)
    (status : option SprintStatus) (startDate endDate : option (option Z)) (st : Store)
  : DbError + (Sprint * Store) :=
  match sprint_findUnique id st with
  | None => inl P2025
  | Some old =>
      let new :=
        if given code || given name || given status || given startDate || given endDate
        then mkSprint (s_id old) (s_projectId old) (orElse code (s_code old))
               (orElse name (s_name old)) (orElse status (s_status old))
               (orElse startDate (s_startDate old)) (orElse endDate (s_endDate old))
               (s_createdAt old) (now env)
        else old in
      if match code with
         | Some c => existsb (fun s => String.eqb (s_projectId s) (s_projectId old)
                                       && String.eqb (s_code s) c
                                       && negb (String.eqb (s_id s) id)) (sprints st)
         | None => false
         end
      then inl (P2002 "projectId,code")
      else inr (new,
                mkStore (projects st) (documents st) (features st)
                  (map (fun s => if String.eqb (s_id s) id then new else s) (sprints st))
                  (sprintItems st))
  end.

(** *** Queries: [where], [orderBy], [skip], [take] *)

Inductive SortOrder := asc | desc.

Fixpoint insertBy {A} (leb : A -> A -> bool) (x : A) (l : list A) : list A :=
  match l with
  | [] => [x]
  | y :: r => if leb x y then x :: l else y :: insertBy leb x r
  end.

Definition sortBy {A} (leb : A -> A -> bool) (l : list A) : list A :=
  fold_right (insertBy leb) [] l.

Definition orderBy {A} (leb : A -> A -> bool) (o : SortOrder) (l : list A) : list A :=
  match o with
  | asc => sortBy leb l
  | desc => sortBy (fun a b => leb b a) l
  end.

Definition optLeb {A} (leb : A -> A -> bool) (a b : option A) : bool :=
  match a, b with
  | None, _ => true
  | Some _, None => false
  | Some x, Some y => leb x y
  end.

(** [skip] then [take]; a negative [take] counts from the end, a negative
    [skip] is refused by the client. *)
Definition window {A} (take skip : option Z) (rows : list A) : DbError + list A :=
  let k := match skip with Some k => k | None => 0%Z end in
  if (k <? 0)%Z then inl ClientValidation
  else
    match take with
    | None => inr (skipn (Z.to_nat k) rows)
    | Some n =>
        if (0 <=? n)%Z then inr (firstn (Z.to_nat n) (skipn (Z.to_nat k) rows))
        else inr (rev (firstn (Z.to_nat (- n)) (skipn (Z.to_nat k) (rev rows))))
    end.

(** [findMany({ where, orderBy, take, skip })] and [count({ where })] over
    the rows of one table. *)
Definition findMany {A} (matches : A -> bool) (order : list A -> list A)
    (take skip : option Z) (rows : list A) : DbError + list A :=
  window take skip (order (filter matches rows)).

Definition count {A} (matches : A -> bool) (rows : list A) : nat :=
  List.length (filter matches rows).

(** [take] and [skip] are integer arguments.  An integer is passed as it
    is.  What the client makes of a number that is not an integer is not
    in the sources and is left open: [asInt v] is the integer it reads
    from [v], or [None] when it refuses the argument. *)
Definition intOfNumber (asInt : Zod.Coerced -> option Z) (v : Zod.Coerced) : DbError + Z :=
  match v with
  | Zod.Num n => inr n
  | _ =>
      match asInt v with
      | Some n => inr n
      | None => inl ClientValidation
      end
  end.

End Db.

(** ** Requests and responses *)

Module Http.

(** The further members of a problem-details object. *)
Inductive Extra :=
| XIssues (issues : Zod.Issues)
| XText (s : string)
| XNumber (n : Z)
| XTarget (t : option string).

(** The RFC 7807 object of the sources ([ProblemDetails]). *)
Record Problem := mkProblem {
  type_ : string;
  title : string;
  status : Z;
  detail : string;
  instance : option string;
  requestId : option string;
  extras : list (string * Extra)
}.

(** A response body: the payload of a success, a problem-details object,
    or the object [{ error: 'Validation failed', details }]. *)
Inductive Body (A : Type) :=
| Payload (a : A)
| ProblemDetails (p : Problem)
| ValidationFailed (details : Zod.Issues).

Arguments Payload {A} a.
Arguments ProblemDetails {A} p.
Arguments ValidationFailed {A} details.

Record Response (A : Type) := mkResponse {
  statusCode : Z;
  contentType : string;
  body : Body A
}.

Arguments mkResponse {A}.
Arguments statusCode {A}.
Arguments contentType {A}.
Arguments body {A}.

Definition json : string := "application/json; charset=utf-8".
Definition problemJson : string := "application/problem+json".

(** [reply.status(n).send(problem)] and a returned value. *)
Definition sendProblem {A} (p : Problem) : Response A :=
  mkResponse (status p) json (ProblemDetails p).

Definition send {A} (code : Z) (a : A) : Response A :=
  mkResponse code json (Payload a).

(** What a handler sees of a request: [request.url], [request.id] (set by
    the request-id hook), the [x-request-id] header, and the body or query
    [input]. *)
Record Request (I : Type) := mkRequest {
  url : string;
  id : string;
  xRequestId : option string;
  input : I
}.

Arguments mkRequest {I}.
Arguments url {I}.
Arguments id {I}.
Arguments xRequestId {I}.
Arguments input {I}.

Definition lowerString (s : string) : string :=
  string_of_list_ascii (Slug.toLowerCase (list_ascii_of_string s)).

(** JavaScript truthiness of an optional string. *)
Definition truthy (s : option string) : bool :=
  match s with
  | Some x => negb (String.eqb x "")
  | None => false
  end.

End Http.

(** ** [errorHandler] (api/src/middleware/error-handler.ts) *)

Module ErrorHandler.
Import Http.

Inductive ErrorClass :=
| IsZodError (issues : Zod.Issues)
| IsPrismaKnownRequestError (target : option string)
| IsValidationError (details : option Zod.Issues)
| IsOtherError.

(** A thrown error object with the members the handler reads. *)
Record Thrown := mkThrown {
  class : ErrorClass;
  name : string;
  message : string;
  e_statusCode : option Z;
  e_status : option Z;
  e_code : option string
}.

Definition ZodError (issues : Zod.Issues) : Thrown :=
  mkThrown (IsZodError issues) "ZodError" "" None None None.

Definition ValidationError (message : string) (details : option Zod.Issues) : Thrown :=
  mkThrown (IsValidationError details) "ValidationError" message (Some 400%Z) None
           (Some "VALIDATION_ERROR").

Definition NotFoundError (message : string) : Thrown :=
  mkThrown IsOtherError "NotFoundError" message (Some 404%Z) None (Some "NOT_FOUND").

Definition ConflictError (message : string) : Thrown :=
  mkThrown IsOtherError "ConflictError" message (Some 409%Z) None (Some "CONFLICT").

(** The errors of the store as the handler meets them. *)
Definition ofDbError (e : Db.DbError) : Thrown :=
  match e with
  | Db.P2002 target =>
      mkThrown (IsPrismaKnownRequestError (Some target)) "PrismaClientKnownRequestError"
               "Unique constraint failed" None None (Some "P2002")
  | Db.P2003 =>
      mkThrown (IsPrismaKnownRequestError None) "PrismaClientKnownRequestError"
               "Foreign key constraint failed" None None (Some "P2003")
  | Db.P2025 =>
      mkThrown (IsPrismaKnownRequestError None) "PrismaClientKnownRequestError"
               "Record to update not found." None None (Some "P2025")
  | Db.ClientValidation =>
      mkThrown IsOtherError "PrismaClientValidationError" "Invalid invocation" None None None
  | Db.StoreFailure =>
      mkThrown IsOtherError "Error" "The store rejected the write" None None None
  end.

Definition base : string := "https://1plan.dev/errors/".

Definition is429 (v : option Z) : bool :=
  match v with Some n => (n =? 429)%Z | None => false end.

Definition hasKey (k : string) (xs : list (string * Extra)) : bool :=
  existsb (fun kv => String.eqb (fst kv) k) xs.

Definition errorHandler {I A} (error : Thrown) (request : Request I) : Response A :=
  let problemDetails :=
    match class error with
    | IsZodError issues =>
        mkProblem (base ++ "validation-error") "Validation Error" 400
                  "Request validation failed" (Some (url request)) None
                  [("errors", XIssues issues)]
    | IsPrismaKnownRequestError target =>
        if String.eqb (match e_code error with Some c => c | None => "" end) "P2002" then
          mkProblem (base ++ "conflict") "Conflict" 409 "Resource already exists"
                    (Some (url request)) None [("constraint", XTarget target)]
        else if String.eqb (match e_code error with Some c => c | None => "" end) "P2025" then
          mkProblem (base ++ "not-found") "Not Found" 404 "Resource not found"
                    (Some (url request)) None []
        else
          mkProblem (base ++ "database-error") "Database Error" 500
                    "An error occurred while accessing the database"
                    (Some (url request)) None
                    [("code", XText (match e_code error with Some c => c | None => "" end))]
    | _ =>
        if is429 (e_statusCode error) || is429 (e_status error)
           || Pattern.mentionsRateLimit (message error) then
          mkProblem (base ++ "rate-limit-exceeded") "Rate Limit Exceeded" 429
                    (if String.eqb (message error) "" then "Too many requests"
                     else message error)
                    (Some (url request)) None
                    [("statusCode", XNumber 429); ("error", XText "Too Many Requests")]
        else
          match e_statusCode error with
          | Some sc =>
              if (sc =? 0)%Z then
                mkProblem (base ++ "internal-server-error") "Internal Server Error" 500
                          "An unexpected error occurred" (Some (url request)) None []
              else
                mkProblem
                  (base ++ (if truthy (e_code error)
                            then lowerString (match e_code error with Some c => c | None => "" end)
                            else "api-error"))
                  (if String.eqb (name error) "" then "API Error" else name error)
                  sc (message error) (Some (url request)) None
                  (match class error with
                   | IsValidationError (Some details) => [("details", XIssues details)]
                   | _ => []
                   end)
          | None =>
              mkProblem (base ++ "internal-server-error") "Internal Server Error" 500
                        "An unexpected error occurred" (Some (url request)) None []
          end
    end in
  (* problemDetails.requestId = requestId; statusCode mirrors status *)
  let withId :=
    mkProblem (type_ problemDetails) (title problemDetails) (status problemDetails)
              (detail problemDetails) (instance problemDetails) (Some (id request))
              (if hasKey "statusCode" (extras problemDetails) then extras problemDetails
               else extras problemDetails ++ [("statusCode", XNumber (status problemDetails))]) in
  mkResponse (status withId) problemJson (ProblemDetails withId).

End ErrorHandler.

(** ** Project routes (api/src/routes/projects.ts) *)

Module Projects.
Import Zod Http ErrorHandler.

Record ProjectBody := mkProjectBody { name : option string }.

(** [createProjectSchema] *)
Definition createProjectSchema (b : ProjectBody) : Issues + string :=
  finish
    (required (zString [Min 1 (Some "Project name is required");
                        Max 100 (Some "Project name too long")]) [Key "name"] (name b))
    (match name b with Some n => n | None => "" end).

(** [updateProjectSchema]; the PATCH route only borrows its type. *)
Definition updateProjectSchema (b : ProjectBody) : Issues + ProjectBody :=
  finish
    (optional (zString [Min 1 (Some "Project name is required");
                        Max 100 (Some "Project name too long")]) [Key "name"] (name b))
    b.

(** POST /projects *)
Definition postProjects (env : Db.Env) (request : Request ProjectBody) (st : Db.Store)
  : Db.Store * Response Db.Project :=
  match createProjectSchema (input request) with
  | inl issues => (st, mkResponse 400 json (ValidationFailed issues))
  | inr n =>
      let (project, st') := Db.project_create env n st in
      (st', send 201 project)
  end.

Record ProjectCounts := mkCounts { documents : nat; features : nat; sprints : nat }.

Record ProjectList := mkProjectList {
  projects : list (Db.Project * ProjectCounts);
  total : nat
}.

Definition countsOf (st : Db.Store) (p : Db.Project) : ProjectCounts :=
  mkCounts
    (Db.count (fun d => String.eqb (Db.d_projectId d) (Db.p_id p)) (Db.documents st))
    (Db.count (fun f => String.eqb (Db.f_projectId f) (Db.p_id p)) (Db.features st))
    (Db.count (fun s => String.eqb (Db.s_projectId s) (Db.p_id p)) (Db.sprints st)).

(** GET /projects: the query string is not read. *)
Definition getProjects {Q} (request : Request Q) (st : Db.Store) : Response ProjectList :=
  let rows := Db.orderBy (fun a b => (Db.p_updatedAt a <=? Db.p_updatedAt b)%Z) Db.desc
                         (Db.projects st) in
  send 200 (mkProjectList (map (fun p => (p, countsOf st p)) rows) (List.length rows)).

(** PATCH /projects/:id: [request.body as z.infer<typeof updateProjectSchema>]. *)
Definition patchProject (env : Db.Env) (projectId : Db.Id) (request : Request ProjectBody)
    (st : Db.Store) : Db.Store * Response Db.Project :=
  match Db.project_update env projectId (name (input request)) st with
  | inr (project, st') => (st', send 200 project)
  | inl Db.P2025 => (st, errorHandler (NotFoundError "Project not found") request)
  | inl e => (st, errorHandler (ofDbError e) request)
  end.

End Projects.

(** ** Document schemas and routes
       (api/src/types/document.ts, api/src/routes/documents.ts) *)

Module Documents.
Import Zod Http ErrorHandler.

(** The members of a JSON body that the schemas name. *)
Record DocumentBody := mkDocumentBody {
  projectId : option string;
  kind : option string;
  title : option string;
  content : option string;
  slug : option string
}.

Definition kindNames : list string := map Db.kindName Db.allKinds.

Definition slugChecks : list StringCheck :=
  [Min 1 (Some "Slug is required"); Max 100 (Some "Slug too long");
   Regex Pattern.slugPattern
         (Some "Slug must contain only lowercase letters, numbers, and hyphens")].

Record CreateDocumentInput := mkCreateDocumentInput {
  c_projectId : string;
  c_kind : Db.DocumentKind;
  c_title : string;
  c_content : string;
  c_slug : option string
}.

Definition get (s : option string) : string :=
  match s with Some x => x | None => "" end.

Definition getKind (s : option string) : Db.DocumentKind :=
  match Db.kindOfName (get s) with Some k => k | None => Db.FREEFORM end.

(** [createDocumentSchema] *)
Definition createDocumentSchema (b : DocumentBody) : Issues + CreateDocumentInput :=
  finish
    (required (zString [Cuid (Some "Invalid project ID format")]) [Key "projectId"] (projectId b)
     ++ required (zEnum kindNames) [Key "kind"] (kind b)
     ++ required (zString [Min 1 (Some "Title is required"); Max 200 (Some "Title too long")])
                 [Key "title"] (title b)
     ++ required (zString [Min 1 (Some "Content is required")]) [Key "content"] (content b)
     ++ optional (zString slugChecks) [Key "slug"] (slug b))
    (mkCreateDocumentInput (get (projectId b)) (getKind (kind b)) (get (title b))
                           (get (content b)) (slug b)).

(** [updateDocumentSchema] *)
Definition updateDocumentSchema (b : DocumentBody) : Issues + DocumentBody :=
  finish
    (optional (zEnum kindNames) [Key "kind"] (kind b)
     ++ optional (zString [Min 1 (Some "Title is required"); Max 200 (Some "Title too long")])
                 [Key "title"] (title b)
     ++ optional (zString [Min 1 (Some "Content is required")]) [Key "content"] (content b)
     ++ optional (zString slugChecks) [Key "slug"] (slug b))
    (mkDocumentBody None (kind b) (title b) (content b) (slug b)).

(** The query string of GET /documents as it arrives: every value a string. *)
Record DocumentQuery := mkDocumentQuery {
  q_projectId : option string;
  q_kind : option string;
  q_limit : option string;
  q_offset : option string;
  q_sortBy : option string;
  q_sortOrder : option string
}.

(** [const slug = data.slug || generateSlug(data.title)] *)
Definition slugFor (data : CreateDocumentInput) : string :=
  if truthy (c_slug data) then get (c_slug data) else Slug.generateSlug (c_title data).

(** POST /documents *)
Definition postDocuments (env : Db.Env) (request : Request DocumentBody) (st : Db.Store)
  : Db.Store * Response Db.Document :=
  match createDocumentSchema (input request) with
  | inl issues => (st, mkResponse 400 json (ValidationFailed issues))
  | inr data =>
      let slug := slugFor data in
      match Db.project_findUnique (c_projectId data) st with
      | None =>
          (* thrown inside [try]; its code is not 'P2002', so it is rethrown *)
          (st, errorHandler (NotFoundError "Project not found") request)
      | Some _ =>
          match Db.document_create env (c_projectId data) (c_kind data) (c_title data)
                                   (c_content data) (Some slug) st with
          | inr (document, st') => (st', send 201 document)
          | inl (Db.P2002 _) =>
              (st, errorHandler
                     (ConflictError ("Document with slug '" ++ slug
                                      ++ "' already exists in this project")) request)
          | inl e => (st, errorHandler (ofDbError e) request)
          end
      end
  end.

Record DocumentList := mkDocumentList {
  documents : list Db.Document;
  total : nat;
  limit : option string;
  offset : option string
}.

(** The columns the client accepts in [orderBy] for a document. *)
Definition documentOrder (column : string) : option (Db.Document -> Db.Document -> bool) :=
  if String.eqb column "id" then Some (fun a b => String.leb (Db.d_id a) (Db.d_id b))
  else if String.eqb column "projectId" then
    Some (fun a b => String.leb (Db.d_projectId a) (Db.d_projectId b))
  else if String.eqb column "kind" then
    Some (fun a b => String.leb (Db.kindName (Db.d_kind a)) (Db.kindName (Db.d_kind b)))
  else if String.eqb column "title" then
    Some (fun a b => String.leb (Db.d_title a) (Db.d_title b))
  else if String.eqb column "slug" then
    Some (fun a b => Db.optLeb String.leb (Db.d_slug a) (Db.d_slug b))
  else if String.eqb column "content" then
    Some (fun a b => String.leb (Db.d_content a) (Db.d_content b))
  else if String.eqb column "createdAt" then
    Some (fun a b => (Db.d_createdAt a <=? Db.d_createdAt b)%Z)
  else if String.eqb column "updatedAt" then
    Some (fun a b => (Db.d_updatedAt a <=? Db.d_updatedAt b)%Z)
  else None.

Definition sortOrderOf (s : string) : option Db.SortOrder :=
  if String.eqb s "asc" then Some Db.asc
  else if String.eqb s "desc" then Some Db.desc
  else None.

(** The arguments of [findMany] and [count] as the client checks them.
    [where] keeps the truthy members; [orderBy: { [sortBy]: sortOrder }]
    with an undefined value orders nothing. *)
Definition documentWhere (q : DocumentQuery)
  : Db.DbError + (Db.Document -> bool) :=
  match (if truthy (q_kind q) then
           match Db.kindOfName (get (q_kind q)) with
           | Some k => inr (Some k)
           | None => inl Db.ClientValidation
           end
         else inr None) with
  | inl e => inl e
  | inr k =>
      inr (fun d =>
             (if truthy (q_projectId q)
              then String.eqb (Db.d_projectId d) (get (q_projectId q)) else true)
             && match k with
                | Some k' => String.eqb (Db.kindName (Db.d_kind d)) (Db.kindName k')
                | None => true
                end)
  end.

Definition documentOrderBy (q : DocumentQuery)
  : Db.DbError + (list Db.Document -> list Db.Document) :=
  match q_sortOrder q with
  | None => inr (fun rows => rows)
  | Some o =>
      match q_sortBy q with
      | None => inl Db.ClientValidation
      | Some column =>
          match documentOrder column, sortOrderOf o with
          | Some leb, Some dir => inr (Db.orderBy leb dir)
          | _, _ => inl Db.ClientValidation
          end
      end
  end.

(** [take] and [skip] are integer arguments, and the query string only has
    strings to offer.  What the client makes of a string there is not in
    the sources and is left open: [asInt s] is the number it reads from
    [s], or [None] when it refuses the argument. *)
Definition intArgument (asInt : string -> option Z) (v : option string)
  : Db.DbError + option Z :=
  match v with
  | None => inr None
  | Some s =>
      match asInt s with
      | Some n => inr (Some n)
      | None => inl Db.ClientValidation
      end
  end.

(** GET /documents: [request.query as ListDocumentsQuery]. *)
Definition getDocuments (asInt : string -> option Z) (request : Request DocumentQuery)
    (st : Db.Store) : Response DocumentList :=
  let q := input request in
  match documentWhere q, documentOrderBy q,
        intArgument asInt (q_limit q), intArgument asInt (q_offset q) with
  | inr matches, inr order, inr take, inr skip =>
      match Db.findMany matches order take skip (Db.documents st) with
      | inr rows =>
          send 200 (mkDocumentList rows (Db.count matches (Db.documents st))
                                   (q_limit q) (q_offset q))
      | inl e => errorHandler (ofDbError e) request
      end
  | inl e, _, _, _ => errorHandler (ofDbError e) request
  | _, inl e, _, _ => errorHandler (ofDbError e) request
  | _, _, inl e, _ => errorHandler (ofDbError e) request
  | _, _, _, inl e => errorHandler (ofDbError e) request
  end.

(** PATCH /documents/:id: [request.body as UpdateDocumentInput]; the body
    goes to the store whole, a [projectId] included. *)
Definition patchDocument (env : Db.Env) (documentId : Db.Id) (request : Request DocumentBody)
    (st : Db.Store) : Db.Store * Response Db.Document :=
  let data := input request in
  let slug' :=
    if truthy (title data) && negb (truthy (slug data))
    then Some (Slug.generateSlug (get (title data)))
    else slug data in
  match (match kind data with
         | Some k => match Db.kindOfName k with
                     | Some k' => inr (Some k')
                     | None => inl Db.ClientValidation
                     end
         | None => inr None
         end) with
  | inl e => (st, errorHandler (ofDbError e) request)
  | inr kind' =>
      match Db.document_update env documentId (projectId data) kind' (title data)
                               (content data) slug' st with
      | inr (document, st') => (st', send 200 document)
      | inl Db.P2025 => (st, errorHandler (NotFoundError "Document not found") request)
      | inl (Db.P2002 _) =>
          (st, errorHandler
                 (ConflictError ("Document with slug '" ++ get slug'
                                  ++ "' already exists in this project")) request)
      | inl e => (st, errorHandler (ofDbError e) request)
      end
  end.

End Documents.

(** ** Feature routes (api/src/routes/features.ts) *)

Module Features.
Import Zod Http.

Definition FeatureStatusEnum : list string := map Db.featureStatusName Db.allFeatureStatuses.

Record FeatureBody := mkFeatureBody {
  projectId : option string;
  featureId : option string;
  title : option string;
  version : option string;
  status : option string;
  area : option string
}.

Record CreateFeature := mkCreateFeature {
  c_projectId : string;
  c_featureId : string;
  c_title : string;
  c_version : string;
  c_status : Db.FeatureStatus;
  c_area : string
}.

Definition get (s : option string) : string :=
  match s with Some x => x | None => "" end.

Definition statusOf (s : option string) : option Db.FeatureStatus :=
  match s with Some x => Db.featureStatusOfName x | None => None end.

Definition titleChecks : list StringCheck :=
  [Min 1 (Some "Title is required"); Max 200 (Some "Title must be 200 characters or less")].

Definition areaChecks : list StringCheck :=
  [Min 1 (Some "Area is required"); Max 100 (Some "Area must be 100 characters or less")].

Definition featureIdFormat : StringCheck :=
  Regex Pattern.featPattern (Some "Feature ID must match format FEAT-XXX").

(** [CreateFeatureSchema] *)
Definition CreateFeatureSchema (b : FeatureBody) : Issues + CreateFeature :=
  finish
    (required (zString [Min 1 (Some "Project ID is required")]) [Key "projectId"] (projectId b)
     ++ required (zString [Min 1 (Some "Feature ID is required"); featureIdFormat])
                 [Key "featureId"] (featureId b)
     ++ required (zString titleChecks) [Key "title"] (title b)
     ++ optional (zString []) [Key "version"] (version b)
     ++ optional (zEnum FeatureStatusEnum) [Key "status"] (status b)
     ++ required (zString areaChecks) [Key "area"] (area b))
    (mkCreateFeature (get (projectId b)) (get (featureId b)) (get (title b))
       (match version b with Some v => v | None => "0.1.0" end)
       (match statusOf (status b) with Some x => x | None => Db.F_PLANNED end)
       (get (area b))).

Record UpdateFeature := mkUpdateFeature {
  u_featureId : option string;
  u_title : option string;
  u_version : option string;
  u_status : option Db.FeatureStatus;
  u_area : option string
}.

(** [UpdateFeatureSchema] *)
Definition UpdateFeatureSchema (b : FeatureBody) : Issues + UpdateFeature :=
  finish
    (optional (zString [featureIdFormat]) [Key "featureId"] (featureId b)
     ++ optional (zString titleChecks) [Key "title"] (title b)
     ++ optional (zString []) [Key "version"] (version b)
     ++ optional (zEnum FeatureStatusEnum) [Key "status"] (status b)
     ++ optional (zString areaChecks) [Key "area"] (area b))
    (mkUpdateFeature (featureId b) (title b) (version b) (statusOf (status b)) (area b)).

Record FeatureQuery := mkFeatureQuery {
  q_projectId : option string;
  q_status : option string;
  q_area : option string;
  q_limit : option Coerced;
  q_offset : option Coerced;
  q_sortBy : option string;
  q_sortOrder : option string
}.

Record ListFeaturesQuery := mkListFeaturesQuery {
  l_projectId : option string;
  l_status : option Db.FeatureStatus;
  l_area : option string;
  l_limit : Coerced;
  l_offset : Coerced;
  l_sortBy : string;
  l_sortOrder : string
}.

(** [ListFeaturesQuerySchema] *)
Definition ListFeaturesQuerySchema (q : FeatureQuery) : Issues + ListFeaturesQuery :=
  finish
    (optional (zString []) [Key "projectId"] (q_projectId q)
     ++ optional (zEnum FeatureStatusEnum) [Key "status"] (q_status q)
     ++ optional (zString []) [Key "area"] (q_area q)
     ++ optional (zCoerceRange 1 (Some 100%Z)) [Key "limit"] (q_limit q)
     ++ optional (zCoerceRange 0 None) [Key "offset"] (q_offset q)
     ++ optional (zEnum ["createdAt"; "updatedAt"; "title"; "featureId"]) [Key "sortBy"]
                 (q_sortBy q)
     ++ optional (zEnum ["asc"; "desc"]) [Key "sortOrder"] (q_sortOrder q))
    (mkListFeaturesQuery (q_projectId q) (statusOf (q_status q)) (q_area q)
       (coercedOr 20 (q_limit q)) (coercedOr 0 (q_offset q))
       (match q_sortBy q with Some s => s | None => "updatedAt" end)
       (match q_sortOrder q with Some s => s | None => "desc" end)).

(** The problem objects the route builds itself: no [instance], the
    request id taken from the header. *)
Definition problem {I} (request : Request I) (kind title : string) (status : Z)
    (detail : string) (extras : list (string * Extra)) : Problem :=
  mkProblem ("https://1plan.dev/errors/" ++ kind) title status detail None
            (xRequestId request) extras.

Definition validationFailed {I A} (request : Request I) (detail : string) (issues : Issues)
  : Response A :=
  sendProblem (problem request "validation-failed" "Validation Failed" 422 detail
                       [("issues", XIssues issues)]).

Definition internalError {I A} (request : Request I) (detail : string) : Response A :=
  sendProblem (problem request "internal-error" "Internal Server Error" 500 detail []).

(** POST /features *)
Definition postFeatures (env : Db.Env) (request : Request FeatureBody) (st : Db.Store)
  : Db.Store * Response Db.Feature :=
  match CreateFeatureSchema (input request) with
  | inl issues => (st, validationFailed request "Request body contains invalid data" issues)
  | inr data =>
      match Db.project_findUnique (c_projectId data) st with
      | None =>
          (st, sendProblem (problem request "not-found" "Project Not Found" 404
                 ("Project with ID " ++ c_projectId data ++ " not found") []))
      | Some _ =>
          match Db.feature_findByFeatureId (c_projectId data) (c_featureId data) st with
          | Some _ =>
              (st, sendProblem (problem request "conflict" "Feature Already Exists" 409
                     ("Feature " ++ c_featureId data ++ " already exists in project "
                      ++ c_projectId data) []))
          | None =>
              match Db.feature_create env (c_projectId data) (c_featureId data) (c_title data)
                                      (c_version data) (c_status data) (c_area data) st with
              | inr (feature, st') => (st', send 201 feature)
              | inl _ =>
                  (st, internalError request
                         "An unexpected error occurred while creating the feature")
              end
          end
      end
  end.

Record FeatureList := mkFeatureList {
  features : list (Db.Feature * option Db.Project);
  total : nat;
  limit : Coerced;
  offset : Coerced
}.

Definition featureOrder (column : string) : Db.Feature -> Db.Feature -> bool :=
  if String.eqb column "createdAt" then fun a b => (Db.f_createdAt a <=? Db.f_createdAt b)%Z
  else if String.eqb column "title" then fun a b => String.leb (Db.f_title a) (Db.f_title b)
  else if String.eqb column "featureId" then
    fun a b => String.leb (Db.f_featureId a) (Db.f_featureId b)
  else fun a b => (Db.f_updatedAt a <=? Db.f_updatedAt b)%Z.

Definition directionOf (s : string) : Db.SortOrder :=
  if String.eqb s "asc" then Db.asc else Db.desc.

(** The [where] clause of GET /features as the client checks it.  For a
    truthy [area] the route adds [{ contains, mode: 'insensitive' }], and
    [mode] is not an argument of the client of the SQLite store: it
    refuses the query. *)
Definition featureWhere (projectId : option string) (status : option Db.FeatureStatus)
    (area : option string) : Db.DbError + (Db.Feature -> bool) :=
  if truthy area then inl Db.ClientValidation
  else
    inr (fun f =>
           (if truthy projectId then String.eqb (Db.f_projectId f) (get projectId) else true)
           && match status with
              | Some s =>
                  String.eqb (Db.featureStatusName (Db.f_status f)) (Db.featureStatusName s)
              | None => true
              end).

(** GET /features: [count], then [findMany]; whatever either throws is
    answered 500. *)
Definition getFeatures (asInt : Coerced -> option Z) (request : Request FeatureQuery)
    (st : Db.Store) : Response FeatureList :=
  match ListFeaturesQuerySchema (input request) with
  | inl issues => validationFailed request "Query parameters contain invalid data" issues
  | inr query =>
      match featureWhere (l_projectId query) (l_status query) (l_area query),
            Db.intOfNumber asInt (l_limit query), Db.intOfNumber asInt (l_offset query) with
      | inr where_, inr take, inr skip =>
          match Db.findMany where_
                            (Db.orderBy (featureOrder (l_sortBy query))
                                        (directionOf (l_sortOrder query)))
                            (Some take) (Some skip) (Db.features st) with
          | inr rows =>
              send 200 (mkFeatureList
                          (map (fun f => (f, Db.project_findUnique (Db.f_projectId f) st))
                               rows)
                          (Db.count where_ (Db.features st))
                          (l_limit query) (l_offset query))
          | inl _ =>
              internalError request "An unexpected error occurred while listing features"
          end
      | _, _, _ => internalError request "An unexpected error occurred while listing features"
      end
  end.

(** PATCH /features/:id *)
Definition patchFeature (env : Db.Env) (id : Db.Id) (request : Request FeatureBody)
    (st : Db.Store) : Db.Store * Response Db.Feature :=
  match UpdateFeatureSchema (input request) with
  | inl issues => (st, validationFailed request "Request body contains invalid data" issues)
  | inr updates =>
      match Db.feature_findUnique id st with
      | None =>
          (st, sendProblem (problem request "not-found" "Feature Not Found" 404
                 ("Feature with ID " ++ id ++ " not found") []))
      | Some existingFeature =>
          if truthy (u_featureId updates)
             && negb (String.eqb (get (u_featureId updates)) (Db.f_featureId existingFeature))
             && match Db.feature_findByFeatureId (Db.f_projectId existingFeature)
                                                 (get (u_featureId updates)) st with
                | Some _ => true
                | None => false
                end
          then
            (st, sendProblem (problem request "conflict" "Feature ID Conflict" 409
                   ("Feature " ++ get (u_featureId updates)
                    ++ " already exists in this project") []))
          else
            let keep (v : option string) := if truthy v then v else None in
            match Db.feature_update env id (keep (u_featureId updates))
                    (keep (u_title updates)) (keep (u_version updates))
                    (u_status updates) (keep (u_area updates)) st with
            | inr (feature, st') => (st', send 200 feature)
            | inl _ =>
                (st, internalError request
                       "An unexpected error occurred while updating the feature")
            end
      end
  end.

End Features.

(** ** Sprint routes (api/src/routes/sprints.ts) *)

Module Sprints.
Import Zod Http.

Definition SprintStatusEnum : list string := map Db.sprintStatusName Db.allSprintStatuses.

Record ItemBody := mkItemBody {
  text : option string;
  checked : option bool;
  order : option Z
}.

(** A parsed item: [checked] and [order] with their defaults. *)
Record Item := mkItem {
  it_text : string;
  it_checked : bool;
  it_order : Z
}.

(** [SprintItemSchema] *)
Definition SprintItemSchema_issues (p : list PathSeg) (b : ItemBody) : Issues :=
  required (zString [Min 1 (Some "Item text is required");
                     Max 500 (Some "Item text must be 500 characters or less")])
           (p ++ [Key "text"]) (text b)
  ++ optional (zIntMin 0) (p ++ [Key "order"]) (order b).

Definition SprintItemSchema_data (b : ItemBody) : Item :=
  mkItem (match text b with Some t => t | None => "" end)
         (match checked b with Some c => c | None => false end)
         (match order b with Some n => n | None => 0%Z end).

(** [z.array(SprintItemSchema)]: the issues of the [i]-th element carry
    the path [items, i]. *)
Fixpoint itemsIssues (i : nat) (items : list ItemBody) : Issues :=
  match items with
  | [] => []
  | b :: rest => SprintItemSchema_issues [Key "items"; Index i] b ++ itemsIssues (S i) rest
  end.

Record SprintBody := mkSprintBody {
  projectId : option string;
  code : option string;
  name : option string;
  status : option string;
  startDate : option DateString;
  endDate : option DateString;
  items : option (list ItemBody)
}.

Record CreateSprint := mkCreateSprint {
  c_projectId : string;
  c_code : string;
  c_name : string;
  c_status : Db.SprintStatus;
  c_startDate : option Z;
  c_endDate : option Z;
  c_items : list Item
}.

Definition get (s : option string) : string :=
  match s with Some x => x | None => "" end.

Definition statusOf (s : option string) : option Db.SprintStatus :=
  match s with Some x => Db.sprintStatusOfName x | None => None end.

(** [new Date(s)] for a string that passed [datetime()]. *)
Definition dateOf (d : option DateString) : option Z :=
  match d with
  | Some (IsoDatetime ms) => Some ms
  | _ => None
  end.

Definition codeFormat : StringCheck :=
  Regex Pattern.sprPattern (Some "Sprint code must match format SPR-XXX").

Definition nameChecks : list StringCheck :=
  [Min 1 (Some "Name is required"); Max 200 (Some "Name must be 200 characters or less")].

(** [CreateSprintSchema] *)
Definition CreateSprintSchema (b : SprintBody) : Issues + CreateSprint :=
  finish
    (required (zString [Min 1 (Some "Project ID is required")]) [Key "projectId"] (projectId b)
     ++ required (zString [Min 1 (Some "Sprint code is required"); codeFormat])
                 [Key "code"] (code b)
     ++ required (zString nameChecks) [Key "name"] (name b)
     ++ optional (zEnum SprintStatusEnum) [Key "status"] (status b)
     ++ optional zDatetime [Key "startDate"] (startDate b)
     ++ optional zDatetime [Key "endDate"] (endDate b)
     ++ optional (fun _ => itemsIssues 0) [Key "items"] (items b))
    (mkCreateSprint (get (projectId b)) (get (code b)) (get (name b))
       (match statusOf (status b) with Some x => x | None => Db.S_PLANNED end)
       (dateOf (startDate b)) (dateOf (endDate b))
       (match items b with Some l => map SprintItemSchema_data l | None => [] end)).

Record UpdateSprint := mkUpdateSprint {
  u_code : option string;
  u_name : option string;
  u_status : option Db.SprintStatus;
  u_startDate : option Z;
  u_endDate : option Z;
  u_items : option (list Item)
}.

(** [UpdateSprintSchema] *)
Definition UpdateSprintSchema (b : SprintBody) : Issues + UpdateSprint :=
  finish
    (optional (zString [codeFormat]) [Key "code"] (code b)
     ++ optional (zString nameChecks) [Key "name"] (name b)
     ++ optional (zEnum SprintStatusEnum) [Key "status"] (status b)
     ++ optional zDatetime [Key "startDate"] (startDate b)
     ++ optional zDatetime [Key "endDate"] (endDate b)
     ++ optional (fun _ => itemsIssues 0) [Key "items"] (items b))
    (mkUpdateSprint (code b) (name b) (statusOf (status b))
       (dateOf (startDate b)) (dateOf (endDate b))
       (match items b with Some l => Some (map SprintItemSchema_data l) | None => None end)).

Record SprintQuery := mkSprintQuery {
  q_projectId : option string;
  q_status : option string;
  q_limit : option Coerced;
  q_offset : option Coerced;
  q_sortBy : option string;
  q_sortOrder : option string
}.

Record ListSprintsQuery := mkListSprintsQuery {
  l_projectId : option string;
  l_status : option Db.SprintStatus;
  l_limit : Coerced;
  l_offset : Coerced;
  l_sortBy : string;
  l_sortOrder : string
}.

(** [ListSprintsQuerySchema] *)
Definition ListSprintsQuerySchema (q : SprintQuery) : Issues + ListSprintsQuery :=
  finish
    (optional (zString []) [Key "projectId"] (q_projectId q)
     ++ optional (zEnum SprintStatusEnum) [Key "status"] (q_status q)
     ++ optional (zCoerceRange 1 (Some 100%Z)) [Key "limit"] (q_limit q)
     ++ optional (zCoerceRange 0 None) [Key "offset"] (q_offset q)
     ++ optional (zEnum ["createdAt"; "updatedAt"; "name"; "code"; "startDate"])
                 [Key "sortBy"] (q_sortBy q)
     ++ optional (zEnum ["asc"; "desc"]) [Key "sortOrder"] (q_sortOrder q))
    (mkListSprintsQuery (q_projectId q) (statusOf (q_status q))
       (coercedOr 20 (q_limit q)) (coercedOr 0 (q_offset q))
       (match q_sortBy q with Some s => s | None => "updatedAt" end)
       (match q_sortOrder q with Some s => s | None => "desc" end)).

Definition problem {I} := @Features.problem I.
Definition validationFailed {I A} := @Features.validationFailed I A.
Definition internalError {I A} := @Features.internalError I A.

(** The body of a sprint response: the row and its items. *)
Record SprintWithItems := mkSprintWithItems {
  sprint : Db.Sprint;
  sprintItems : list Db.SprintItem
}.

(** [endDate <= startDate] on two [Date]s. *)
Definition endNotAfterStart (startDate endDate : option Z) : bool :=
  match startDate, endDate with
  | Some s, Some e => (e <=? s)%Z
  | _, _ => false
  end.

(** [order: item.order || i] *)
Definition storedOrder (item : Item) (i : nat) : Z :=
  if (it_order item =? 0)%Z then Z.of_nat i else it_order item.

(** The loop [for (let i = ...; i < items.length; i++)] that inserts the
    items from index [i] on, inside the transaction. *)
Fixpoint createItems (env : Db.Env) (sprintId : Db.Id) (i : nat) (items : list Item)
    (tx : Db.Store) : Db.DbError + (list Db.SprintItem * Db.Store) :=
  match items with
  | [] => inr ([], tx)
  | item :: rest =>
      match Db.sprintItem_create env i sprintId (it_text item) (it_checked item)
                                 (storedOrder item i) tx with
      | inl e => inl e
      | inr (createdItem, tx') =>
          match createItems env sprintId (S i) rest tx' with
          | inl e => inl e
          | inr (created, tx'') => inr (createdItem :: created, tx'')
          end
      end
  end.

(** The callback of [db.$transaction] in POST /sprints. *)
Definition createSprintTx (env : Db.Env) (data : CreateSprint) (tx : Db.Store)
  : Db.DbError + (SprintWithItems * Db.Store) :=
  match Db.sprint_create env (c_projectId data) (c_code data) (c_name data) (c_status data)
                         (c_startDate data) (c_endDate data) tx with
  | inl e => inl e
  | inr (newSprint, tx') =>
      match createItems env (Db.s_id newSprint) 0 (c_items data) tx' with
      | inl e => inl e
      | inr (created, tx'') => inr (mkSprintWithItems newSprint created, tx'')
      end
  end.

(** POST /sprints *)
Definition postSprints (env : Db.Env) (request : Request SprintBody) (st : Db.Store)
  : Db.Store * Response SprintWithItems :=
  match CreateSprintSchema (input request) with
  | inl issues => (st, validationFailed request "Request body contains invalid data" issues)
  | inr data =>
      match Db.project_findUnique (c_projectId data) st with
      | None =>
          (st, sendProblem (problem request "not-found" "Project Not Found" 404
                 ("Project with ID " ++ c_projectId data ++ " not found") []))
      | Some _ =>
          match Db.sprint_findByCode (c_projectId data) (c_code data) st with
          | Some _ =>
              (st, sendProblem (problem request "conflict" "Sprint Already Exists" 409
                     ("Sprint " ++ c_code data ++ " already exists in project "
                      ++ c_projectId data) []))
          | None =>
              if endNotAfterStart (c_startDate data) (c_endDate data) then
                (st, sendProblem (problem request "validation-failed" "Validation Failed" 422
                       "End date must be after start date" []))
              else
                match Db.transaction (createSprintTx env data) st with
                | (inr created, st') => (st', send 201 created)
                | (inl _, st') =>
                    (st', internalError request
                            "An unexpected error occurred while creating the sprint")
                end
          end
      end
  end.

Record SprintRow := mkSprintRow {
  r_sprint : Db.Sprint;
  r_project : option Db.Project;
  r_itemCount : nat;
  r_completedItemCount : nat
}.

Record SprintList := mkSprintList {
  sprints : list SprintRow;
  total : nat;
  limit : Coerced;
  offset : Coerced
}.

Definition sprintOrder (column : string) : Db.Sprint -> Db.Sprint -> bool :=
  if String.eqb column "createdAt" then fun a b => (Db.s_createdAt a <=? Db.s_createdAt b)%Z
  else if String.eqb column "name" then fun a b => String.leb (Db.s_name a) (Db.s_name b)
  else if String.eqb column "code" then fun a b => String.leb (Db.s_code a) (Db.s_code b)
  else if String.eqb column "startDate" then
    fun a b => Db.optLeb Z.leb (Db.s_startDate a) (Db.s_startDate b)
  else fun a b => (Db.s_updatedAt a <=? Db.s_updatedAt b)%Z.

Definition sprintWhere (projectId : option string) (status : option Db.SprintStatus)
    (s : Db.Sprint) : bool :=
  (if truthy projectId then String.eqb (Db.s_projectId s) (get projectId) else true)
  && match status with
     | Some x => String.eqb (Db.sprintStatusName (Db.s_status s)) (Db.sprintStatusName x)
     | None => true
     end.

(** GET /sprints: [count], then [findMany]; whatever either throws is
    answered 500. *)
Definition getSprints (asInt : Coerced -> option Z) (request : Request SprintQuery)
    (st : Db.Store) : Response SprintList :=
  match ListSprintsQuerySchema (input request) with
  | inl issues => validationFailed request "Query parameters contain invalid data" issues
  | inr query =>
      let where_ := sprintWhere (l_projectId query) (l_status query) in
      let total := Db.count where_ (Db.sprints st) in
      match Db.intOfNumber asInt (l_limit query), Db.intOfNumber asInt (l_offset query) with
      | inr take, inr skip =>
          match Db.findMany where_
                            (Db.orderBy (sprintOrder (l_sortBy query))
                                        (Features.directionOf (l_sortOrder query)))
                            (Some take) (Some skip) (Db.sprints st) with
          | inr rows =>
              send 200 (mkSprintList
                          (map (fun s =>
                                  let its := Db.sprintItems_of (Db.s_id s) st in
                                  mkSprintRow s (Db.project_findUnique (Db.s_projectId s) st)
                                              (List.length its)
                                              (List.length (filter Db.i_checked its)))
                               rows)
                          total (l_limit query) (l_offset query))
          | inl _ => internalError request "An unexpected error occurred while listing sprints"
          end
      | _, _ => internalError request "An unexpected error occurred while listing sprints"
      end
  end.

(** The callback of [db.$transaction] in PATCH /sprints/:id. *)
Definition updateSprintTx (env : Db.Env) (id : Db.Id) (updates : UpdateSprint)
    (existingItems : list Db.SprintItem) (tx : Db.Store)
  : Db.DbError + (SprintWithItems * Db.Store) :=
  let keep (v : option string) := if truthy v then v else None in
  let date (v : option Z) := match v with Some t => Some (Some t) | None => None end in
  match Db.sprint_update env id (keep (u_code updates)) (keep (u_name updates))
                         (u_status updates) (date (u_startDate updates))
                         (date (u_endDate updates)) tx with
  | inl e => inl e
  | inr (updatedSprint, tx') =>
      match u_items updates with
      | None => inr (mkSprintWithItems updatedSprint existingItems, tx')
      | Some newItems =>
          match createItems env id 0 newItems (Db.sprintItem_deleteMany id tx') with
          | inl e => inl e
          | inr (created, tx'') => inr (mkSprintWithItems updatedSprint created, tx'')
          end
      end
  end.

(** The dates the update is checked against: the new value where one is
    given, the stored one otherwise. *)
Definition effectiveDate (new : option Z) (existing : option Z) : option Z :=
  match new with Some t => Some t | None => existing end.

(** [updates.code && updates.code !== existingSprint.code] and a sprint
    with the new code exists in the project. *)
Definition codeConflict (updates : UpdateSprint) (existingSprint : Db.Sprint)
    (st : Db.Store) : bool :=
  truthy (u_code updates)
  && negb (String.eqb (get (u_code updates)) (Db.s_code existingSprint))
  && match Db.sprint_findByCode (Db.s_projectId existingSprint) (get (u_code updates)) st with
     | Some _ => true
     | None => false
     end.

(** PATCH /sprints/:id *)
Definition patchSprint (env : Db.Env) (id : Db.Id) (request : Request SprintBody)
    (st : Db.Store) : Db.Store * Response SprintWithItems :=
  match UpdateSprintSchema (input request) with
  | inl issues => (st, validationFailed request "Request body contains invalid data" issues)
  | inr updates =>
      match Db.sprint_findUnique id st with
      | None =>
          (st, sendProblem (problem request "not-found" "Sprint Not Found" 404
                 ("Sprint with ID " ++ id ++ " not found") []))
      | Some existingSprint =>
          if codeConflict updates existingSprint st then
            (st, sendProblem (problem request "conflict" "Sprint Code Conflict" 409
                   ("Sprint " ++ get (u_code updates) ++ " already exists in this project") []))
          else if endNotAfterStart
                    (effectiveDate (u_startDate updates) (Db.s_startDate existingSprint))
                    (effectiveDate (u_endDate updates) (Db.s_endDate existingSprint))
          then
            (st, sendProblem (problem request "validation-failed" "Validation Failed" 422
                   "End date must be after start date" []))
          else
            match Db.transaction
                    (updateSprintTx env id updates (Db.sprintItems_of id st)) st with
            | (inr updated, st') => (st', send 200 updated)
            | (inl _, st') =>
                (st', internalError request
                        "An unexpected error occurred while updating the sprint")
            end
      end
  end.

End Sprints.

(** ** The gateway's HTTP client (mcp-gateway/src/lib/api-client.ts) *)

Module ApiClient.
Import Http.

(** A JavaScript object used as a map from header names to values. *)
Definition Headers := list (string * string).

Fixpoint setHeader (k v : string) (h : Headers) : Headers :=
  match h with
  | [] => [(k, v)]
  | (k', v') :: rest =>
      if String.eqb k' k then (k, v) :: rest else (k', v') :: setHeader k v rest
  end.

Fixpoint header (k : string) (h : Headers) : option string :=
  match h with
  | [] => None
  | (k', v) :: rest => if String.eqb k' k then Some v else header k rest
  end.

(** [{ ...a, ...b }] *)
Definition spread (a b : Headers) : Headers :=
  fold_left (fun acc kv => setHeader (fst kv) (snd kv) acc) b a.

(** [config.API_BASE_URL], [config.API_TIMEOUT], [config.API_TOKEN]. *)
Record Config := mkConfig {
  baseUrl : string;
  timeout : Z;
  token : option string
}.

Record Options (B : Type) := mkOptions {
  o_body : option B;
  o_headers : option Headers;
  o_requestId : option string;
  o_idempotencyKey : option string
}.

Arguments mkOptions {B}.
Arguments o_body {B}.
Arguments o_headers {B}.
Arguments o_requestId {B}.
Arguments o_idempotencyKey {B}.

(** What is handed to [fetch]. *)
Record HttpRequest (B : Type) := mkHttpRequest {
  r_method : string;
  r_url : string;
  r_headers : Headers;
  r_body : option B;
  r_timeout : Z
}.

Arguments mkHttpRequest {B}.
Arguments r_method {B}.
Arguments r_url {B}.
Arguments r_headers {B}.
Arguments r_body {B}.
Arguments r_timeout {B}.

(** [ApiClient.request] up to the call of [fetch]; [randomUUID] is the
    value [randomUUID()] returns when it is called. *)
Definition request {B} (config : Config) (randomUUID : string)
    (method path : string) (options : Options B) : HttpRequest B :=
  let url := (baseUrl config ++ path)%string in
  let requestId :=
    if truthy (o_requestId options)
    then match o_requestId options with Some r => r | None => "" end
    else randomUUID in
  let headers :=
    spread [("Content-Type", "application/json"); ("X-Request-ID", requestId)]
           (match o_headers options with Some h => h | None => [] end) in
  let headers :=
    if truthy (token config)
    then setHeader "Authorization"
                   ("Bearer " ++ match token config with Some t => t | None => "" end) headers
    else headers in
  let headers :=
    if truthy (o_idempotencyKey options)
    then setHeader "X-Idempotency-Key"
                   (match o_idempotencyKey options with Some k => k | None => "" end) headers
    else headers in
  mkHttpRequest method url headers
    (if String.eqb method "GET" then None else o_body options)
    (timeout config).

Inductive QueryValue := QString (s : string) | QNumber (n : Z).

(** The bodies the document and project tools send.  An update sends what
    is left of the validated arguments without [id] and [requestId], an
    [idempotencyKey] included if the caller gave one. *)
Inductive Sent :=
| SentDocument (fields : Documents.DocumentBody)
| SentProject (name : option string)
| SentDocumentUpdate (fields : Documents.DocumentBody) (idempotencyKey : option string)
| SentProjectUpdate (name : option string) (idempotencyKey : option string).

Definition only (requestId : option string) : Options Sent :=
  mkOptions None None requestId None.

Definition getProjects config uuid (requestId : option string) : HttpRequest Sent :=
  request config uuid "GET" "/projects" (only requestId).

Definition getProject config uuid (id : string) (requestId : option string)
  : HttpRequest Sent :=
  request config uuid "GET" ("/projects/" ++ id) (only requestId).

Definition updateProject config uuid (id : string) (data : Sent)
    (requestId : option string) : HttpRequest Sent :=
  request config uuid "PATCH" ("/projects/" ++ id)
          (mkOptions (Some data) None requestId None).

Definition deleteProject config uuid (id : string) (requestId : option string)
  : HttpRequest Sent :=
  request config uuid "DELETE" ("/projects/" ++ id) (only requestId).

Definition createProject config uuid (data : Sent)
    (requestId idempotencyKey : option string) : HttpRequest Sent :=
  request config uuid "POST" "/projects"
          (mkOptions (Some data) None requestId idempotencyKey).

Definition createDocument config uuid (data : Sent)
    (requestId idempotencyKey : option string) : HttpRequest Sent :=
  request config uuid "POST" "/documents"
          (mkOptions (Some data) None requestId idempotencyKey).

(** [getDocuments]: the members of [params] that are not [undefined] go
    into a [URLSearchParams], whose [toString()] is [searchParams]. *)
Definition getDocuments config uuid (searchParams : list (string * QueryValue) -> string)
    (params : list (string * option QueryValue)) (requestId : option string)
  : HttpRequest Sent :=
  let query :=
    searchParams
      (flat_map (fun kv => match snd kv with
                           | Some v => [(fst kv, v)]
                           | None => []
                           end) params) in
  request config uuid "GET"
          ("/documents" ++ (if String.eqb query "" then "" else "?" ++ query))
          (only requestId).

Definition getDocument config uuid (id : string) (requestId : option string)
  : HttpRequest Sent :=
  request config uuid "GET" ("/documents/" ++ id) (only requestId).

Definition updateDocument config uuid (id : string) (data : Sent)
    (requestId : option string) : HttpRequest Sent :=
  request config uuid "PATCH" ("/documents/" ++ id)
          (mkOptions (Some data) None requestId None).

Definition deleteDocument config uuid (id : string) (requestId : option string)
  : HttpRequest Sent :=
  request config uuid "DELETE" ("/documents/" ++ id) (only requestId).

End ApiClient.

(** ** The document and project tools of the gateway
       (mcp-gateway/src/types/mcp-types.ts, mcp-gateway/src/tools/documents.ts,
        mcp-gateway/src/tools/projects.ts) *)

Module Tools.
Import Zod Http ApiClient.

(** The arguments of a tool call that the schemas name. *)
Record Args := mkArgs {
  a_id : option string;
  a_name : option string;
  a_projectId : option string;
  a_kind : option string;
  a_title : option string;
  a_content : option string;
  a_slug : option string;
  a_limit : option Z;
  a_offset : option Z;
  a_sortBy : option string;
  a_sortOrder : option string;
  a_requestId : option string;
  a_idempotencyKey : option string
}.

Definition idSchema : list PathSeg -> string -> Issues :=
  zString [Cuid (Some "Invalid ID format")].

Definition slugSchema : list PathSeg -> string -> Issues :=
  zString [Min 1 None; Max 100 None;
           Regex Pattern.slugPattern
                 (Some "Slug must contain only lowercase letters, numbers, and hyphens")].

(** [toolArgsSchema] *)
Definition toolArgsIssues (a : Args) : Issues :=
  optional (zString [Uuid]) [Key "requestId"] (a_requestId a)
  ++ optional (zString []) [Key "idempotencyKey"] (a_idempotencyKey a).

(** [createDocumentSchema] of the gateway *)
Definition createDocumentIssues (a : Args) : Issues :=
  required idSchema [Key "projectId"] (a_projectId a)
  ++ required (zEnum Documents.kindNames) [Key "kind"] (a_kind a)
  ++ required (zString [Min 1 None; Max 200 None]) [Key "title"] (a_title a)
  ++ required (zString [Min 1 None]) [Key "content"] (a_content a)
  ++ optional slugSchema [Key "slug"] (a_slug a).

(** [updateDocumentSchema] of the gateway *)
Definition updateDocumentIssues (a : Args) : Issues :=
  optional (zEnum Documents.kindNames) [Key "kind"] (a_kind a)
  ++ optional (zString [Min 1 None; Max 200 None]) [Key "title"] (a_title a)
  ++ optional (zString [Min 1 None]) [Key "content"] (a_content a)
  ++ optional slugSchema [Key "slug"] (a_slug a).

(** Each handler, up to the HTTP request it issues: the [ZodError] of the
    arguments, or the request. *)
Definition handleCreateDocument config uuid (args : Args) : Issues + HttpRequest Sent :=
  match finish (createDocumentIssues args ++ toolArgsIssues args) args with
  | inl issues => inl issues
  | inr validatedArgs =>
      inr (createDocument config uuid
             (SentDocument (Documents.mkDocumentBody
                (a_projectId validatedArgs) (a_kind validatedArgs) (a_title validatedArgs)
                (a_content validatedArgs) (a_slug validatedArgs)))
             (a_requestId validatedArgs) (a_idempotencyKey validatedArgs))
  end.

Definition handleCreateProject config uuid (args : Args) : Issues + HttpRequest Sent :=
  match finish (required (zString [Min 1 None; Max 100 None]) [Key "name"] (a_name args)
                ++ toolArgsIssues args) args with
  | inl issues => inl issues
  | inr validatedArgs =>
      inr (createProject config uuid (SentProject (a_name validatedArgs))
             (a_requestId validatedArgs) (a_idempotencyKey validatedArgs))
  end.

Definition handleGetDocument config uuid (args : Args) : Issues + HttpRequest Sent :=
  match finish (required idSchema [Key "id"] (a_id args)
                ++ optional (zString []) [Key "requestId"] (a_requestId args)) args with
  | inl issues => inl issues
  | inr validatedArgs =>
      inr (getDocument config uuid (Documents.get (a_id validatedArgs))
                       (a_requestId validatedArgs))
  end.

(** [z.number().min(lo).max(hi)] *)
Definition zRange (lo : Z) (hi : option Z) (p : list PathSeg) (n : Z) : Issues :=
  zCoerceRange lo hi p (Num n).

(** [listDocumentsSchema] *)
Definition listDocumentsIssues (a : Args) : Issues :=
  optional idSchema [Key "projectId"] (a_projectId a)
  ++ optional (zEnum Documents.kindNames) [Key "kind"] (a_kind a)
  ++ optional (zRange 1 (Some 100%Z)) [Key "limit"] (a_limit a)
  ++ optional (zRange 0 None) [Key "offset"] (a_offset a)
  ++ optional (zEnum ["createdAt"; "updatedAt"; "title"]) [Key "sortBy"] (a_sortBy a)
  ++ optional (zEnum ["asc"; "desc"]) [Key "sortOrder"] (a_sortOrder a).

Definition handleListDocuments config uuid searchParams (args : Args)
  : Issues + HttpRequest Sent :=
  match finish (listDocumentsIssues args ++ toolArgsIssues args) args with
  | inl issues => inl issues
  | inr validatedArgs =>
      let orDefault (v : option string) (d : string) :=
        match v with Some x => x | None => d end in
      inr (getDocuments config uuid searchParams
             [("projectId", option_map QString (a_projectId validatedArgs));
              ("kind", option_map QString (a_kind validatedArgs));
              ("limit", Some (QNumber (match a_limit validatedArgs with
                                       | Some n => n | None => 20%Z end)));
              ("offset", Some (QNumber (match a_offset validatedArgs with
                                        | Some n => n | None => 0%Z end)));
              ("sortBy", Some (QString (orDefault (a_sortBy validatedArgs) "updatedAt")));
              ("sortOrder", Some (QString (orDefault (a_sortOrder validatedArgs) "desc")))]
             (a_requestId validatedArgs))
  end.

Definition handleUpdateDocument config uuid (args : Args) : Issues + HttpRequest Sent :=
  match finish (required idSchema [Key "id"] (a_id args)
                ++ updateDocumentIssues args ++ toolArgsIssues args) args with
  | inl issues => inl issues
  | inr validatedArgs =>
      (* const { id, requestId, ...updateData } = validatedArgs *)
      inr (updateDocument config uuid (Documents.get (a_id validatedArgs))
             (SentDocumentUpdate
                (Documents.mkDocumentBody None
                   (a_kind validatedArgs) (a_title validatedArgs)
                   (a_content validatedArgs) (a_slug validatedArgs))
                (a_idempotencyKey validatedArgs))
             (a_requestId validatedArgs))
  end.

Definition handleDeleteDocument config uuid (args : Args) : Issues + HttpRequest Sent :=
  match finish (required idSchema [Key "id"] (a_id args)
                ++ optional (zString []) [Key "requestId"] (a_requestId args)) args with
  | inl issues => inl issues
  | inr validatedArgs =>
      inr (deleteDocument config uuid (Documents.get (a_id validatedArgs))
                          (a_requestId validatedArgs))
  end.

Definition handleGetProject config uuid (args : Args) : Issues + HttpRequest Sent :=
  match finish (required idSchema [Key "id"] (a_id args)
                ++ optional (zString []) [Key "requestId"] (a_requestId args)) args with
  | inl issues => inl issues
  | inr validatedArgs =>
      inr (getProject config uuid (Documents.get (a_id validatedArgs))
                      (a_requestId validatedArgs))
  end.

Definition handleListProjects config uuid (args : Args) : Issues + HttpRequest Sent :=
  match finish (toolArgsIssues args) args with
  | inl issues => inl issues
  | inr validatedArgs => inr (getProjects config uuid (a_requestId validatedArgs))
  end.

Definition handleUpdateProject config uuid (args : Args) : Issues + HttpRequest Sent :=
  match finish (required idSchema [Key "id"] (a_id args)
                ++ optional (zString [Min 1 None; Max 100 None]) [Key "name"] (a_name args)
                ++ toolArgsIssues args) args with
  | inl issues => inl issues
  | inr validatedArgs =>
      (* const { id, requestId, ...updateData } = validatedArgs *)
      inr (updateProject config uuid (Documents.get (a_id validatedArgs))
             (SentProjectUpdate (a_name validatedArgs) (a_idempotencyKey validatedArgs))
             (a_requestId validatedArgs))
  end.

Definition handleDeleteProject config uuid (args : Args) : Issues + HttpRequest Sent :=
  match finish (required idSchema [Key "id"] (a_id args)
                ++ optional (zString []) [Key "requestId"] (a_requestId args)) args with
  | inl issues => inl issues
  | inr validatedArgs =>
      inr (deleteProject config uuid (Documents.get (a_id validatedArgs))
                         (a_requestId validatedArgs))
  end.

End Tools.

(** ** The catalogue of tools ([documentHandlers], [projectHandlers]) *)

Module Catalogue.
Import Tools.

Definition Handler :=
  ApiClient.Config -> string -> Args -> Zod.Issues + ApiClient.HttpRequest ApiClient.Sent.

Definition handlers (searchParams : list (string * ApiClient.QueryValue) -> string)
  : list (string * Handler) :=
  [("create_document", handleCreateDocument);
   ("get_document", handleGetDocument);
   ("list_documents", fun config uuid => handleListDocuments config uuid searchParams);
   ("update_document", handleUpdateDocument);
   ("delete_document", handleDeleteDocument);
   ("create_project", handleCreateProject);
   ("get_project", handleGetProject);
   ("list_projects", handleListProjects);
   ("update_project", handleUpdateProject);
   ("delete_project", handleDeleteProject)].

Definition isCreate (tool : string) : bool :=
  String.eqb tool "create_document" || String.eqb tool "create_project".

End Catalogue.

(** ** Vocabulary of the properties *)

Module Spec.
Import Http.

(** The canonical answer to a schema failure according to the mapping
    table: a problem-details object, status 400, title "Validation Error". *)
Definition canonicalValidationError {A} (r : Response A) : Prop :=
  statusCode r = 400%Z
  /\ exists p, body r = ProblemDetails p
               /\ status p = 400%Z /\ title p = "Validation Error".



End Spec.

(** ** Sample data *)

Module Samples.
Import Http.

Definition env : Db.Env :=
  Db.mkEnv 1755676800000 (fun n => String.append "cknew0000000" (String (ascii_of_nat (48 + n)) ""))
           (fun _ => false).

(** The same environment with the store rejecting the insert of item 1. *)
Definition faultyEnv : Db.Env :=
  Db.mkEnv (Db.now env) (Db.freshId env) (fun i => Nat.eqb i 1).

Definition project1 : Db.Project := Db.mkProject "ckproject0001" "Test Project" 1 1.
Definition project2 : Db.Project := Db.mkProject "ckproject0002" "Second Project" 2 2.

Definition sprint1 : Db.Sprint :=
  Db.mkSprint "cksprint00001" "ckproject0001" "SPR-1" "First" Db.S_PLANNED
              (Some 100%Z) (Some 200%Z) 3 3.

Definition oldItem : Db.SprintItem :=
  Db.mkSprintItem "ckitem0000001" "cksprint00001" "old" true 0 3 3.

Definition document1 : Db.Document :=
  Db.mkDocument "ckdocument001" "ckproject0001" Db.FREEFORM "Test Document"
                (Some "test-document") "Test content" 4 4.

Definition store : Db.Store :=
  Db.mkStore [project1; project2] [document1] [] [sprint1] [oldItem].

Definition request {I} (i : I) : Request I :=
  mkRequest "/api/v1/resource" "req-1" (Some "req-1") i.

Definition document (projectId title : string) (slug : option string)
  : Documents.DocumentBody :=
  Documents.mkDocumentBody (Some projectId) (Some "FREEFORM") (Some title)
                           (Some "Test content") slug.

Definition noSprintFields : Sprints.SprintBody :=
  Sprints.mkSprintBody None None None None None None None.

Definition threeItems : list Sprints.ItemBody :=
  [Sprints.mkItemBody (Some "a") None None;
   Sprints.mkItemBody (Some "b") (Some true) (Some 0%Z);
   Sprints.mkItemBody (Some "c") None (Some 7%Z)].

Definition newSprint (startDate endDate : Z) : Sprints.SprintBody :=
  Sprints.mkSprintBody (Some "ckproject0001") (Some "SPR-2") (Some "Second") None
    (Some (Zod.IsoDatetime startDate)) (Some (Zod.IsoDatetime endDate)) (Some threeItems).

Definition renameWithItems : Sprints.SprintBody :=
  Sprints.mkSprintBody None None (Some "Renamed") None None None (Some threeItems).

(** A store with [n] documents in project 1. *)
Definition manyDocuments (n : nat) : Db.Store :=
  Db.mkStore [project1]
    (map (fun k => Db.mkDocument (String.append "ckdoc" (String (ascii_of_nat (48 + k)) ""))
                     "ckproject0001" Db.FREEFORM "t"
                     (Some (String (ascii_of_nat (97 + k)) "")) "c" 1 (Z.of_nat k))
         (seq 0 n))
    [] [] [].

(** A store with three sprints in project 1 and one feature. *)
Definition sprint2 : Db.Sprint :=
  Db.mkSprint "cksprint00002" "ckproject0001" "SPR-2" "Second" Db.S_ACTIVE None None 5 6.

Definition sprint3 : Db.Sprint :=
  Db.mkSprint "cksprint00003" "ckproject0001" "SPR-3" "Third" Db.S_PLANNED None None 7 8.

Definition feature1 : Db.Feature :=
  Db.mkFeature "ckfeature0001" "ckproject0001" "FEAT-001" "Login" "0.1.0" Db.F_PLANNED
               "auth" 5 5.

Definition busyStore : Db.Store :=
  Db.mkStore [project1; project2] [document1] [feature1] [sprint1; sprint2; sprint3]
             [oldItem].

(** A client that refuses a string where it expects an integer. *)
Definition strictClient : string -> option Z := fun _ => None.

(** A client that refuses a number that is not an integer, and one that
    drops its fractional part. *)
Definition integersOnly : Zod.Coerced -> option Z := fun _ => None.

Definition truncating (v : Zod.Coerced) : option Z :=
  match v with
  | Zod.NonInteger floor _ _ => Some floor
  | Zod.Num n => Some n
  | _ => None
  end.

Definition noQuery : Documents.DocumentQuery :=
  Documents.mkDocumentQuery None None None None None None.

Definition config : ApiClient.Config :=
  ApiClient.mkConfig "http://localhost:4000/api/v1" 30000 None.

Definition uuid : string := "123e4567-e89b-12d3-a456-426614174000".

Definition createDocumentArgs : Tools.Args :=
  Tools.mkArgs None None (Some "ckproject0001") (Some "FREEFORM") (Some "Test Document")
               (Some "Test content") None None None None None None None.

End Samples.

(* ===================================================================== *)
(** * Part I, continued — the remaining routes and the request-id hook     *)
(* ===================================================================== *)

(** ** Deletes, with the [ON DELETE CASCADE] of the init migration *)

Module Cascade.
Import Db.

Definition document_findUnique (id : Id) (st : Store) : option Document :=
  find (fun d => String.eqb (d_id d) id) (documents st).

(** [db.document.delete({ where: { id } })] *)
Definition document_delete (id : Id) (st : Store) : DbError + (Document * Store) :=
  match document_findUnique id st with
  | None => inl P2025
  | Some d =>
      inr (d, mkStore (projects st)
                (filter (fun x => negb (String.eqb (d_id x) id)) (documents st))
                (features st) (sprints st) (sprintItems st))
  end.

Definition feature_delete (id : Id) (st : Store) : DbError + (Feature * Store) :=
  match feature_findUnique id st with
  | None => inl P2025
  | Some f =>
      inr (f, mkStore (projects st) (documents st)
                (filter (fun x => negb (String.eqb (f_id x) id)) (features st))
                (sprints st) (sprintItems st))
  end.

(** [sprint_items_sprintId_fkey ... ON DELETE CASCADE]: the items go with
    the sprint. *)
Definition sprint_delete (id : Id) (st : Store) : DbError + (Sprint * Store) :=
  match sprint_findUnique id st with
  | None => inl P2025
  | Some s =>
      inr (s, mkStore (projects st) (documents st) (features st)
                (filter (fun x => negb (String.eqb (s_id x) id)) (sprints st))
                (filter (fun i => negb (String.eqb (i_sprintId i) id)) (sprintItems st)))
  end.

(** An item belongs to the project of its sprint. *)
Definition itemInProject (projectId : Id) (st : Store) (i : SprintItem) : bool :=
  existsb (fun s => String.eqb (s_id s) (i_sprintId i) && String.eqb (s_projectId s) projectId)
          (sprints st).

(** The three [..._projectId_fkey ... ON DELETE CASCADE]: documents,
    features and sprints go with the project, and the items with the
    sprints. *)
Definition project_delete (id : Id) (st : Store) : DbError + (Project * Store) :=
  match project_findUnique id st with
  | None => inl P2025
  | Some p =>
      inr (p, mkStore
                (filter (fun x => negb (String.eqb (p_id x) id)) (projects st))
                (filter (fun x => negb (String.eqb (d_projectId x) id)) (documents st))
                (filter (fun x => negb (String.eqb (f_projectId x) id)) (features st))
                (filter (fun x => negb (String.eqb (s_projectId x) id)) (sprints st))
                (filter (fun i => negb (itemInProject id st i)) (sprintItems st)))
  end.

End Cascade.

(** ** The routes on one entity: GET and DELETE [/:id] *)

Module ById.
Import Http ErrorHandler.

(** GET /documents/:id *)
Definition getDocument {I} (id : Db.Id) (request : Request I) (st : Db.Store)
  : Response Db.Document :=
  match Cascade.document_findUnique id st with
  | Some document => send 200 document
  | None => errorHandler (NotFoundError "Document not found") request
  end.

(** DELETE /documents/:id; the body of the 204 is [null]. *)
Definition deleteDocument {I} (id : Db.Id) (request : Request I) (st : Db.Store)
  : Db.Store * Response unit :=
  match Cascade.document_delete id st with
  | inr (_, st') => (st', send 204 tt)
  | inl Db.P2025 => (st, errorHandler (NotFoundError "Document not found") request)
  | inl e => (st, errorHandler (ofDbError e) request)
  end.

(** GET /projects/:id, with [_count] of its documents, features, sprints. *)
Definition getProject {I} (id : Db.Id) (request : Request I) (st : Db.Store)
  : Response (Db.Project * Projects.ProjectCounts) :=
  match Db.project_findUnique id st with
  | Some project => send 200 (project, Projects.countsOf st project)
  | None => errorHandler (NotFoundError "Project not found") request
  end.

(** DELETE /projects/:id *)
Definition deleteProject {I} (id : Db.Id) (request : Request I) (st : Db.Store)
  : Db.Store * Response unit :=
  match Cascade.project_delete id st with
  | inr (_, st') => (st', send 204 tt)
  | inl Db.P2025 => (st, errorHandler (NotFoundError "Project not found") request)
  | inl e => (st, errorHandler (ofDbError e) request)
  end.

(** GET /features/:id, with [project: { id, name }]. *)
Definition getFeature {I} (id : Db.Id) (request : Request I) (st : Db.Store)
  : Response (Db.Feature * option Db.Project) :=
  match Db.feature_findUnique id st with
  | None =>
      sendProblem (Features.problem request "not-found" "Feature Not Found" 404
                     ("Feature with ID " ++ id ++ " not found") [])
  | Some feature => send 200 (feature, Db.project_findUnique (Db.f_projectId feature) st)
  end.

(** DELETE /features/:id; the body of the 204 is [{}]. *)
Definition deleteFeature {I} (id : Db.Id) (request : Request I) (st : Db.Store)
  : Db.Store * Response unit :=
  match Db.feature_findUnique id st with
  | None =>
      (st, sendProblem (Features.problem request "not-found" "Feature Not Found" 404
                          ("Feature with ID " ++ id ++ " not found") []))
  | Some _ =>
      match Cascade.feature_delete id st with
      | inr (_, st') => (st', send 204 tt)
      | inl _ =>
          (st, Features.internalError request
                 "An unexpected error occurred while deleting the feature")
      end
  end.

Record SprintDetail := mkSprintDetail {
  sprint : Db.Sprint;
  project : option Db.Project;
  items : list Db.SprintItem
}.

(** [items: { orderBy: { order: 'asc' } }] *)
Definition itemsByOrder (rows : list Db.SprintItem) : list Db.SprintItem :=
  Db.orderBy (fun a b => (Db.i_order a <=? Db.i_order b)%Z) Db.asc rows.

(** GET /sprints/:id *)
Definition getSprint {I} (id : Db.Id) (request : Request I) (st : Db.Store)
  : Response SprintDetail :=
  match Db.sprint_findUnique id st with
  | None =>
      sendProblem (Features.problem request "not-found" "Sprint Not Found" 404
                     ("Sprint with ID " ++ id ++ " not found") [])
  | Some s =>
      send 200 (mkSprintDetail s (Db.project_findUnique (Db.s_projectId s) st)
                               (itemsByOrder (Db.sprintItems_of (Db.s_id s) st)))
  end.

(** DELETE /sprints/:id *)
Definition deleteSprint {I} (id : Db.Id) (request : Request I) (st : Db.Store)
  : Db.Store * Response unit :=
  match Db.sprint_findUnique id st with
  | None =>
      (st, sendProblem (Features.problem request "not-found" "Sprint Not Found" 404
                          ("Sprint with ID " ++ id ++ " not found") []))
  | Some _ =>
      match Cascade.sprint_delete id st with
      | inr (_, st') => (st', send 204 tt)
      | inl _ =>
          (st, Features.internalError request
                 "An unexpected error occurred while deleting the sprint")
      end
  end.

End ById.

(** ** [requestIdMiddleware] (api/src/middleware/request-id.ts) *)

Module RequestId.
Import Http.

(** A request as it arrives: the two headers the hook reads, the url and
    the body or query. *)
Record Incoming (I : Type) := mkIncoming {
  xRequestIdHeader : option string;
  xCorrelationIdHeader : option string;
  incomingUrl : string;
  incomingInput : I
}.

Arguments mkIncoming {I}.
Arguments xRequestIdHeader {I}.
Arguments xCorrelationIdHeader {I}.
Arguments incomingUrl {I}.
Arguments incomingInput {I}.

(** The hook: the request the handlers see, and the value of the
    [x-request-id] header it puts on the reply.  [randomUUID] is the value
    [randomUUID()] returns when it is called. *)
Definition requestIdMiddleware {I} (randomUUID : string) (incoming : Incoming I)
  : Request I * string :=
  let requestId :=
    if truthy (xRequestIdHeader incoming)
    then match xRequestIdHeader incoming with Some r => r | None => "" end
    else if truthy (xCorrelationIdHeader incoming)
    then match xCorrelationIdHeader incoming with Some r => r | None => "" end
    else randomUUID in
  (mkRequest (incomingUrl incoming) requestId (xRequestIdHeader incoming)
             (incomingInput incoming),
   requestId).

End RequestId.

(** ** Vocabulary of the further properties *)

Module Invariant.

(** The primary key of [documents]: no two rows share an id. *)
Definition documentIdsUnique (st : Db.Store) : Prop :=
  NoDup (map Db.d_id (Db.documents st)).

(** The unique index [documents_projectId_slug_key]: two rows of one
    project with the same slug are the same row. *)
Definition documentSlugsUnique (st : Db.Store) : Prop :=
  forall d1 d2 slug,
    In d1 (Db.documents st) -> In d2 (Db.documents st) ->
    Db.d_projectId d1 = Db.d_projectId d2 ->
    Db.d_slug d1 = Some slug -> Db.d_slug d2 = Some slug ->
    Db.d_id d1 = Db.d_id d2.

Definition documentsWellFormed (st : Db.Store) : Prop :=
  documentIdsUnique st /\ documentSlugsUnique st.

(** A list in ascending order for a boolean comparison. *)
Definition ascending {A} (leb : A -> A -> bool) (l : list A) : Prop :=
  Sorted (fun a b => leb a b = true) l.

(** A comparison that settles every pair one way or the other. *)
Definition totalTest {A} (leb : A -> A -> bool) : Prop :=
  forall a b, leb a b = true \/ leb b a = true.

(** The rows of a page in the direction asked for. *)
Definition inDirection {A} (leb : A -> A -> bool) (o : Db.SortOrder) (l : list A) : Prop :=
  match o with
  | Db.asc => ascending leb l
  | Db.desc => ascending (fun a b => leb b a) l
  end.

(** A response that, if it is a problem-details object, carries the
    [x-request-id] header of the request as it came (absent if the header
    was absent) and no [instance]. *)
Definition echoesHeader {I A} (request : Http.Request I) (r : Http.Response A) : Prop :=
  forall p, Http.body r = Http.ProblemDetails p ->
    Http.requestId p = Http.xRequestId request /\ Http.instance p = None.

End Invariant.
(* ===================================================================== *)
(** * Part II — properties                                                *)
(* ===================================================================== *)

Example slug_test_1 : Slug.generateSlug "Test Document" = "test-document".
Proof. reflexivity. Qed.
Example slug_test_2 : Slug.generateSlug "Test & Document!" = "test-document".
Proof. reflexivity. Qed.
Example slug_test_3 : Slug.generateSlug "Test   Multiple   Spaces" = "test-multiple-spaces".
Proof. reflexivity. Qed.
Example slug_test_4 : Slug.generateSlug "-Test Document-" = "test-document".
Proof. reflexivity. Qed.
Example slug_test_5 : Slug.generateSlug "a&b" = "ab".
Proof. reflexivity. Qed.
Example slug_test_6 : Slug.slugBySpecWording "a&b" = "a-b".
Proof. reflexivity. Qed.
Example slug_wording_1 :
  Slug.slugBySpecWording "Test & Document!" = "test-document"
  /\ Slug.slugBySpecWording "-Test Document-" = "test-document".
Proof. split; reflexivity. Qed.
Example slug_wording_2 :
  Slug.slugStrippedThenCollapsed "Test & Document!" = "test-document"
  /\ Slug.slugStrippedThenCollapsed "-Test Document-" = "test-document".
Proof. split; reflexivity. Qed.
Example slug_test_7 : Slug.slugOfWords " - a -- b&c - " = "a-bc".
Proof. reflexivity. Qed.
Example slug_test_8 : Slug.generateSlug " - a -- b&c - " = "a-bc".
Proof. reflexivity. Qed.

(** ** The slug pipeline *)

Section SlugPipeline.
Import Chars Slug.

Lemma space_not_hyphen c : isSpace c = true -> isHyphen c = false.
Proof.
  unfold isSpace, isHyphen, between.
  destruct (Nat.eqb_spec (code c) 45) as [-> | _]; [discriminate | reflexivity].
Qed.

Lemma isHyphen_eq c : isHyphen c = true -> c = hyphen.
Proof.
  unfold isHyphen, code. intros H. apply Nat.eqb_eq in H.
  rewrite <- (ascii_nat_embedding c), H. reflexivity.
Qed.

(** Replacing the runs of white space and then the runs of hyphens is
    replacing the runs of separators. *)
Lemma collapse_space_then_hyphen s : forall b1 b2,
  (b1 = true -> b2 = true) ->
  collapse isHyphen b2 (collapse isSpace b1 s) = collapse isSeparator b2 s.
Proof.
  induction s as [| c r IH]; intros b1 b2 Hb; [reflexivity |].
  cbn [collapse]. unfold isSeparator at 1.
  destruct (isSpace c) eqn:Hs.
  - cbn [orb]. destruct b1.
    + rewrite (Hb eq_refl). apply IH. auto.
    + cbn [collapse]. change (isHyphen hyphen) with true. cbv iota.
      destruct b2; rewrite (IH true true); auto.
  - cbn [orb collapse]. destruct (isHyphen c) eqn:Hh.
    + destruct b2; rewrite (IH false true); auto; discriminate.
    + rewrite (IH false false); auto.
Qed.

Variable p : ascii -> bool.
Hypothesis p_hyphen : forall c, isHyphen c = true -> p c = true.

Lemma not_p_not_hyphen c : p c = false -> isHyphen c = false.
Proof.
  intros H. destruct (isHyphen c) eqn:E; [| reflexivity].
  rewrite (p_hyphen c E) in H. discriminate.
Qed.

Lemma stripLeading_collapse s :
  stripLeading (collapse p false s) = collapse p true s.
Proof.
  destruct s as [| c r]; [reflexivity |]. cbn [collapse].
  destruct (p c) eqn:E; cbn [stripLeading].
  - reflexivity.
  - rewrite (not_p_not_hyphen c E). reflexivity.
Qed.

Lemma split_cons s : exists w ws, split p s = w :: ws.
Proof.
  induction s as [| c r [w [ws E]]]; cbn [split].
  - eauto.
  - destruct (p c); [eauto |]. rewrite E. eauto.
Qed.

Lemma collapse_true_nil s : collapse p true s = [] <-> words p s = [].
Proof.
  unfold words. induction s as [| c r IH]; cbn [collapse split].
  - cbn. tauto.
  - destruct (p c).
    + cbn [filter nonEmpty]. exact IH.
    + destruct (split_cons r) as [w [ws E]]. rewrite E. cbn. split; discriminate.
Qed.

Lemma stripTrailing_cons c d s :
  stripTrailing (c :: d :: s) = c :: stripTrailing (d :: s).
Proof. reflexivity. Qed.

(** After a separator ([prev = true]) and inside a word ([prev = false]). *)
Lemma collapse_words s :
  stripTrailing (collapse p true s) = joinHyphen (words p s)
  /\ forall c, p c = false ->
       stripTrailing (c :: collapse p false s)
       = joinHyphen (filter nonEmpty
           (match split p s with w :: ws => (c :: w) :: ws | [] => [[c]] end)).
Proof.
  induction s as [| d r [IH1 IH2]].
  - split; [reflexivity |]. intros c Hc. cbn.
    rewrite (not_p_not_hyphen c Hc). reflexivity.
  - split.
    + unfold words. cbn [collapse split]. destruct (p d) eqn:Hd.
      * cbn [filter nonEmpty]. exact IH1.
      * apply IH2, Hd.
    + intros c Hc. cbn [collapse split]. destruct (p d) eqn:Hd.
      * cbn [filter nonEmpty]. fold (words p r).
        rewrite stripTrailing_cons.
        destruct (collapse p true r) as [| e t] eqn:Ec.
        -- apply collapse_true_nil in Ec. rewrite Ec. reflexivity.
        -- rewrite stripTrailing_cons, IH1.
           destruct (words p r) as [| w ws] eqn:Ew.
           ++ apply collapse_true_nil in Ew. congruence.
           ++ reflexivity.
      * rewrite stripTrailing_cons, (IH2 d Hd).
        destruct (split_cons r) as [w [ws E]]. rewrite E.
        cbn [filter nonEmpty joinHyphen].
        destruct (filter nonEmpty ws); reflexivity.
Qed.

End SlugPipeline.

Lemma split_pieces (p : ascii -> bool) (s w : list ascii) :
  In w (Slug.split p s) -> Forall (fun c => p c = false /\ In c s) w.
Proof.
  revert w. induction s as [| c r IH]; intros w Hin.
  - cbn in Hin. destruct Hin as [<- | []]. constructor.
  - cbn [Slug.split] in Hin.
    assert (Hr : forall v, In v (Slug.split p r) ->
                   Forall (fun x => p x = false /\ In x (c :: r)) v).
    { intros v Hv. eapply Forall_impl; [| exact (IH v Hv)].
      cbn. intros x [? ?]. auto. }
    destruct (p c) eqn:Ec.
    + destruct Hin as [<- | Hin]; [constructor | auto].
    + destruct (Slug.split p r) as [| w0 ws] eqn:Es.
      * destruct Hin as [<- | []]. repeat constructor; auto.
      * destruct Hin as [<- | Hin].
        -- constructor; [cbn; auto | apply Hr; now left].
        -- apply Hr. now right.
Qed.

Lemma groups_word (w r : list ascii) (prev : bool) :
  Forall (fun c => Slug.isAlnum c = true) w -> w <> [] ->
  Slug.groups prev (w ++ r) = Slug.groups true r.
Proof.
  intros Hw. revert prev. induction Hw as [| c w Hc Hw IH]; intros prev Hne; [congruence |].
  cbn. rewrite Hc. destruct w as [| d w']; [reflexivity |].
  apply IH. discriminate.
Qed.

Lemma groups_joinHyphen (ws : list (list ascii)) :
  Forall (fun w => Forall (fun c => Slug.isAlnum c = true) w /\ w <> []) ws ->
  ws <> [] ->
  Slug.groups false (Slug.joinHyphen ws) = true.
Proof.
  induction 1 as [| w rest [Hw Hne] Hrest IH]; intros Hws; [congruence |].
  cbn [Slug.joinHyphen]. destruct rest as [| w2 rest'].
  - rewrite <- (app_nil_r w). now rewrite (groups_word w [] false Hw Hne).
  - rewrite (groups_word w _ false Hw Hne).
    cbn [Slug.groups]. change (Slug.isAlnum Slug.hyphen) with false.
    change (Chars.isHyphen Slug.hyphen) with true. cbn [andb].
    apply IH. discriminate.
Qed.

(** The words of a slug are not empty and consist of letters and digits. *)
Lemma slug_words_alnum (l : list ascii) :
  Forall (fun w => Forall (fun c => Slug.isAlnum c = true) w /\ w <> [])
         (Slug.words Slug.isSeparator (filter Slug.kept l)).
Proof.
  apply Forall_forall. intros w Hw. unfold Slug.words in Hw.
  apply filter_In in Hw as [Hin Hne]. split.
  - eapply Forall_impl; [| exact (split_pieces _ _ _ Hin)].
    cbn. intros c [Hsep Hc]. apply filter_In in Hc as [_ Hk].
    unfold Slug.isSeparator in Hsep. unfold Slug.kept in Hk. unfold Slug.isAlnum.
    apply orb_false_iff in Hsep as [Hs Hh]. rewrite <- orb_assoc, Hs, Hh in Hk.
    now rewrite !orb_false_r in Hk.
  - destruct w; [discriminate | discriminate].
Qed.

Lemma slugOfWords_wellShaped (title : string) :
  Slug.wellShaped (Slug.slugOfWords title) = true.
Proof.
  unfold Slug.wellShaped, Slug.slugOfWords.
  rewrite list_ascii_of_string_of_list_ascii.
  destruct (Slug.joinHyphen _) as [| c r] eqn:E; [reflexivity |].
  rewrite <- E. apply groups_joinHyphen; [apply slug_words_alnum |].
  intros Hnil. rewrite Hnil in E. discriminate.
Qed.

Lemma generateSlug_words title :
  Slug.generateSlug title = Slug.slugOfWords title.
Proof.
  unfold Slug.generateSlug, Slug.slugOfWords, Slug.generateSlugChars, Slug.replaceRuns.
  f_equal.
  rewrite collapse_space_then_hyphen by auto.
  assert (Hp : forall c, Chars.isHyphen c = true -> Slug.isSeparator c = true).
  { intros c H. unfold Slug.isSeparator. rewrite H. apply orb_true_r. }
  rewrite (stripLeading_collapse _ Hp).
  apply (collapse_words _ Hp).
Qed.

(** ** Parsing *)

Lemma finish_inr {D} (issues : Zod.Issues) (d x : D) :
  Zod.finish issues d = inr x -> issues = [] /\ x = d.
Proof.
  destruct issues; cbn; intros H; [injection H as <-; auto | discriminate].
Qed.

Lemma finish_inl {D} (issues found : Zod.Issues) (d : D) :
  Zod.finish issues d = inl found -> found = issues.
Proof.
  destruct issues; cbn; intros H; [discriminate | injection H as <-; reflexivity].
Qed.

(** ** Documents: the slug of a new document *)

(** C2 (amended).  A valid document creation without an explicit slug, in
    an existing project where the generated slug is free, is answered 201
    and stores the slug made of the words of the lower-cased title: every
    character other than a-z, 0-9, white space and the hyphen is deleted
    (it does not separate words), and the words between runs of white
    space and hyphens are joined by single hyphens.  The slug therefore
    consists of groups of letters and digits separated by single hyphens,
    with no hyphen at either end. *)
Theorem generated_slug_is_words_of_title
    (env : Db.Env) (request : Http.Request Documents.DocumentBody) (st : Db.Store)
    (data : Documents.CreateDocumentInput) :
  Documents.createDocumentSchema (Http.input request) = inr data ->
  Documents.slug (Http.input request) = None ->
  Db.project_findUnique (Documents.c_projectId data) st <> None ->
  Db.slugTaken (Documents.c_projectId data)
               (Some (Slug.slugOfWords (Documents.c_title data))) None st = false ->
  let document :=
    Db.mkDocument (Db.freshId env 0) (Documents.c_projectId data) (Documents.c_kind data)
                  (Documents.c_title data) (Some (Slug.slugOfWords (Documents.c_title data)))
                  (Documents.c_content data) (Db.now env) (Db.now env) in
  Documents.postDocuments env request st
  = (Db.mkStore (Db.projects st) (Db.documents st ++ [document]) (Db.features st)
                (Db.sprints st) (Db.sprintItems st),
     Http.send 201 document)
  /\ Slug.wellShaped (Slug.slugOfWords (Documents.c_title data)) = true.
Proof.
  intros Hparse Hslug Hproject Hfree document. subst document.
  split; [| apply slugOfWords_wellShaped].
  unfold Documents.postDocuments. rewrite Hparse.
  apply finish_inr in Hparse as [_ ->].
  unfold Documents.slugFor. cbn [Documents.c_slug Documents.c_title Documents.c_projectId
    Documents.c_kind Documents.c_content] in *.
  rewrite Hslug in *. cbn [Http.truthy].
  rewrite generateSlug_words.
  destruct (Db.project_findUnique _ st); [| congruence].
  unfold Db.document_create. rewrite Hfree. reflexivity.
Qed.

Lemma generated_slug_is_words_of_title_witness :
  Documents.postDocuments Samples.env
    (Samples.request (Samples.document "ckproject0001" "  Release -- Notes (v2)!" None))
    Samples.store
  = (Db.mkStore (Db.projects Samples.store)
       (Db.documents Samples.store
        ++ [Db.mkDocument "cknew00000000" "ckproject0001" Db.FREEFORM
              "  Release -- Notes (v2)!" (Some "release-notes-v2") "Test content"
              1755676800000 1755676800000])
       [] (Db.sprints Samples.store) (Db.sprintItems Samples.store),
     Http.send 201
       (Db.mkDocument "cknew00000000" "ckproject0001" Db.FREEFORM
          "  Release -- Notes (v2)!" (Some "release-notes-v2") "Test content"
          1755676800000 1755676800000)).
Proof.
  apply (fun h1 h2 h3 h4 =>
           proj1 (generated_slug_is_words_of_title Samples.env
           (Samples.request (Samples.document "ckproject0001" "  Release -- Notes (v2)!" None))
           Samples.store
           (Documents.mkCreateDocumentInput "ckproject0001" Db.FREEFORM
              "  Release -- Notes (v2)!" "Test content" None) h1 h2 h3 h4)).
  - reflexivity.
  - reflexivity.
  - discriminate.
  - reflexivity.
Defined.

(** C2, as stated, fails.  With the title "a&b" the stored slug is "ab",
    while non-alphanumerics acting as hyphen separators would give "a-b";
    and with the title "a-b" the stored slug is "a-b", while stripping the
    characters outside a-z, 0-9 and white space would give "ab". *)
Lemma slug_punctuation_is_not_a_separator :
  (exists document,
     snd (Documents.postDocuments Samples.env
            (Samples.request (Samples.document "ckproject0001" "a&b" None)) Samples.store)
     = Http.send 201 document
     /\ Db.d_slug document = Some "ab"
     /\ Slug.slugBySpecWording "a&b" = "a-b"
     /\ Db.d_slug document <> Some (Slug.slugBySpecWording "a&b"))
  /\ (exists document,
        snd (Documents.postDocuments Samples.env
               (Samples.request (Samples.document "ckproject0001" "a-b" None)) Samples.store)
        = Http.send 201 document
        /\ Db.d_slug document = Some "a-b"
        /\ Slug.slugStrippedThenCollapsed "a-b" = "ab"
        /\ Db.d_slug document <> Some (Slug.slugStrippedThenCollapsed "a-b")).
Proof.
  split; eexists; (split; [reflexivity |]); cbn; repeat split; discriminate.
Qed.

(** ** Documents: uniqueness of (project, slug) *)

(** Only the documents of the same project count for the unique index. *)
Lemma slugTaken_false_iff (projectId : Db.Id) (slug : string) (st : Db.Store) :
  Db.slugTaken projectId (Some slug) None st = false
  <-> forall d, In d (Db.documents st) ->
        Db.d_projectId d = projectId -> Db.d_slug d <> Some slug.
Proof.
  unfold Db.slugTaken. split.
  - intros H d Hin Hp Hs.
    assert (E : existsb (fun d0 => String.eqb (Db.d_projectId d0) projectId
                          && Db.optEqb (Db.d_slug d0) (Some slug) && true)
                        (Db.documents st) = true).
    { apply existsb_exists. exists d. split; [exact Hin |].
      rewrite Hp, Hs. cbn. now rewrite !String.eqb_refl. }
    congruence.
  - intros H. destruct (existsb _ _) eqn:E; [| reflexivity].
    apply existsb_exists in E as [d [Hin Hd]].
    apply andb_true_iff in Hd as [Hd _]. apply andb_true_iff in Hd as [Hp Hs].
    apply String.eqb_eq in Hp.
    destruct (Db.d_slug d) as [x |] eqn:Ex; cbn in Hs; [| discriminate].
    apply String.eqb_eq in Hs. subst x. exfalso. exact (H d Hin Hp Ex).
Qed.

(** A second document with a slug already used in the project is answered
    409 and nothing is stored, as long as the text of the conflict message
    does not match [/rate\s*limit/i]. *)
Lemma duplicate_slug_conflict
    (env : Db.Env) (request : Http.Request Documents.DocumentBody) (st : Db.Store)
    (data : Documents.CreateDocumentInput) :
  Documents.createDocumentSchema (Http.input request) = inr data ->
  Db.project_findUnique (Documents.c_projectId data) st <> None ->
  Db.slugTaken (Documents.c_projectId data) (Some (Documents.slugFor data)) None st = true ->
  Pattern.mentionsRateLimit
    ("Document with slug '" ++ Documents.slugFor data ++ "' already exists in this project")
  = false ->
  fst (Documents.postDocuments env request st) = st
  /\ Http.statusCode (snd (Documents.postDocuments env request st)) = 409%Z.
Proof.
  intros Hparse Hproject Htaken Hmsg.
  unfold Documents.postDocuments. rewrite Hparse.
  destruct (Db.project_findUnique _ st); [| congruence].
  unfold Db.document_create. rewrite Htaken.
  unfold ErrorHandler.errorHandler, ErrorHandler.ConflictError.
  cbn [ErrorHandler.class ErrorHandler.e_statusCode ErrorHandler.e_status
       ErrorHandler.message ErrorHandler.is429 ErrorHandler.e_code ErrorHandler.name].
  rewrite Hmsg. cbn. auto.
Qed.

(** C6 (the code at the failing input).  In one project a repeated slug
    "test-document" is answered 409 and the same slug is accepted in
    another project; but a repeated slug "ratelimit" is answered 429
    "Rate Limit Exceeded": the conflict message quotes the slug and the
    error handler tests the message against [/rate\s*limit/i] before it
    looks at the status code of the error. *)
Theorem duplicate_slug_ratelimit_answered_429 :
  Http.statusCode
    (snd (Documents.postDocuments Samples.env
            (Samples.request (Samples.document "ckproject0001" "Test Document" None))
            Samples.store)) = 409%Z
  /\ Http.statusCode
       (snd (Documents.postDocuments Samples.env
               (Samples.request (Samples.document "ckproject0002" "Test Document" None))
               Samples.store)) = 201%Z
  /\ let body := Samples.document "ckproject0001" "ratelimit" None in
     let first := Documents.postDocuments Samples.env (Samples.request body) Samples.store in
     let second := Documents.postDocuments Samples.env (Samples.request body) (fst first) in
     Http.statusCode (snd first) = 201%Z
     /\ Http.statusCode (snd second) = 429%Z
     /\ fst second = fst first
     /\ exists p, Http.body (snd second) = Http.ProblemDetails p
                  /\ Http.title p = "Rate Limit Exceeded".
Proof.
  split; [reflexivity |]. split; [reflexivity |].
  cbv zeta. split; [reflexivity |]. split; [reflexivity |]. split; [reflexivity |].
  eexists. split; reflexivity.
Qed.

(** ** Documents and projects: partial updates *)

(** C7 (the code at the failing input).  [updateDocumentSchema] rejects an
    empty title and the slug "Invalid Slug!", yet PATCH /documents/:id
    answers 200 and stores both; PATCH /projects/:id stores an empty name
    in the same way. *)
Theorem patch_document_stores_malformed_fields :
  let body := Documents.mkDocumentBody None None (Some "") None (Some "Invalid Slug!") in
  let patched :=
    Documents.patchDocument Samples.env "ckdocument001" (Samples.request body) Samples.store in
  let renamed :=
    Projects.patchProject Samples.env "ckproject0001"
      (Samples.request (Projects.mkProjectBody (Some ""))) Samples.store in
  (exists issues, Documents.updateDocumentSchema body = inl issues
                  /\ List.length issues = 2%nat)
  /\ Http.statusCode (snd patched) = 200%Z
  /\ map (fun d => (Db.d_title d, Db.d_slug d)) (Db.documents (fst patched))
     = [("", Some "Invalid Slug!")]
  /\ (exists issues,
        Projects.updateProjectSchema (Projects.mkProjectBody (Some "")) = inl issues)
  /\ Http.statusCode (snd renamed) = 200%Z
  /\ map Db.p_name (Db.projects (fst renamed)) = [""; "Second Project"].
Proof.
  cbv zeta. split; [eexists; split; reflexivity |].
  split; [reflexivity |]. split; [reflexivity |].
  split; [eexists; reflexivity |]. split; reflexivity.
Qed.

(** ** Documents: the list query *)

Lemma finish_issue {D} (issues : Zod.Issues) (d : D) (i : Zod.Issue) :
  In i issues -> Zod.finish issues d = inl issues.
Proof. destruct issues; [contradiction | reflexivity]. Qed.

Lemma out_of_range_issue (lo : Z) (hi : option Z) (p : list Zod.PathSeg) (n : Z) :
  (n < lo)%Z \/ match hi with Some h => (h < n)%Z | None => False end ->
  exists i, In i (Zod.optional (Zod.zCoerceRange lo hi) p (Some (Zod.Num n))).
Proof.
  intros [H | H]; cbn.
  - apply Z.ltb_lt in H. rewrite H. eexists. left. reflexivity.
  - destruct hi as [h |]; [| contradiction]. apply Z.ltb_lt in H. rewrite H.
    eexists. apply in_or_app. right. left. reflexivity.
Qed.

(** GET /sprints and GET /features answer 422 to a [limit] outside
    [[1,100]] and to a negative [offset]. *)
Lemma sprint_list_bounds_enforced asInt request st n :
  (Sprints.q_limit (Http.input request) = Some (Zod.Num n) /\ (n < 1 \/ 100 < n)%Z)
  \/ (Sprints.q_offset (Http.input request) = Some (Zod.Num n) /\ (n < 0)%Z) ->
  Http.statusCode (Sprints.getSprints asInt request st) = 422%Z.
Proof.
  intros H. unfold Sprints.getSprints, Sprints.ListSprintsQuerySchema.
  match goal with
  | |- context [Zod.finish ?l ?d] =>
      assert (E : exists i, In i l);
        [| destruct E as [i Hi]; rewrite (finish_issue l d i Hi); reflexivity]
  end.
  destruct H as [[E Hn] | [E Hn]]; rewrite E.
  - destruct (out_of_range_issue 1 (Some 100%Z) [Zod.Key "limit"] n) as [i Hi];
      [destruct Hn; auto |].
    exists i. do 2 (apply in_or_app; right). apply in_or_app. left. exact Hi.
  - destruct (out_of_range_issue 0 None [Zod.Key "offset"] n) as [i Hi]; [auto |].
    exists i. do 3 (apply in_or_app; right). apply in_or_app. left. exact Hi.
Qed.

Lemma feature_list_bounds_enforced asInt request st n :
  (Features.q_limit (Http.input request) = Some (Zod.Num n) /\ (n < 1 \/ 100 < n)%Z)
  \/ (Features.q_offset (Http.input request) = Some (Zod.Num n) /\ (n < 0)%Z) ->
  Http.statusCode (Features.getFeatures asInt request st) = 422%Z.
Proof.
  intros H. unfold Features.getFeatures, Features.ListFeaturesQuerySchema.
  match goal with
  | |- context [Zod.finish ?l ?d] =>
      assert (E : exists i, In i l);
        [| destruct E as [i Hi]; rewrite (finish_issue l d i Hi); reflexivity]
  end.
  destruct H as [[E Hn] | [E Hn]]; rewrite E.
  - destruct (out_of_range_issue 1 (Some 100%Z) [Zod.Key "limit"] n) as [i Hi];
      [destruct Hn; auto |].
    exists i. do 3 (apply in_or_app; right). apply in_or_app. left. exact Hi.
  - destruct (out_of_range_issue 0 None [Zod.Key "offset"] n) as [i Hi]; [auto |].
    exists i. do 4 (apply in_or_app; right). apply in_or_app. left. exact Hi.
Qed.

(** C8 (the code at the failing input).  GET /documents does not run its
    query through a schema.  Without [limit] all 21 matching documents are
    returned and no limit is reported: the default of 20 is not applied.
    [limit=1000] and [offset=-1] are handed to the store as they are;
    whatever the client makes of them, the answer is 200 or 500 and never
    a validation failure, and it is 500 when the client refuses strings.
    GET /sprints answers the same two queries 422. *)
Theorem list_documents_query_is_not_validated :
  (forall asInt,
     exists list,
       Documents.getDocuments asInt (Samples.request Samples.noQuery)
                              (Samples.manyDocuments 21)
       = Http.send 200 list
       /\ List.length (Documents.documents list) = 21%nat
       /\ Documents.total list = 21%nat
       /\ Documents.limit list = None)
  /\ (forall asInt query,
        query = Documents.mkDocumentQuery None None (Some "1000") None None None
        \/ query = Documents.mkDocumentQuery None None None (Some "-1") None None ->
        In (Http.statusCode
              (Documents.getDocuments asInt (Samples.request query)
                                      (Samples.manyDocuments 21)))
           [200; 500]%Z)
  /\ Http.statusCode
       (Documents.getDocuments Samples.strictClient
          (Samples.request (Documents.mkDocumentQuery None None (Some "1000") None None None))
          (Samples.manyDocuments 21)) = 500%Z
  /\ (forall asNumber,
        Http.statusCode
          (Sprints.getSprints asNumber
             (Samples.request
                (Sprints.mkSprintQuery None None (Some (Zod.Num 1000)) None None None))
             Samples.store) = 422%Z)
  /\ (forall asNumber,
        Http.statusCode
          (Sprints.getSprints asNumber
             (Samples.request
                (Sprints.mkSprintQuery None None None (Some (Zod.Num (-1))) None None))
             Samples.store) = 422%Z).
Proof.
  split; [intros asInt; eexists; split; [reflexivity | repeat split] |].
  split; [| repeat split].
  intros asInt query [-> | ->]; unfold Documents.getDocuments;
    cbn [Http.input Samples.request Documents.documentWhere Documents.documentOrderBy
         Documents.q_kind Documents.q_sortOrder Documents.q_limit Documents.q_offset
         Http.truthy Documents.intArgument].
  - destruct (asInt "1000") as [n |]; [| cbn; auto].
    unfold Db.findMany, Db.window. cbn [Z.ltb Z.compare].
    destruct (0 <=? n)%Z; cbn; auto.
  - destruct (asInt "-1") as [k |]; [| cbn; auto].
    unfold Db.findMany, Db.window.
    destruct (k <? 0)%Z; cbn; auto.
Qed.

(** ** How a schema failure is answered *)

(** C1 (amended).  A schema failure is answered in three ways, nothing
    being written in any of them.  (1) A [ZodError] that reaches the
    central [errorHandler] becomes the problem-details object with status
    400 and title "Validation Error".  (2) The Sprint and Feature routes
    (create, update, list) catch the failure themselves and answer the
    problem-details object with status 422 and title "Validation Failed",
    carrying the issues.  (3) POST /projects and POST /documents answer
    status 400 with the body [{ error: 'Validation failed', details }]. *)
Theorem schema_failure_responses :
  (forall I A (issues : Zod.Issues) (request : Http.Request I),
     @ErrorHandler.errorHandler I A (ErrorHandler.ZodError issues) request
     = Http.mkResponse 400 Http.problemJson
         (Http.ProblemDetails
            (Http.mkProblem "https://1plan.dev/errors/validation-error" "Validation Error"
               400 "Request validation failed" (Some (Http.url request))
               (Some (Http.id request))
               [("errors", Http.XIssues issues); ("statusCode", Http.XNumber 400)])))
  /\ (forall I A (request : Http.Request I) detail issues,
        @Features.validationFailed I A request detail issues
        = Http.mkResponse 422 Http.json
            (Http.ProblemDetails
               (Http.mkProblem "https://1plan.dev/errors/validation-failed"
                  "Validation Failed" 422 detail None (Http.xRequestId request)
                  [("issues", Http.XIssues issues)])))
  /\ (forall env request st issues,
        Sprints.CreateSprintSchema (Http.input request) = inl issues ->
        Sprints.postSprints env request st
        = (st, Features.validationFailed request "Request body contains invalid data" issues))
  /\ (forall env id request st issues,
        Sprints.UpdateSprintSchema (Http.input request) = inl issues ->
        Sprints.patchSprint env id request st
        = (st, Features.validationFailed request "Request body contains invalid data" issues))
  /\ (forall asInt request st issues,
        Sprints.ListSprintsQuerySchema (Http.input request) = inl issues ->
        Sprints.getSprints asInt request st
        = Features.validationFailed request "Query parameters contain invalid data" issues)
  /\ (forall env request st issues,
        Features.CreateFeatureSchema (Http.input request) = inl issues ->
        Features.postFeatures env request st
        = (st, Features.validationFailed request "Request body contains invalid data" issues))
  /\ (forall env id request st issues,
        Features.UpdateFeatureSchema (Http.input request) = inl issues ->
        Features.patchFeature env id request st
        = (st, Features.validationFailed request "Request body contains invalid data" issues))
  /\ (forall asInt request st issues,
        Features.ListFeaturesQuerySchema (Http.input request) = inl issues ->
        Features.getFeatures asInt request st
        = Features.validationFailed request "Query parameters contain invalid data" issues)
  /\ (forall env request st issues,
        Projects.createProjectSchema (Http.input request) = inl issues ->
        Projects.postProjects env request st
        = (st, Http.mkResponse 400 Http.json (Http.ValidationFailed issues)))
  /\ (forall env request st issues,
        Documents.createDocumentSchema (Http.input request) = inl issues ->
        Documents.postDocuments env request st
        = (st, Http.mkResponse 400 Http.json (Http.ValidationFailed issues))).
Proof.
  repeat apply conj.
  - reflexivity.
  - reflexivity.
  - intros env request st issues H. unfold Sprints.postSprints. now rewrite H.
  - intros env id request st issues H. unfold Sprints.patchSprint. now rewrite H.
  - intros asInt request st issues H. unfold Sprints.getSprints. now rewrite H.
  - intros env request st issues H. unfold Features.postFeatures. now rewrite H.
  - intros env id request st issues H. unfold Features.patchFeature. now rewrite H.
  - intros asInt request st issues H. unfold Features.getFeatures. now rewrite H.
  - intros env request st issues H. unfold Projects.postProjects. now rewrite H.
  - intros env request st issues H. unfold Documents.postDocuments. now rewrite H.
Qed.

Lemma schema_failure_responses_witness :
  exists issues,
    Sprints.postSprints Samples.env (Samples.request Samples.noSprintFields) Samples.store
    = (Samples.store,
       Features.validationFailed (Samples.request Samples.noSprintFields)
         "Request body contains invalid data" issues)
    /\ List.length issues = 3%nat.
Proof.
  eexists. split.
  - apply (proj1 (proj2 (proj2 schema_failure_responses))). reflexivity.
  - reflexivity.
Defined.

(** C1, as stated, fails: a sprint creation without the required fields
    fails the schema and is answered 422 "Validation Failed". *)
Lemma sprint_schema_failure_is_not_400 :
  (exists issues, Sprints.CreateSprintSchema Samples.noSprintFields = inl issues)
  /\ Http.statusCode
       (snd (Sprints.postSprints Samples.env (Samples.request Samples.noSprintFields)
               Samples.store)) = 422%Z
  /\ ~ Spec.canonicalValidationError
         (snd (Sprints.postSprints Samples.env (Samples.request Samples.noSprintFields)
                 Samples.store)).
Proof.
  split; [eexists; reflexivity |]. split; [reflexivity |].
  intros [H _]. cbn in H. discriminate.
Qed.

(** ** Sprints: the item loop inside the transaction *)

Section ItemLoop.
Variable env : Db.Env.
Variable sprintId : Db.Id.

(** A rejected insert anywhere in the loop makes the loop throw. *)
Lemma createItems_fault items : forall i tx,
  (exists k, (k < List.length items)%nat /\ Db.itemInsertFails env (i + k) = true) ->
  exists e, Sprints.createItems env sprintId i items tx = inl e.
Proof.
  induction items as [| item rest IH]; intros i tx [k [Hk Hf]]; [cbn in Hk; lia |].
  cbn [Sprints.createItems]. unfold Db.sprintItem_create.
  destruct (Db.itemInsertFails env i) eqn:Ei; [eauto |].
  destruct k as [| k].
  - rewrite Nat.add_0_r in Hf. congruence.
  - destruct (IH (S i) (Db.mkStore (Db.projects tx) (Db.documents tx) (Db.features tx)
                         (Db.sprints tx)
                         (Db.sprintItems tx
                          ++ [Db.mkSprintItem (Db.freshId env (S i)) sprintId
                                (Sprints.it_text item) (Sprints.it_checked item)
                                (Sprints.storedOrder item i) (Db.now env) (Db.now env)])))
      as [e He].
    + exists k. split; [cbn in Hk; lia |]. rewrite <- Hf. f_equal. lia.
    + rewrite He. eauto.
Qed.

(** With no rejected insert the loop succeeds. *)
Lemma createItems_succeeds items : forall i tx,
  (forall k, (k < List.length items)%nat -> Db.itemInsertFails env (i + k) = false) ->
  exists created tx', Sprints.createItems env sprintId i items tx = inr (created, tx').
Proof.
  induction items as [| item rest IH]; intros i tx Hok; [cbn; eauto |].
  cbn [Sprints.createItems]. unfold Db.sprintItem_create.
  assert (H0 : Db.itemInsertFails env i = false).
  { rewrite <- (Nat.add_0_r i). apply Hok. cbn. lia. }
  rewrite H0.
  match goal with
  | |- context [Sprints.createItems env sprintId (S i) rest ?t] =>
      destruct (IH (S i) t) as [created [tx' E]]
  end.
  - intros k Hk. replace (S i + k)%nat with (i + S k)%nat by lia. apply Hok. cbn. lia.
  - rewrite E. eauto.
Qed.

(** What a successful loop leaves: the new rows, appended in order, one per
    submitted item, all of the sprint; the other tables untouched. *)
Lemma createItems_rows items : forall i tx created tx',
  Sprints.createItems env sprintId i items tx = inr (created, tx') ->
  Db.sprintItems tx' = Db.sprintItems tx ++ created
  /\ Db.projects tx' = Db.projects tx /\ Db.documents tx' = Db.documents tx
  /\ Db.features tx' = Db.features tx /\ Db.sprints tx' = Db.sprints tx
  /\ List.length created = List.length items
  /\ Forall (fun row => Db.i_sprintId row = sprintId) created
  /\ forall k item, nth_error items k = Some item ->
       exists row, nth_error created k = Some row
                   /\ Db.i_text row = Sprints.it_text item
                   /\ Db.i_checked row = Sprints.it_checked item
                   /\ Db.i_order row = Sprints.storedOrder item (i + k).
Proof.
  induction items as [| item rest IH]; intros i tx created tx' H.
  - cbn in H. injection H as <- <-. rewrite app_nil_r.
    repeat split; auto. intros [| k] item Hk; discriminate.
  - cbn [Sprints.createItems] in H. unfold Db.sprintItem_create in H.
    destruct (Db.itemInsertFails env i); [discriminate |].
    match type of H with
    | context [Sprints.createItems env sprintId (S i) rest ?t] =>
        destruct (Sprints.createItems env sprintId (S i) rest t)
          as [e | [more tx1]] eqn:E; [discriminate |]
    end.
    injection H as <- <-.
    destruct (IH _ _ _ _ E) as (Hi & Hp & Hd & Hf & Hs & Hl & Hall & Hnth).
    cbn in Hi, Hp, Hd, Hf, Hs.
    repeat split; auto.
    + rewrite Hi, <- app_assoc. reflexivity.
    + cbn. now rewrite Hl.
    + intros [| k] it Hk.
      * cbn in Hk. injection Hk as <-. eexists. split; [reflexivity |].
        cbn. rewrite Nat.add_0_r. auto.
      * cbn in Hk. destruct (Hnth k it Hk) as [row [Hr Hprops]].
        exists row. split; [exact Hr |].
        replace (i + S k)%nat with (S i + k)%nat by lia. exact Hprops.
Qed.

End ItemLoop.

Lemma sprint_update_tables env id code name status startDate endDate st updated st' :
  Db.sprint_update env id code name status startDate endDate st = inr (updated, st') ->
  Db.sprintItems st' = Db.sprintItems st /\ Db.projects st' = Db.projects st
  /\ Db.documents st' = Db.documents st /\ Db.features st' = Db.features st.
Proof.
  unfold Db.sprint_update. destruct (Db.sprint_findUnique id st); [| discriminate].
  destruct (match code with Some _ => _ | None => _ end); [discriminate |].
  intros H. injection H as <- <-. cbn. auto.
Qed.

Lemma filter_filter_neq (id other : Db.Id) (rows : list Db.SprintItem) :
  other <> id ->
  filter (fun i => String.eqb (Db.i_sprintId i) other)
         (filter (fun i => negb (String.eqb (Db.i_sprintId i) id)) rows)
  = filter (fun i => String.eqb (Db.i_sprintId i) other) rows.
Proof.
  intros Hne. induction rows as [| r rows IH]; [reflexivity |]. cbn.
  destruct (String.eqb_spec (Db.i_sprintId r) id) as [E | E]; cbn.
  - destruct (String.eqb_spec (Db.i_sprintId r) other) as [E' | _]; [congruence | exact IH].
  - destruct (String.eqb (Db.i_sprintId r) other); [f_equal |]; exact IH.
Qed.

Lemma filter_same_after_delete (id : Db.Id) (rows : list Db.SprintItem) :
  filter (fun i => String.eqb (Db.i_sprintId i) id)
         (filter (fun i => negb (String.eqb (Db.i_sprintId i) id)) rows) = [].
Proof.
  induction rows as [| r rows IH]; [reflexivity |]. cbn.
  destruct (String.eqb (Db.i_sprintId r) id) eqn:E; cbn; [exact IH |].
  rewrite E. exact IH.
Qed.

Lemma filter_all_of (id : Db.Id) (rows : list Db.SprintItem) :
  Forall (fun row => Db.i_sprintId row = id) rows ->
  filter (fun i => String.eqb (Db.i_sprintId i) id) rows = rows.
Proof.
  induction 1 as [| r rows Hr _ IH]; [reflexivity |]. cbn.
  rewrite Hr, String.eqb_refl. now f_equal.
Qed.

Lemma filter_none_of (id other : Db.Id) (rows : list Db.SprintItem) :
  other <> id ->
  Forall (fun row => Db.i_sprintId row = id) rows ->
  filter (fun i => String.eqb (Db.i_sprintId i) other) rows = [].
Proof.
  intros Hne. induction 1 as [| r rows Hr _ IH]; [reflexivity |]. cbn.
  rewrite Hr. destruct (String.eqb_spec id other); [congruence | exact IH].
Qed.

(** ** Sprints: replacing the items of a sprint *)

Lemma find_map_other {A} (key : A -> string) (id other : string) (new : A) (l : list A) :
  other <> id -> key new = id ->
  find (fun x => String.eqb (key x) other)
       (map (fun x => if String.eqb (key x) id then new else x) l)
  = find (fun x => String.eqb (key x) other) l.
Proof.
  intros Hne Hnew. induction l as [| y l IH]; cbn; [reflexivity |].
  destruct (String.eqb_spec (key y) id) as [E | E].
  - rewrite Hnew. destruct (String.eqb_spec id other) as [E' | _]; [congruence |].
    destruct (String.eqb_spec (key y) other) as [E' | _]; [congruence | exact IH].
  - now rewrite IH.
Qed.

Lemma find_map_same {A} (key : A -> string) (id : string) (new old : A) (l : list A) :
  key new = id ->
  find (fun x => String.eqb (key x) id) l = Some old ->
  find (fun x => String.eqb (key x) id)
       (map (fun x => if String.eqb (key x) id then new else x) l) = Some new.
Proof.
  intros Hnew. induction l as [| y l IH]; cbn; [discriminate |].
  destruct (String.eqb (key y) id) eqn:E.
  - intros _. now rewrite Hnew, String.eqb_refl.
  - rewrite E. exact IH.
Qed.


Lemma update_sprint_strings (b : Sprints.SprintBody) (updates : Sprints.UpdateSprint) :
  Sprints.UpdateSprintSchema b = inr updates ->
  (if Http.truthy (Sprints.u_code updates) then Sprints.u_code updates else None)
  = Sprints.u_code updates
  /\ (if Http.truthy (Sprints.u_name updates) then Sprints.u_name updates else None)
     = Sprints.u_name updates.
Proof.
  intros H. apply finish_inr in H as [H ->]. cbn [Sprints.u_code Sprints.u_name].
  apply app_eq_nil in H as [Hcode H]. apply app_eq_nil in H as [Hname _].
  split.
  - destruct (Sprints.code b) as [c |]; [| reflexivity].
    unfold Http.truthy. destruct (String.eqb_spec c "") as [-> | _]; [| reflexivity].
    discriminate Hcode.
  - destruct (Sprints.name b) as [n |]; [| reflexivity].
    unfold Http.truthy. destruct (String.eqb_spec n "") as [-> | _]; [| reflexivity].
    discriminate Hname.
Qed.

(** C3.  A sprint update that carries an [items] array is all or nothing.
    Either it is answered 200, and then the sprint row of the store is the
    row of the response: the stored row with each of code, name, status
    and the two dates replaced by the value of the body where it gives
    one; the items of the sprint are exactly the newly inserted rows, one
    per submitted item; and every other sprint and its items are
    untouched.  Or it is not answered 200 and the whole store, sprint row
    included, is as it was.  If the store rejects any of the item inserts,
    the second case applies. *)
Theorem sprint_item_replacement_is_atomic
    (env : Db.Env) (id : Db.Id) (request : Http.Request Sprints.SprintBody)
    (st st' : Db.Store) (response : Http.Response Sprints.SprintWithItems)
    (updates : Sprints.UpdateSprint) (newItems : list Sprints.Item) :
  Sprints.UpdateSprintSchema (Http.input request) = inr updates ->
  Sprints.u_items updates = Some newItems ->
  Sprints.patchSprint env id request st = (st', response) ->
  ((exists existing updated created,
      Db.sprint_findUnique id st = Some existing
      /\ response = Http.send 200 (Sprints.mkSprintWithItems updated created)
      /\ Db.sprints st'
         = map (fun s => if String.eqb (Db.s_id s) id then updated else s) (Db.sprints st)
      /\ Db.sprint_findUnique id st' = Some updated
      /\ Db.s_id updated = id
      /\ Db.s_projectId updated = Db.s_projectId existing
      /\ Db.s_code updated = Db.orElse (Sprints.u_code updates) (Db.s_code existing)
      /\ Db.s_name updated = Db.orElse (Sprints.u_name updates) (Db.s_name existing)
      /\ Db.s_status updated = Db.orElse (Sprints.u_status updates) (Db.s_status existing)
      /\ Db.s_startDate updated
         = match Sprints.u_startDate updates with
           | Some t => Some t
           | None => Db.s_startDate existing
           end
      /\ Db.s_endDate updated
         = match Sprints.u_endDate updates with
           | Some t => Some t
           | None => Db.s_endDate existing
           end
      /\ Db.sprintItems_of id st' = created
      /\ map Db.i_text created = map Sprints.it_text newItems
      /\ (forall other, other <> id ->
            Db.sprintItems_of other st' = Db.sprintItems_of other st)
      /\ (forall other, other <> id ->
            Db.sprint_findUnique other st' = Db.sprint_findUnique other st))
   \/ (Http.statusCode response <> 200%Z /\ st' = st))
  /\ ((exists k, (k < List.length newItems)%nat /\ Db.itemInsertFails env k = true) ->
      Http.statusCode response <> 200%Z /\ st' = st).
Proof.
  intros Hparse Hitems Hrun.
  destruct (update_sprint_strings _ _ Hparse) as [Hcode Hname].
  unfold Sprints.patchSprint in Hrun. rewrite Hparse in Hrun.
  assert (Hfail : forall r : Http.Response Sprints.SprintWithItems,
             Http.statusCode r <> 200%Z -> (st, r) = (st', response) ->
             Http.statusCode response <> 200%Z /\ st' = st).
  { intros r Hr E. injection E as <- <-. auto. }
  destruct (Db.sprint_findUnique id st) as [existing |] eqn:Efound;
    [| split; [right | intros _]; refine (Hfail _ _ Hrun); cbn; discriminate].
  destruct (Sprints.codeConflict updates existing st);
    [split; [right | intros _]; refine (Hfail _ _ Hrun); cbn; discriminate |].
  destruct (Sprints.endNotAfterStart _ _);
    [split; [right | intros _]; refine (Hfail _ _ Hrun); cbn; discriminate |].
  unfold Db.transaction, Sprints.updateSprintTx in Hrun.
  rewrite Hcode, Hname in Hrun.
  destruct (Db.sprint_update _ _ _ _ _ _ _ st) as [e | [updated tx]] eqn:Eu;
    [split; [right | intros _]; refine (Hfail _ _ Hrun); cbn; discriminate |].
  rewrite Hitems in Hrun.
  destruct (Sprints.createItems env id 0 newItems (Db.sprintItem_deleteMany id tx))
    as [e | [created tx']] eqn:Ec;
    [split; [right | intros _]; refine (Hfail _ _ Hrun); cbn; discriminate |].
  injection Hrun as <- <-.
  destruct (createItems_rows _ _ _ _ _ _ _ Ec) as (Hi & _ & _ & _ & Hs & Hl & Hall & Hnth).
  destruct (sprint_update_tables _ _ _ _ _ _ _ _ _ _ Eu) as (Hsame & _).
  cbn [Db.sprintItem_deleteMany Db.sprintItems Db.sprints] in Hi, Hs.
  rewrite Hsame in Hi.
  assert (Hid : Db.s_id existing = id).
  { apply find_some in Efound as [_ H]. now apply String.eqb_eq. }
  unfold Db.sprint_update in Eu. rewrite Efound in Eu.
  match type of Eu with
  | context [if ?c then inl _ else inr _] => destruct c
  end; [discriminate |].
  injection Eu as Eupdated Etx.
  assert (Hrows : Db.sprints tx'
                  = map (fun s => if String.eqb (Db.s_id s) id then updated else s)
                        (Db.sprints st)).
  { rewrite Hs, <- Etx, <- Eupdated. reflexivity. }
  assert (Hnew : Db.s_id updated = id).
  { rewrite <- Eupdated.
    destruct (Db.given _ || _ || _ || _ || _); [exact Hid | exact Hid]. }
  split.
  - left. exists existing, updated, created.
    split; [reflexivity |]. split; [reflexivity |]. split; [exact Hrows |].
    split.
    { unfold Db.sprint_findUnique in *. rewrite Hrows.
      apply (find_map_same Db.s_id id updated existing _ Hnew Efound). }
    split; [exact Hnew |].
    split; [| split; [| split; [| split; [| split; [| split]]]]];
      try (rewrite <- Eupdated;
           destruct (Sprints.u_code updates), (Sprints.u_name updates),
             (Sprints.u_status updates), (Sprints.u_startDate updates),
             (Sprints.u_endDate updates); reflexivity).
    unfold Db.sprintItems_of. rewrite Hi, !filter_app.
    split; [| split; [| split]].
    + rewrite filter_same_after_delete, (filter_all_of _ _ Hall). reflexivity.
    + clear - Hl Hnth. apply nth_error_ext. intros k.
      rewrite !nth_error_map.
      destruct (nth_error newItems k) as [item |] eqn:Ek.
      * destruct (Hnth k item Ek) as [row [Hr [Ht _]]]. rewrite Hr. cbn. now rewrite Ht.
      * apply nth_error_None in Ek. rewrite <- Hl in Ek.
        apply nth_error_None in Ek. now rewrite Ek.
    + intros other Hne. rewrite filter_app.
      rewrite (filter_filter_neq _ _ _ Hne), (filter_none_of _ _ _ Hne Hall).
      apply app_nil_r.
    + intros other Hne. unfold Db.sprint_findUnique. rewrite Hrows.
      apply (find_map_other Db.s_id id other updated _ Hne Hnew).
  - intros [k [Hk Hf]].
    destruct (createItems_fault env id newItems 0 (Db.sprintItem_deleteMany id tx)
                (ex_intro _ k (conj Hk Hf))) as [e He].
    congruence.
Qed.

Lemma sprint_item_replacement_is_atomic_witness :
  (Http.statusCode
     (snd (Sprints.patchSprint Samples.faultyEnv "cksprint00001"
             (Samples.request Samples.renameWithItems) Samples.store)) <> 200%Z
   /\ fst (Sprints.patchSprint Samples.faultyEnv "cksprint00001"
             (Samples.request Samples.renameWithItems) Samples.store) = Samples.store)
  /\ exists updated,
       Db.sprint_findUnique "cksprint00001"
         (fst (Sprints.patchSprint Samples.env "cksprint00001"
                 (Samples.request Samples.renameWithItems) Samples.store)) = Some updated
       /\ Db.s_name updated = "Renamed"
       /\ Db.s_code updated = "SPR-1"
       /\ map Db.i_text
            (Db.sprintItems_of "cksprint00001"
               (fst (Sprints.patchSprint Samples.env "cksprint00001"
                       (Samples.request Samples.renameWithItems) Samples.store)))
          = ["a"; "b"; "c"].
Proof.
  split.
  - apply (sprint_item_replacement_is_atomic Samples.faultyEnv "cksprint00001"
             (Samples.request Samples.renameWithItems) Samples.store _ _ _ _
             eq_refl eq_refl eq_refl).
    exists 1%nat. split; [cbn; lia | reflexivity].
  - destruct (sprint_item_replacement_is_atomic Samples.env "cksprint00001"
                (Samples.request Samples.renameWithItems) Samples.store _ _ _ _
                eq_refl eq_refl eq_refl) as [[H | [H _]] _]; [| now elim H].
    destruct H as (existing & updated & created & Hfound & _ & _ & Hstored & _ & _
                   & Hcode & Hname & _ & _ & _ & Hitems & Htexts & _).
    injection Hfound as <-.
    exists updated. split; [exact Hstored |]. split; [exact Hname |].
    split; [exact Hcode |].
    exact (eq_trans (f_equal (map Db.i_text) Hitems) Htexts).
Defined.

Example sprint_items_replaced :
  let result := Sprints.patchSprint Samples.env "cksprint00001"
                  (Samples.request Samples.renameWithItems) Samples.store in
  Http.statusCode (snd result) = 200%Z
  /\ map Db.s_name (Db.sprints (fst result)) = ["Renamed"]
  /\ map (fun i => (Db.i_text i, Db.i_order i)) (Db.sprintItems (fst result))
     = [("a", 0%Z); ("b", 1%Z); ("c", 7%Z)].
Proof. cbv zeta. repeat split. Qed.

(** ** Sprints: the stored order of an item *)





(** ** Sprints: the order of the two dates *)

(** C5.  A sprint creation that passes the schema, names an existing
    project and a free code, and whose end date is not after its start
    date (in particular, whose start date is after its end date) is
    answered 422 "Validation Failed" and stores nothing.  A sprint update
    is checked in the same way on the dates that would result: for each of
    the two the value of the request if it has one, the stored value
    otherwise; a violation is answered 422 and stores nothing. *)
Theorem sprint_dates_must_be_ordered :
  (forall env request st data s e,
     Sprints.CreateSprintSchema (Http.input request) = inr data ->
     Db.project_findUnique (Sprints.c_projectId data) st <> None ->
     Db.sprint_findByCode (Sprints.c_projectId data) (Sprints.c_code data) st = None ->
     Sprints.c_startDate data = Some s ->
     Sprints.c_endDate data = Some e ->
     (e <= s)%Z ->
     Sprints.postSprints env request st
     = (st, Http.mkResponse 422 Http.json
              (Http.ProblemDetails
                 (Http.mkProblem "https://1plan.dev/errors/validation-failed"
                    "Validation Failed" 422 "End date must be after start date"
                    None (Http.xRequestId request) []))))
  /\ (forall env id request st updates existing s e,
        Sprints.UpdateSprintSchema (Http.input request) = inr updates ->
        Db.sprint_findUnique id st = Some existing ->
        Sprints.codeConflict updates existing st = false ->
        Sprints.effectiveDate (Sprints.u_startDate updates) (Db.s_startDate existing) = Some s ->
        Sprints.effectiveDate (Sprints.u_endDate updates) (Db.s_endDate existing) = Some e ->
        (e <= s)%Z ->
        Sprints.patchSprint env id request st
        = (st, Http.mkResponse 422 Http.json
                 (Http.ProblemDetails
                    (Http.mkProblem "https://1plan.dev/errors/validation-failed"
                       "Validation Failed" 422 "End date must be after start date"
                       None (Http.xRequestId request) []))))
  /\ (forall env request st data s e,
        Sprints.CreateSprintSchema (Http.input request) = inr data ->
        Sprints.c_startDate data = Some s ->
        Sprints.c_endDate data = Some e ->
        (e <= s)%Z ->
        fst (Sprints.postSprints env request st) = st
        /\ In (Http.statusCode (snd (Sprints.postSprints env request st)))
              [404; 409; 422]%Z)
  /\ (forall env id request st updates,
        Sprints.UpdateSprintSchema (Http.input request) = inr updates ->
        (forall existing, Db.sprint_findUnique id st = Some existing ->
           Sprints.endNotAfterStart
             (Sprints.effectiveDate (Sprints.u_startDate updates) (Db.s_startDate existing))
             (Sprints.effectiveDate (Sprints.u_endDate updates) (Db.s_endDate existing))
           = true) ->
        fst (Sprints.patchSprint env id request st) = st
        /\ In (Http.statusCode (snd (Sprints.patchSprint env id request st)))
              [404; 409; 422]%Z).
Proof.
  repeat apply conj.
  - intros env request st data s e Hparse Hproject Hcode Hs He Hle.
    unfold Sprints.postSprints. rewrite Hparse.
    destruct (Db.project_findUnique _ st); [| congruence].
    rewrite Hcode, Hs, He. unfold Sprints.endNotAfterStart.
    apply Z.leb_le in Hle. rewrite Hle. reflexivity.
  - intros env id request st updates existing s e Hparse Hfind Hcode Hs He Hle.
    unfold Sprints.patchSprint. rewrite Hparse, Hfind, Hcode, Hs, He.
    unfold Sprints.endNotAfterStart. apply Z.leb_le in Hle. rewrite Hle. reflexivity.
  - intros env request st data s e Hparse Hs He Hle.
    unfold Sprints.postSprints. rewrite Hparse.
    destruct (Db.project_findUnique _ st); [| cbn; auto].
    destruct (Db.sprint_findByCode _ _ st); [cbn; auto |].
    rewrite Hs, He. unfold Sprints.endNotAfterStart.
    apply Z.leb_le in Hle. rewrite Hle. cbn. auto.
  - intros env id request st updates Hparse Hdates.
    unfold Sprints.patchSprint. rewrite Hparse.
    destruct (Db.sprint_findUnique id st) as [existing |]; [| cbn; auto].
    destruct (Sprints.codeConflict updates existing st); [cbn; auto |].
    rewrite (Hdates existing eq_refl). cbn. auto.
Qed.

Lemma sprint_dates_must_be_ordered_witness :
  Http.statusCode
    (snd (Sprints.postSprints Samples.env (Samples.request (Samples.newSprint 200 100))
            Samples.store)) = 422%Z
  /\ fst (Sprints.postSprints Samples.env (Samples.request (Samples.newSprint 200 100))
            Samples.store) = Samples.store.
Proof.
  rewrite (proj1 sprint_dates_must_be_ordered Samples.env
             (Samples.request (Samples.newSprint 200 100)) Samples.store _ 200%Z 100%Z
             eq_refl ltac:(discriminate) eq_refl eq_refl eq_refl ltac:(lia)).
  split; reflexivity.
Defined.

(** The update compares a new start date with the stored end date. *)
Example sprint_update_mixes_new_and_stored_dates :
  let body := Sprints.mkSprintBody None None None None (Some (Zod.IsoDatetime 300)) None None in
  Sprints.UpdateSprintSchema body <> inl []
  /\ Http.statusCode
       (snd (Sprints.patchSprint Samples.env "cksprint00001" (Samples.request body)
               Samples.store)) = 422%Z.
Proof. cbv zeta. split; [discriminate | reflexivity]. Qed.

(** ** Listing: the total and the length of the page *)

Lemma length_insertBy {A} (leb : A -> A -> bool) (x : A) (l : list A) :
  List.length (Db.insertBy leb x l) = S (List.length l).
Proof.
  induction l as [| y r IH]; [reflexivity |]. cbn.
  destruct (leb x y); cbn; [reflexivity | now rewrite IH].
Qed.

Lemma length_sortBy {A} (leb : A -> A -> bool) (l : list A) :
  List.length (Db.sortBy leb l) = List.length l.
Proof.
  unfold Db.sortBy. induction l as [| x r IH]; [reflexivity |].
  cbn [fold_right List.length]. now rewrite length_insertBy, IH.
Qed.

Lemma length_orderBy {A} (leb : A -> A -> bool) (o : Db.SortOrder) (l : list A) :
  List.length (Db.orderBy leb o l) = List.length l.
Proof. destruct o; apply length_sortBy. Qed.


(** The length of a window, whatever the sign of [take]. *)
Lemma window_length {A} (take skip : option Z) (rows page : list A) :
  Db.window take skip rows = inr page ->
  let offset := match skip with Some k => k | None => 0%Z end in
  let rest := Z.max 0 (Z.of_nat (List.length rows) - offset) in
  (0 <= offset)%Z
  /\ Z.of_nat (List.length page)
     = match take with
       | Some limit => Z.min (Z.abs limit) rest
       | None => rest
       end.
Proof.
  unfold Db.window. cbv zeta.
  destruct (Z.ltb_spec (match skip with Some k => k | None => 0%Z end) 0);
    [discriminate |].
  destruct take as [n |].
  - destruct (Z.leb_spec 0 n); intros E; injection E as <-.
    + rewrite length_firstn, length_skipn. lia.
    + rewrite length_rev, length_firstn, length_skipn, length_rev. lia.
  - intros E. injection E as <-. rewrite length_skipn. lia.
Qed.




Lemma documentOrderBy_length q order :
  Documents.documentOrderBy q = inr order ->
  forall l, List.length (order l) = List.length l.
Proof.
  unfold Documents.documentOrderBy.
  destruct (Documents.q_sortOrder q) as [o |]; [| intros H; injection H as <-; reflexivity].
  destruct (Documents.q_sortBy q) as [column |]; [| discriminate].
  destruct (Documents.documentOrder column); [| discriminate].
  destruct (Documents.sortOrderOf o); [| discriminate].
  intros H. injection H as <-. intros l. apply length_orderBy.
Qed.

Lemma both_sides (A B C D : Prop) : (A <-> C) -> (B <-> D) -> (A /\ B <-> C /\ D).
Proof. tauto. Qed.

(** The rows a filter of GET /features and of GET /sprints selects. *)
Lemma featureWhere_selects projectId status area matches :
  Features.featureWhere projectId status area = inr matches ->
  Http.truthy area = false
  /\ forall f, matches f = true
       <-> (forall p, projectId = Some p -> p <> "" -> Db.f_projectId f = p)
           /\ (forall s, status = Some s -> Db.f_status f = s).
Proof.
  unfold Features.featureWhere. destruct (Http.truthy area); [discriminate |].
  intros H. injection H as <-. split; [reflexivity |]. intros f.
  rewrite Bool.andb_true_iff. apply both_sides.
  - destruct projectId as [p |]; cbn [Http.truthy Features.get].
    + destruct (String.eqb_spec p "") as [-> | Hp]; cbn [negb].
      * split; [intros _ q E Hq; injection E as <-; now elim Hq | reflexivity].
      * rewrite String.eqb_eq. split; [intros <- q E _; now injection E | auto].
    + split; [discriminate | reflexivity].
  - destruct status as [s |]; [| split; [discriminate | reflexivity]].
    rewrite String.eqb_eq. split.
    + intros E s' Es. injection Es as <-.
      destruct (Db.f_status f), s; (reflexivity || discriminate E).
    + intros H. now rewrite (H s eq_refl).
Qed.

Lemma sprintWhere_selects projectId status s :
  Sprints.sprintWhere projectId status s = true
  <-> (forall p, projectId = Some p -> p <> "" -> Db.s_projectId s = p)
      /\ (forall x, status = Some x -> Db.s_status s = x).
Proof.
  unfold Sprints.sprintWhere.
  rewrite Bool.andb_true_iff. apply both_sides.
  - destruct projectId as [p |]; cbn [Http.truthy Sprints.get].
    + destruct (String.eqb_spec p "") as [-> | Hp]; cbn [negb].
      * split; [intros _ q E Hq; injection E as <-; now elim Hq | reflexivity].
      * rewrite String.eqb_eq. split; [intros <- q E _; now injection E | auto].
    + split; [discriminate | reflexivity].
  - destruct status as [x |]; [| split; [discriminate | reflexivity]].
    rewrite String.eqb_eq. split.
    + intros E x' Ex. injection Ex as <-.
      destruct (Db.s_status s), x; (reflexivity || discriminate E).
    + intros H. now rewrite (H x eq_refl).
Qed.

(** GET /features answers 500 to every query with an [area]: the client
    refuses the filter the route builds for it. *)
Lemma feature_area_filter_is_refused asInt request st query :
  Features.ListFeaturesQuerySchema (Http.input request) = inr query ->
  Http.truthy (Features.l_area query) = true ->
  Http.statusCode (Features.getFeatures asInt request st) = 500%Z.
Proof.
  intros Hparse Harea. unfold Features.getFeatures, Features.featureWhere.
  rewrite Hparse, Harea. reflexivity.
Qed.




(** ** The gateway: request id and idempotency key *)

(** The two headers of a request built without extra headers. *)
Lemma request_headers {B} config uuid method path (body : option B)
    (requestId idempotencyKey : option string) :
  let r := ApiClient.request config uuid method path
             (ApiClient.mkOptions body None requestId idempotencyKey) in
  ApiClient.header "X-Request-ID" (ApiClient.r_headers r)
  = Some (if Http.truthy requestId then Documents.get requestId else uuid)
  /\ ApiClient.header "X-Idempotency-Key" (ApiClient.r_headers r)
     = (if Http.truthy idempotencyKey then idempotencyKey else None).
Proof.
  unfold ApiClient.request.
  cbn [ApiClient.o_requestId ApiClient.o_headers ApiClient.o_idempotencyKey
       ApiClient.r_headers ApiClient.spread fold_left].
  destruct (Http.truthy (ApiClient.token config));
    destruct idempotencyKey as [k |]; cbn [Http.truthy];
    try destruct (negb (String.eqb k "")); cbn;
    destruct requestId as [r |]; cbn; try destruct (negb (String.eqb r "")); auto.
Qed.

(** C9 (amended).  Every HTTP request issued by a document or project tool
    carries [X-Request-ID]: the caller's request id if it gave a non-empty
    one, an identifier generated by the gateway otherwise.  It carries
    [X-Idempotency-Key] exactly when the tool is a create tool and the
    caller gave a non-empty key, which is then sent as it is; the gateway
    generates no idempotency key. *)
Theorem gateway_request_headers
    (searchParams : list (string * ApiClient.QueryValue) -> string)
    (config : ApiClient.Config) (uuid tool : string) (handler : Catalogue.Handler)
    (args : Tools.Args) (request : ApiClient.HttpRequest ApiClient.Sent) :
  In (tool, handler) (Catalogue.handlers searchParams) ->
  handler config uuid args = inr request ->
  ApiClient.header "X-Request-ID" (ApiClient.r_headers request)
  = Some (if Http.truthy (Tools.a_requestId args)
          then Documents.get (Tools.a_requestId args) else uuid)
  /\ ApiClient.header "X-Idempotency-Key" (ApiClient.r_headers request)
     = (if Catalogue.isCreate tool && Http.truthy (Tools.a_idempotencyKey args)
        then Tools.a_idempotencyKey args else None).
Proof.
  intros Hin Hrun. cbn in Hin.
  repeat (destruct Hin as [Hin | Hin]; [injection Hin as <- <- |]); [.. | contradiction];
    cbv beta in Hrun;
    unfold Tools.handleCreateDocument, Tools.handleGetDocument, Tools.handleListDocuments,
           Tools.handleUpdateDocument, Tools.handleDeleteDocument, Tools.handleCreateProject,
           Tools.handleGetProject, Tools.handleListProjects, Tools.handleUpdateProject,
           Tools.handleDeleteProject
      in Hrun;
    match type of Hrun with
    | context [Zod.finish ?i ?d] =>
        destruct (Zod.finish i d) as [issues | validatedArgs] eqn:Hparse; [discriminate |];
          apply finish_inr in Hparse as [_ ->]
    end;
    injection Hrun as <-;
    unfold ApiClient.createDocument, ApiClient.getDocument, ApiClient.getDocuments,
           ApiClient.updateDocument, ApiClient.deleteDocument, ApiClient.createProject,
           ApiClient.getProject, ApiClient.getProjects, ApiClient.updateProject,
           ApiClient.deleteProject, ApiClient.only;
    match goal with
    | |- context [ApiClient.request ?c ?u ?m ?p (ApiClient.mkOptions ?b None ?r ?k)] =>
        destruct (request_headers c u m p b r k) as [H1 H2]
    end;
    cbv zeta in H1, H2; rewrite H1, H2; cbn [Catalogue.isCreate String.eqb Ascii.eqb
      Bool.eqb orb andb Http.truthy]; auto.
Qed.

Lemma gateway_request_headers_witness :
  exists request,
    Tools.handleCreateDocument Samples.config Samples.uuid Samples.createDocumentArgs
    = inr request
    /\ ApiClient.header "X-Request-ID" (ApiClient.r_headers request) = Some Samples.uuid
    /\ ApiClient.header "X-Idempotency-Key" (ApiClient.r_headers request) = None.
Proof.
  eexists. split; [reflexivity |].
  apply (gateway_request_headers (fun _ => "") Samples.config Samples.uuid
           "create_document" Tools.handleCreateDocument Samples.createDocumentArgs _
           (or_introl eq_refl) eq_refl).
Defined.

(** C9, as stated, fails: [create_document] called without an idempotency
    key issues its POST without an [X-Idempotency-Key] header. *)
Lemma create_without_idempotency_key_sends_none :
  Catalogue.isCreate "create_document" = true
  /\ Tools.a_idempotencyKey Samples.createDocumentArgs = None
  /\ exists request,
       Tools.handleCreateDocument Samples.config Samples.uuid Samples.createDocumentArgs
       = inr request
       /\ ApiClient.r_method request = "POST"
       /\ ApiClient.header "X-Idempotency-Key" (ApiClient.r_headers request) = None
       /\ ~ (exists key,
               ApiClient.header "X-Idempotency-Key" (ApiClient.r_headers request) = Some key).
Proof.
  split; [reflexivity |]. split; [reflexivity |].
  eexists. split; [reflexivity |]. split; [reflexivity |]. split; [reflexivity |].
  intros [key H]. cbn in H. discriminate.
Qed.

(* ===================================================================== *)
(** * Part II, continued — further properties of the code                 *)
(* ===================================================================== *)

(** ** [generateSlug]: a slug is a fixed point, and fits the slug pattern *)

Lemma alnum_or_hyphen_lower (c : ascii) :
  Slug.isAlnum c || Chars.isHyphen c = true ->
  Chars.toLowerChar c = c /\ Slug.kept c = true.
Proof.
  destruct c as [[|] [|] [|] [|] [|] [|] [|] [|]]; cbv; intros H;
    first [discriminate H | split; reflexivity].
Qed.

Lemma alnum_not_separator (c : ascii) :
  Slug.isAlnum c = true -> Slug.isSeparator c = false.
Proof.
  destruct c as [[|] [|] [|] [|] [|] [|] [|] [|]]; cbv; intros H;
    first [discriminate H | reflexivity].
Qed.

Lemma split_app_word (p : ascii -> bool) (w r : list ascii) :
  Forall (fun c => p c = false) w ->
  Slug.split p (w ++ r)
  = match Slug.split p r with
    | h :: t => (w ++ h) :: t
    | [] => [w]
    end.
Proof.
  induction 1 as [| c w Hc _ IH]; cbn [app Slug.split].
  - destruct (split_cons p r) as [h [t E]]. rewrite E. reflexivity.
  - rewrite Hc, IH. destruct (Slug.split p r); reflexivity.
Qed.

(** Splitting the joined words gives the words back. *)
Lemma words_joinHyphen (p : ascii -> bool) (ws : list (list ascii)) :
  p Slug.hyphen = true ->
  Forall (fun w => Forall (fun c => p c = false) w /\ w <> []) ws ->
  Slug.words p (Slug.joinHyphen ws) = ws.
Proof.
  intros Hp. induction 1 as [| w rest [Hw Hne] Hrest IH]; [reflexivity |].
  cbn [Slug.joinHyphen]. unfold Slug.words in *. destruct rest as [| w2 rest'].
  - rewrite <- (app_nil_r w), (split_app_word p w [] Hw). cbn [Slug.split filter].
    rewrite app_nil_r. destruct w; [congruence | reflexivity].
  - rewrite (split_app_word p w _ Hw). cbn [Slug.split]. rewrite Hp.
    cbn [filter]. rewrite app_nil_r, IH. destruct w; [congruence | reflexivity].
Qed.

Lemma joinHyphen_chars (ws : list (list ascii)) :
  Forall (fun w => Forall (fun c => Slug.isAlnum c = true) w /\ w <> []) ws ->
  Forall (fun c => Slug.isAlnum c || Chars.isHyphen c = true) (Slug.joinHyphen ws).
Proof.
  induction 1 as [| w rest [Hw _] Hrest IH]; [constructor |].
  assert (Hw' : Forall (fun c => Slug.isAlnum c || Chars.isHyphen c = true) w).
  { eapply Forall_impl; [| exact Hw]. cbn. intros c ->. reflexivity. }
  cbn [Slug.joinHyphen]. destruct rest; [exact Hw' |].
  apply Forall_app. split; [exact Hw' |]. constructor; [reflexivity | exact IH].
Qed.

Lemma lower_and_filter_fixed (s : list ascii) :
  Forall (fun c => Slug.isAlnum c || Chars.isHyphen c = true) s ->
  filter Slug.kept (Slug.toLowerCase s) = s.
Proof.
  induction 1 as [| c s Hc _ IH]; [reflexivity |].
  destruct (alnum_or_hyphen_lower c Hc) as [Hl Hk].
  cbn. rewrite Hl, Hk. unfold Slug.toLowerCase in IH. now rewrite IH.
Qed.

Lemma length_string_of_list (l : list ascii) :
  String.length (string_of_list_ascii l) = List.length l.
Proof. induction l as [| c l IH]; cbn; [reflexivity | now rewrite IH]. Qed.

Lemma length_list_of_string (s : string) :
  List.length (list_ascii_of_string s) = String.length s.
Proof. induction s as [| c s IH]; cbn; [reflexivity | now rewrite IH]. Qed.

(** X1.  A slug is a fixed point of [generateSlug]: generating a slug from
    a generated slug changes nothing. *)
Theorem generateSlug_idempotent (title : string) :
  Slug.generateSlug (Slug.generateSlug title) = Slug.generateSlug title.
Proof.
  rewrite !generateSlug_words. unfold Slug.slugOfWords at 1.
  unfold Slug.slugOfWords. rewrite list_ascii_of_string_of_list_ascii.
  set (ws := Slug.words Slug.isSeparator
               (filter Slug.kept (Slug.toLowerCase (list_ascii_of_string title)))).
  assert (Hws : Forall (fun w => Forall (fun c => Slug.isAlnum c = true) w /\ w <> []) ws)
    by apply slug_words_alnum.
  rewrite (lower_and_filter_fixed _ (joinHyphen_chars ws Hws)).
  rewrite words_joinHyphen; [reflexivity | reflexivity |].
  eapply Forall_impl; [| exact Hws]. cbn. intros w [Hw Hne]. split; [| exact Hne].
  eapply Forall_impl; [| exact Hw]. exact alnum_not_separator.
Qed.

Lemma length_collapse (p : ascii -> bool) (s : list ascii) : forall prev,
  (List.length (Slug.collapse p prev s) <= List.length s)%nat.
Proof.
  induction s as [| c r IH]; intros prev; [cbn; lia |].
  pose proof (IH true). pose proof (IH false).
  cbn [Slug.collapse]. destruct (p c); [destruct prev |]; cbn; lia.
Qed.

Lemma length_stripLeading (s : list ascii) :
  (List.length (Slug.stripLeading s) <= List.length s)%nat.
Proof. destruct s as [| c r]; cbn; [lia |]. destruct (Chars.isHyphen c); cbn; lia. Qed.

Lemma length_stripTrailing (s : list ascii) :
  (List.length (Slug.stripTrailing s) <= List.length s)%nat.
Proof.
  induction s as [| c r IH]; [cbn; lia |].
  destruct r as [| d r']; [cbn; destruct (Chars.isHyphen c); cbn; lia |].
  rewrite stripTrailing_cons. cbn [List.length] in *. lia.
Qed.

Lemma groups_chars (s : list ascii) : forall prev,
  Slug.groups prev s = true ->
  forallb (fun c => Chars.isLowerAZ c || Chars.isDigit c || Chars.isHyphen c) s = true.
Proof.
  induction s as [| c r IH]; intros prev H; [reflexivity |].
  cbn [Slug.groups] in H. cbn [forallb]. unfold Slug.isAlnum in H.
  destruct (Chars.isLowerAZ c || Chars.isDigit c) eqn:E.
  - cbn. exact (IH _ H).
  - destruct (Chars.isHyphen c); [| discriminate].
    apply andb_true_iff in H as [_ H]. cbn. exact (IH _ H).
Qed.

(** X2.  A generated slug is never longer than the title, and unless it is
    empty it matches the slug pattern [/^[a-z0-9-]+$/] of the schemas. *)
Theorem generateSlug_length_and_pattern (title : string) :
  (String.length (Slug.generateSlug title) <= String.length title)%nat
  /\ (Slug.generateSlug title = ""
      \/ Pattern.slugPattern (Slug.generateSlug title) = true).
Proof.
  split.
  - unfold Slug.generateSlug, Slug.generateSlugChars, Slug.replaceRuns, Slug.toLowerCase.
    rewrite length_string_of_list, <- length_list_of_string.
    etransitivity; [apply length_stripTrailing |].
    etransitivity; [apply length_stripLeading |].
    etransitivity; [apply length_collapse |].
    etransitivity; [apply length_collapse |].
    etransitivity; [apply filter_length_le |]. now rewrite length_map.
  - pose proof (slugOfWords_wellShaped title) as H.
    rewrite <- generateSlug_words in H. unfold Slug.wellShaped in H.
    unfold Pattern.slugPattern, Pattern.chars, Pattern.nonEmptyAll.
    destruct (list_ascii_of_string (Slug.generateSlug title)) as [| c r] eqn:E.
    + left. rewrite <- (string_of_list_ascii_of_string (Slug.generateSlug title)), E.
      reflexivity.
    + right. exact (groups_chars _ _ H).
Qed.

(** ** [errorHandler]: what every answer of the handler has *)

(** X3.  Whatever is thrown, the central handler answers with a
    problem-details object served as [application/problem+json], whose
    [status] is the HTTP status of the reply and is mirrored in the member
    [statusCode]; [instance] is the url and [requestId] the id of the
    request.  The status is 400, 404, 409, 429 or 500, or else the
    non-zero [statusCode] the error brought along. *)
Theorem errorHandler_answer {I A} (error : ErrorHandler.Thrown) (request : Http.Request I) :
  exists p,
    Http.body (@ErrorHandler.errorHandler I A error request) = Http.ProblemDetails p
    /\ Http.statusCode (@ErrorHandler.errorHandler I A error request) = Http.status p
    /\ Http.contentType (@ErrorHandler.errorHandler I A error request) = Http.problemJson
    /\ Http.instance p = Some (Http.url request)
    /\ Http.requestId p = Some (Http.id request)
    /\ In ("statusCode", Http.XNumber (Http.status p)) (Http.extras p)
    /\ (forall x, In ("statusCode", x) (Http.extras p) -> x = Http.XNumber (Http.status p))
    /\ (In (Http.status p) [400; 404; 409; 429; 500]%Z
        \/ (ErrorHandler.e_statusCode error = Some (Http.status p)
            /\ Http.status p <> 0%Z)).
Proof.
  unfold ErrorHandler.errorHandler.
  destruct error as [cls name message sc st code]. cbn [ErrorHandler.class
    ErrorHandler.e_code ErrorHandler.e_statusCode ErrorHandler.e_status
    ErrorHandler.message ErrorHandler.name].
  destruct cls as [issues | target | details |].
  - eexists. split; [reflexivity |]. cbn. repeat split; auto.
    intros x [H | [H | []]]; congruence.
  - destruct (String.eqb _ "P2002"); [| destruct (String.eqb _ "P2025")];
      (eexists; split; [reflexivity |]); cbn; repeat split; auto 8;
      intros x H; repeat destruct H as [H | H]; try congruence; contradiction.
  - destruct (ErrorHandler.is429 sc || ErrorHandler.is429 st
              || Pattern.mentionsRateLimit message).
    + eexists. split; [reflexivity |]. cbn. repeat split; auto 8.
      intros x H; repeat destruct H as [H | H]; try congruence; contradiction.
    + destruct sc as [c |]; [destruct (Z.eqb_spec c 0) | ];
        [| destruct details as [d |] |];
        (eexists; split; [reflexivity |]); cbn; repeat split; auto 8;
        try (intros x H; repeat destruct H as [H | H]; try congruence; contradiction).
  - destruct (ErrorHandler.is429 sc || ErrorHandler.is429 st
              || Pattern.mentionsRateLimit message).
    + eexists. split; [reflexivity |]. cbn. repeat split; auto 8.
      intros x H; repeat destruct H as [H | H]; try congruence; contradiction.
    + destruct sc as [c |]; [destruct (Z.eqb_spec c 0) | ];
        (eexists; split; [reflexivity |]); cbn; repeat split; auto 8;
        try (intros x H; repeat destruct H as [H | H]; try congruence; contradiction).
Qed.

(** ** The request id: hook, central handler, and the routes' own problems *)

Lemma echoes_send {I A} (request : Http.Request I) (code : Z) (a : A) :
  Invariant.echoesHeader request (Http.send code a).
Proof. intros p H. discriminate H. Qed.

Lemma echoes_problem {I A} (request : Http.Request I) kind title status detail extras :
  Invariant.echoesHeader request
    (@Http.sendProblem A (Features.problem request kind title status detail extras)).
Proof. intros p H. inversion H. split; reflexivity. Qed.

Ltac echoes :=
  unfold Features.validationFailed, Features.internalError, Sprints.validationFailed,
    Sprints.internalError, Sprints.problem;
  repeat first
    [ apply echoes_send
    | apply echoes_problem
    | progress cbn [snd]
    | match goal with
      | |- Invariant.echoesHeader _ (snd (match ?x with _ => _ end)) => destruct x
      | |- Invariant.echoesHeader _ (match ?x with _ => _ end) => destruct x
      end ].

Lemma getSprint_echoes {I} id (request : Http.Request I) st :
  Invariant.echoesHeader request (ById.getSprint id request st).
Proof. unfold ById.getSprint. echoes. Qed.

Lemma getFeature_echoes {I} id (request : Http.Request I) st :
  Invariant.echoesHeader request (ById.getFeature id request st).
Proof. unfold ById.getFeature. echoes. Qed.

(** X4.  The sprint and feature routes build their problem objects
    themselves: in every one of their ten handlers an error answer carries
    as [requestId] the [x-request-id] header exactly as the client sent it
    (none when the header is absent) and has no [instance]. *)
Theorem sprint_and_feature_problems_echo_header
    (env : Db.Env) (id : Db.Id) (st : Db.Store) :
  (forall request, Invariant.echoesHeader request (snd (Sprints.postSprints env request st)))
  /\ (forall asInt request,
        Invariant.echoesHeader request (Sprints.getSprints asInt request st))
  /\ (forall request, Invariant.echoesHeader request (snd (Sprints.patchSprint env id request st)))
  /\ (forall I (request : Http.Request I),
        Invariant.echoesHeader request (ById.getSprint id request st))
  /\ (forall I (request : Http.Request I),
        Invariant.echoesHeader request (snd (ById.deleteSprint id request st)))
  /\ (forall request, Invariant.echoesHeader request (snd (Features.postFeatures env request st)))
  /\ (forall asInt request,
        Invariant.echoesHeader request (Features.getFeatures asInt request st))
  /\ (forall request,
        Invariant.echoesHeader request (snd (Features.patchFeature env id request st)))
  /\ (forall I (request : Http.Request I),
        Invariant.echoesHeader request (ById.getFeature id request st))
  /\ (forall I (request : Http.Request I),
        Invariant.echoesHeader request (snd (ById.deleteFeature id request st))).
Proof.
  repeat apply conj; intros.
  - unfold Sprints.postSprints. echoes.
  - unfold Sprints.getSprints. echoes.
  - unfold Sprints.patchSprint. echoes.
  - apply getSprint_echoes.
  - unfold ById.deleteSprint. echoes.
  - unfold Features.postFeatures. echoes.
  - unfold Features.getFeatures. echoes.
  - unfold Features.patchFeature. echoes.
  - apply getFeature_echoes.
  - unfold ById.deleteFeature. echoes.
Qed.

(** X5.  The request-id hook in front of the handlers.  The id it gives
    the request is the value it puts in the reply's [x-request-id] header
    and is never empty; a non-empty [x-request-id] of the client wins, then
    a non-empty [x-correlation-id].  A problem of the central handler
    carries that id, whereas a problem of GET /sprints/:id carries the
    client's header as it came, so none when the client sent none. *)
Theorem request_id_hook {I A} (randomUUID : string) (incoming : RequestId.Incoming I)
    (error : ErrorHandler.Thrown) (sprintId : Db.Id) (st : Db.Store)
    (Huuid : randomUUID <> "") :
  let request := fst (RequestId.requestIdMiddleware randomUUID incoming) in
  let replyHeader := snd (RequestId.requestIdMiddleware randomUUID incoming) in
  Http.id request = replyHeader
  /\ replyHeader <> ""
  /\ (forall r, RequestId.xRequestIdHeader incoming = Some r -> r <> "" -> replyHeader = r)
  /\ (forall c, Http.truthy (RequestId.xRequestIdHeader incoming) = false ->
        RequestId.xCorrelationIdHeader incoming = Some c -> c <> "" -> replyHeader = c)
  /\ (exists p,
        Http.body (@ErrorHandler.errorHandler I A error request) = Http.ProblemDetails p
        /\ Http.requestId p = Some replyHeader)
  /\ (forall p,
        Http.body (ById.getSprint sprintId request st) = Http.ProblemDetails p ->
        Http.requestId p = RequestId.xRequestIdHeader incoming).
Proof.
  cbv zeta. unfold RequestId.requestIdMiddleware. cbn [fst snd Http.id].
  destruct incoming as [xr xc u i]. cbn [RequestId.xRequestIdHeader
    RequestId.xCorrelationIdHeader RequestId.incomingUrl RequestId.incomingInput].
  repeat apply conj.
  - reflexivity.
  - unfold Http.truthy.
    destruct xr as [r |]; [destruct (String.eqb_spec r "") |];
      cbn [negb]; try assumption;
      (destruct xc as [c |]; [destruct (String.eqb_spec c "") |]; cbn [negb]; assumption).
  - intros r E Hr. inversion E; subst. unfold Http.truthy.
    destruct (String.eqb_spec r ""); [contradiction | reflexivity].
  - intros c Hx E Hc. rewrite Hx. subst xc. unfold Http.truthy.
    destruct (String.eqb_spec c ""); [contradiction | reflexivity].
  - eexists. split; reflexivity.
  - intros p H. apply getSprint_echoes in H. destruct H as [H _]. exact H.
Qed.

Lemma request_id_hook_witness :
  Samples.uuid <> ""
  /\ Http.id (fst (RequestId.requestIdMiddleware Samples.uuid
                     (RequestId.mkIncoming None (Some "trace-7") "/sprints/x" tt)))
     = "trace-7".
Proof.
  split; [discriminate |].
  pose proof (@request_id_hook unit unit Samples.uuid
                (RequestId.mkIncoming None (Some "trace-7") "/sprints/x" tt)
                (ErrorHandler.NotFoundError "Sprint not found") "x" Samples.store
                ltac:(discriminate)) as H.
  cbv zeta in H. destruct H as [H1 [_ [_ [H4 _]]]].
  rewrite H1. apply H4; [reflexivity | reflexivity | discriminate].
Defined.

(** ** Documents: one document by id *)

(** The errors the routes hand to the central handler are never answered
    with a success status. *)
Lemma errorHandler_status_of_route_error {I A} (error : ErrorHandler.Thrown)
    (request : Http.Request I) :
  (exists m, error = ErrorHandler.NotFoundError m)
  \/ (exists m, error = ErrorHandler.ConflictError m)
  \/ (exists e, error = ErrorHandler.ofDbError e) ->
  In (Http.statusCode (@ErrorHandler.errorHandler I A error request))
     [404; 409; 429; 500]%Z.
Proof.
  intros [[m ->] | [[m ->] | [e ->]]].
  - unfold ErrorHandler.errorHandler, ErrorHandler.NotFoundError.
    cbn [ErrorHandler.class ErrorHandler.e_statusCode ErrorHandler.e_status
         ErrorHandler.message ErrorHandler.is429 Z.eqb Pos.eqb orb].
    destruct (Pattern.mentionsRateLimit m); cbn; auto.
  - unfold ErrorHandler.errorHandler, ErrorHandler.ConflictError.
    cbn [ErrorHandler.class ErrorHandler.e_statusCode ErrorHandler.e_status
         ErrorHandler.message ErrorHandler.is429 Z.eqb Pos.eqb orb].
    destruct (Pattern.mentionsRateLimit m); cbn; auto.
  - destruct e; cbn; auto.
Qed.

Ltac route_error H :=
  exfalso;
  first
    [ match type of H with
      | @Http.statusCode _ (@ErrorHandler.errorHandler ?J ?B ?e ?r) = _ =>
          let K := fresh in
          assert (K : In (Http.statusCode (@ErrorHandler.errorHandler J B e r))
                         [404; 409; 429; 500]%Z)
            by (apply errorHandler_status_of_route_error; eauto);
          rewrite H in K; cbn in K; intuition discriminate
      end
    | discriminate H ].

Lemma notFound_answer {I A} (request : Http.Request I) :
  @ErrorHandler.errorHandler I A (ErrorHandler.NotFoundError "Document not found") request
  = Http.mkResponse 404 Http.problemJson
      (Http.ProblemDetails
         (Http.mkProblem "https://1plan.dev/errors/not_found" "NotFoundError" 404
            "Document not found" (Some (Http.url request)) (Some (Http.id request))
            [("statusCode", Http.XNumber 404)])).
Proof. reflexivity. Qed.

Lemma find_app_fresh {A} (p : A -> bool) (l : list A) (x : A) :
  find p l = None -> find p (l ++ [x]) = if p x then Some x else None.
Proof.
  induction l as [| y l IH]; cbn; [reflexivity |].
  destruct (p y); [discriminate | exact IH].
Qed.

Lemma find_app_found {A} (p : A -> bool) (l r : list A) (x : A) :
  find p l = Some x -> find p (l ++ r) = Some x.
Proof.
  induction l as [| y l IH]; cbn; [discriminate |].
  destruct (p y); [trivial | exact IH].
Qed.



(** X7.  Create, then fetch.  When POST /documents answers 201 and the
    store's new id is not already the id of a document, the document of
    the response is the new last row; it holds the fields of the body and
    the slug of the request (given or generated); GET /documents/:id on its
    id returns exactly it, and every document that could be fetched before
    is still fetched unchanged. *)
Theorem created_document_is_fetched {I} (env : Db.Env)
    (request : Http.Request Documents.DocumentBody) (fetch : Http.Request I)
    (st st' : Db.Store) (response : Http.Response Db.Document)
    (Hpost : Documents.postDocuments env request st = (st', response))
    (Hcreated : Http.statusCode response = 201%Z)
    (Hfresh : Cascade.document_findUnique (Db.freshId env 0) st = None) :
  exists data document,
    Documents.createDocumentSchema (Http.input request) = inr data
    /\ response = Http.send 201 document
    /\ Db.documents st' = Db.documents st ++ [document]
    /\ Db.d_projectId document = Documents.c_projectId data
    /\ Db.d_kind document = Documents.c_kind data
    /\ Db.d_title document = Documents.c_title data
    /\ Db.d_content document = Documents.c_content data
    /\ Db.d_slug document = Some (Documents.slugFor data)
    /\ ById.getDocument (Db.d_id document) fetch st' = Http.send 200 document
    /\ (forall id earlier,
          ById.getDocument id fetch st = Http.send 200 earlier ->
          ById.getDocument id fetch st' = Http.send 200 earlier).
Proof.
  unfold Documents.postDocuments in Hpost.
  destruct (Documents.createDocumentSchema (Http.input request)) as [issues | data];
    [injection Hpost as <- <-; discriminate Hcreated |].
  destruct (Db.project_findUnique _ st);
    [| injection Hpost as <- <-; route_error Hcreated].
  unfold Db.document_create in Hpost.
  destruct (Db.slugTaken _ _ _ st);
    [injection Hpost as <- <-; route_error Hcreated |].
  injection Hpost as <- <-.
  eexists. eexists. split; [reflexivity |]. split; [reflexivity |].
  cbn [Db.documents Db.d_projectId Db.d_kind Db.d_title Db.d_content Db.d_slug Db.d_id].
  repeat (split; [reflexivity |]).
  split.
  - unfold ById.getDocument, Cascade.document_findUnique. cbn [Db.documents].
    unfold Cascade.document_findUnique in Hfresh.
    rewrite (find_app_fresh _ _ _ Hfresh). cbn [Db.d_id]. rewrite String.eqb_refl.
    reflexivity.
  - intros id earlier. unfold ById.getDocument, Cascade.document_findUnique.
    cbn [Db.documents].
    destruct (find _ (Db.documents st)) as [d |] eqn:E.
    + intros H. rewrite (find_app_found _ _ _ _ E). exact H.
    + intros H. apply (f_equal Http.statusCode) in H. route_error H.
Qed.

Lemma created_document_is_fetched_witness :
  exists document,
    ById.getDocument (Db.d_id document) (Samples.request tt)
      (fst (Documents.postDocuments Samples.env
              (Samples.request
                 (Documents.mkDocumentBody (Some "ckproject0001") (Some "PRD")
                    (Some "Release Plan") (Some "Text") None))
              Samples.store))
    = Http.send 200 document
    /\ Db.d_slug document = Some "release-plan".
Proof.
  destruct (created_document_is_fetched Samples.env
              (Samples.request
                 (Documents.mkDocumentBody (Some "ckproject0001") (Some "PRD")
                    (Some "Release Plan") (Some "Text") None))
              (Samples.request tt) Samples.store _ _ eq_refl eq_refl eq_refl)
    as (data & document & Hd & _ & _ & _ & _ & _ & _ & Hslug & Hget & _).
  exists document. split; [exact Hget |].
  rewrite Hslug. injection Hd as <-. reflexivity.
Defined.

Lemma find_filter_other {A} (key : A -> string) (id other : string) (l : list A) :
  other <> id ->
  find (fun x => String.eqb (key x) other)
       (filter (fun x => negb (String.eqb (key x) id)) l)
  = find (fun x => String.eqb (key x) other) l.
Proof.
  intros Hne. induction l as [| y l IH]; cbn; [reflexivity |].
  destruct (String.eqb_spec (key y) id) as [E | E]; cbn [negb].
  - destruct (String.eqb_spec (key y) other) as [E' | _]; [congruence | exact IH].
  - cbn. now rewrite IH.
Qed.

Lemma find_filter_same {A} (key : A -> string) (id : string) (l : list A) :
  find (fun x => String.eqb (key x) id)
       (filter (fun x => negb (String.eqb (key x) id)) l) = None.
Proof.
  induction l as [| y l IH]; cbn; [reflexivity |].
  destruct (String.eqb (key y) id) eqn:E; cbn [negb]; [exact IH |].
  cbn. now rewrite E.
Qed.

(** X8.  DELETE /documents/:id has two outcomes.  Either it answers 204:
    the id named a document, it names none afterwards (GET answers 404),
    every other id is fetched as before, and no other table has changed.
    Or it answers 404: the id named no document and the store is the
    same. *)
Theorem delete_document_outcomes {I} (id : Db.Id) (request : Http.Request I)
    (st : Db.Store) :
  let st' := fst (ById.deleteDocument id request st) in
  let response := snd (ById.deleteDocument id request st) in
  (response = Http.send 204 tt
   /\ Cascade.document_findUnique id st <> None
   /\ (forall J (fetch : Http.Request J),
         Http.statusCode (ById.getDocument id fetch st') = 404%Z)
   /\ (forall other, other <> id ->
         Cascade.document_findUnique other st' = Cascade.document_findUnique other st)
   /\ Db.projects st' = Db.projects st /\ Db.features st' = Db.features st
   /\ Db.sprints st' = Db.sprints st /\ Db.sprintItems st' = Db.sprintItems st)
  \/ (Http.statusCode response = 404%Z /\ st' = st
      /\ Cascade.document_findUnique id st = None).
Proof.
  cbv zeta. unfold ById.deleteDocument, Cascade.document_delete.
  destruct (Cascade.document_findUnique id st) as [d |] eqn:E.
  - left. cbn [fst snd]. split; [reflexivity |]. split; [discriminate |].
    split.
    + intros J fetch. unfold ById.getDocument, Cascade.document_findUnique.
      cbn [Db.documents]. rewrite (find_filter_same Db.d_id). reflexivity.
    + split; [| repeat split].
      intros other Hne. unfold Cascade.document_findUnique. cbn [Db.documents].
      now apply (find_filter_other Db.d_id).
  - right. cbn [fst snd]. repeat split.
Qed.

(** What [document.update] returns and leaves when it succeeds. *)
Lemma document_update_result env id projectId kind title content slug st document st' :
  Db.document_update env id projectId kind title content slug st = inr (document, st') ->
  exists old,
    find (fun d => String.eqb (Db.d_id d) id) (Db.documents st) = Some old
    /\ Db.d_id document = Db.d_id old
    /\ Db.d_createdAt document = Db.d_createdAt old
    /\ Db.d_projectId document = Db.orElse projectId (Db.d_projectId old)
    /\ Db.d_kind document = Db.orElse kind (Db.d_kind old)
    /\ Db.d_title document = Db.orElse title (Db.d_title old)
    /\ Db.d_content document = Db.orElse content (Db.d_content old)
    /\ Db.d_slug document = match slug with Some s => Some s | None => Db.d_slug old end
    /\ st' = Db.mkStore (Db.projects st)
               (map (fun d => if String.eqb (Db.d_id d) id then document else d)
                    (Db.documents st))
               (Db.features st) (Db.sprints st) (Db.sprintItems st)
    /\ (Db.given projectId || Db.given slug = true ->
        Db.slugTaken (Db.d_projectId document) (Db.d_slug document) (Some id) st = false)
    /\ (forall p, projectId = Some p -> Db.project_findUnique p st <> None).
Proof.
  unfold Db.document_update.
  destruct (find _ (Db.documents st)) as [old |]; [| discriminate].
  match goal with
  | |- context [if ?c && ?t then inl _ else _] => destruct c eqn:Egiven, t eqn:Etaken
  end; cbn [andb]; try discriminate;
    (match goal with
     | |- context [if ?c then inl Db.P2003 else _] => destruct c eqn:Efk
     end; [discriminate |]);
    intros H; injection H as <- <-; exists old;
    (split; [reflexivity |]);
    (assert (Hfk : forall p, projectId = Some p -> Db.project_findUnique p st <> None);
     [ intros p ->; destruct (Db.project_findUnique p st); [discriminate | discriminate Efk]
     |]);
    destruct projectId, kind, title, content, slug; cbn in Egiven |- *;
    try discriminate Egiven; repeat split; auto; discriminate.
Qed.

(** X9.  What a successful PATCH /documents/:id stores, for a body made
    of [kind], [title], [content] and [slug].  The row keeps its id,
    project and creation time; it is what GET /documents/:id then returns,
    and every other document is fetched as before.  A slug of the body is
    stored as given; a title without a slug replaces the stored slug by
    the slug generated from the title; with neither the slug stays. *)
Theorem patch_document_result {I} (env : Db.Env) (id : Db.Id)
    (request : Http.Request Documents.DocumentBody) (fetch : Http.Request I)
    (st st' : Db.Store) (response : Http.Response Db.Document)
    (Hbody : Documents.projectId (Http.input request) = None)
    (Hpatch : Documents.patchDocument env id request st = (st', response))
    (Hok : Http.statusCode response = 200%Z) :
  exists old document,
    Cascade.document_findUnique id st = Some old
    /\ response = Http.send 200 document
    /\ Db.d_id document = id
    /\ Db.d_projectId document = Db.d_projectId old
    /\ Db.d_createdAt document = Db.d_createdAt old
    /\ (forall s, Documents.slug (Http.input request) = Some s -> s <> "" ->
          Db.d_slug document = Some s)
    /\ (forall t, Documents.title (Http.input request) = Some t -> t <> "" ->
          Http.truthy (Documents.slug (Http.input request)) = false ->
          Db.d_slug document = Some (Slug.generateSlug t))
    /\ (Http.truthy (Documents.title (Http.input request)) = false ->
        Documents.slug (Http.input request) = None ->
        Db.d_slug document = Db.d_slug old)
    /\ ById.getDocument id fetch st' = Http.send 200 document
    /\ (forall other, other <> id ->
          Cascade.document_findUnique other st' = Cascade.document_findUnique other st).
Proof.
  unfold Documents.patchDocument in Hpatch. cbv zeta in Hpatch. rewrite Hbody in Hpatch.
  destruct (match Documents.kind (Http.input request) with
            | Some k => _ | None => _ end) as [e | kind'];
    [injection Hpatch as <- <-; route_error Hok |].
  destruct (Db.document_update _ _ _ _ _ _ _ st) as [[| | | |] | [document tx]] eqn:Eu;
    try (injection Hpatch as <- <-; route_error Hok).
  injection Hpatch as <- <-.
  destruct (document_update_result _ _ _ _ _ _ _ _ _ _ Eu)
    as (old & Efind & Hsame & Hcreated & Hproject & _ & _ & _ & Hslug & -> & _).
  assert (Hid : Db.d_id old = id).
  { apply find_some in Efind as [_ H]. now apply String.eqb_eq. }
  exists old, document. split; [exact Efind |]. split; [reflexivity |].
  split; [congruence |]. split; [exact Hproject |]. split; [exact Hcreated |].
  rewrite Hslug. split; [| split; [| split; [| split]]].
  - intros s Hs Hne. rewrite Hs. unfold Http.truthy.
    destruct (String.eqb_spec s ""); [contradiction |]. cbn [negb].
    rewrite Bool.andb_false_r. reflexivity.
  - intros t Ht Hne Hno. rewrite Ht, Hno. unfold Http.truthy.
    destruct (String.eqb_spec t ""); [contradiction |]. reflexivity.
  - intros Ht Hs. rewrite Ht, Hs. reflexivity.
  - unfold ById.getDocument, Cascade.document_findUnique. cbn [Db.documents].
    erewrite (find_map_same Db.d_id); [reflexivity | congruence | exact Efind].
  - intros other Hne. unfold Cascade.document_findUnique. cbn [Db.documents].
    apply (find_map_other Db.d_id); [exact Hne | congruence].
Qed.

Lemma patch_document_result_witness :
  exists document,
    snd (Documents.patchDocument Samples.env "ckdocument001"
           (Samples.request
              (Documents.mkDocumentBody None None (Some "New Title") None None))
           Samples.store) = Http.send 200 document
    /\ Db.d_slug document = Some "new-title".
Proof.
  destruct (patch_document_result Samples.env "ckdocument001"
              (Samples.request
                 (Documents.mkDocumentBody None None (Some "New Title") None None))
              (Samples.request tt) Samples.store _ _ eq_refl eq_refl eq_refl)
    as (old & document & _ & Hr & _ & _ & _ & _ & Hslug & _).
  exists document. split; [exact Hr |].
  apply (Hslug "New Title"); [reflexivity | discriminate | reflexivity].
Defined.

(** ** Deleting a project, a sprint, a feature *)

Lemma filter_filter_other {A} (key : A -> string) (id other : string) (l : list A) :
  other <> id ->
  filter (fun x => String.eqb (key x) other)
         (filter (fun x => negb (String.eqb (key x) id)) l)
  = filter (fun x => String.eqb (key x) other) l.
Proof.
  intros Hne. induction l as [| y l IH]; cbn; [reflexivity |].
  destruct (String.eqb_spec (key y) id) as [E | E]; cbn [negb].
  - destruct (String.eqb_spec (key y) other) as [E' | _]; [congruence | exact IH].
  - cbn. now rewrite IH.
Qed.

Lemma filter_filter_same {A} (key : A -> string) (id : string) (l : list A) :
  filter (fun x => String.eqb (key x) id)
         (filter (fun x => negb (String.eqb (key x) id)) l) = [].
Proof.
  induction l as [| y l IH]; cbn; [reflexivity |].
  destruct (String.eqb (key y) id) eqn:E; cbn [negb]; [exact IH |].
  cbn. now rewrite E.
Qed.

Lemma itemInProject_spec (projectId : Db.Id) (st : Db.Store) (i : Db.SprintItem) :
  Cascade.itemInProject projectId st i = true
  <-> exists s, In s (Db.sprints st) /\ Db.s_id s = Db.i_sprintId i
                /\ Db.s_projectId s = projectId.
Proof.
  unfold Cascade.itemInProject. rewrite existsb_exists. split.
  - intros [s [Hin H]]. apply Bool.andb_true_iff in H as [H1 H2].
    apply String.eqb_eq in H1, H2. eauto.
  - intros [s [Hin [H1 H2]]]. exists s. split; [exact Hin |].
    apply Bool.andb_true_iff. split; now apply String.eqb_eq.
Qed.

(** X10.  DELETE /projects/:id has two outcomes.  Either it answers 204:
    the project is gone (GET answers 404) together with all its documents,
    features and sprints and with every item of one of its sprints, while
    any other project is fetched with the same row and the same counts,
    keeps its documents, features and sprints, and the items of sprints
    outside the project stay.  Or it answers 404: the id named no project
    and the store is the same. *)
Theorem delete_project_cascades {I} (id : Db.Id) (request : Http.Request I)
    (st : Db.Store) :
  let st' := fst (ById.deleteProject id request st) in
  let response := snd (ById.deleteProject id request st) in
  (response = Http.send 204 tt
   /\ Db.project_findUnique id st <> None
   /\ (forall J (fetch : Http.Request J),
         Http.statusCode (ById.getProject id fetch st') = 404%Z)
   /\ filter (fun d => String.eqb (Db.d_projectId d) id) (Db.documents st') = []
   /\ filter (fun f => String.eqb (Db.f_projectId f) id) (Db.features st') = []
   /\ filter (fun s => String.eqb (Db.s_projectId s) id) (Db.sprints st') = []
   /\ (forall i, In i (Db.sprintItems st') <->
         In i (Db.sprintItems st)
         /\ ~ exists s, In s (Db.sprints st) /\ Db.s_id s = Db.i_sprintId i
                        /\ Db.s_projectId s = id)
   /\ (forall other, other <> id ->
         (forall J (fetch : Http.Request J),
            ById.getProject other fetch st' = ById.getProject other fetch st)
         /\ filter (fun d => String.eqb (Db.d_projectId d) other) (Db.documents st')
            = filter (fun d => String.eqb (Db.d_projectId d) other) (Db.documents st)
         /\ filter (fun f => String.eqb (Db.f_projectId f) other) (Db.features st')
            = filter (fun f => String.eqb (Db.f_projectId f) other) (Db.features st)
         /\ filter (fun s => String.eqb (Db.s_projectId s) other) (Db.sprints st')
            = filter (fun s => String.eqb (Db.s_projectId s) other) (Db.sprints st)))
  \/ (Http.statusCode response = 404%Z /\ st' = st
      /\ Db.project_findUnique id st = None).
Proof.
  cbv zeta. unfold ById.deleteProject, Cascade.project_delete.
  destruct (Db.project_findUnique id st) as [p |] eqn:E.
  - left. cbn [fst snd]. split; [reflexivity |]. split; [discriminate |].
    split; [| split; [| split; [| split; [| split]]]].
    + intros J fetch. unfold ById.getProject, Db.project_findUnique.
      cbn [Db.projects]. rewrite (find_filter_same Db.p_id). reflexivity.
    + cbn [Db.documents]. apply (filter_filter_same Db.d_projectId).
    + cbn [Db.features]. apply (filter_filter_same Db.f_projectId).
    + cbn [Db.sprints]. apply (filter_filter_same Db.s_projectId).
    + intros i. cbn [Db.sprintItems]. rewrite filter_In, Bool.negb_true_iff.
      rewrite <- Bool.not_true_iff_false, itemInProject_spec. reflexivity.
    + intros other Hne. split; [| split; [| split]].
      * intros J fetch. unfold ById.getProject, Db.project_findUnique.
        cbn [Db.projects]. rewrite (find_filter_other Db.p_id) by exact Hne.
        destruct (find _ (Db.projects st)) as [q |] eqn:Eq; [| reflexivity].
        apply find_some in Eq as [_ Eq]. apply String.eqb_eq in Eq.
        unfold Projects.countsOf, Db.count. cbn [Db.documents Db.features Db.sprints].
        rewrite Eq.
        rewrite (filter_filter_other Db.d_projectId), (filter_filter_other Db.f_projectId),
          (filter_filter_other Db.s_projectId) by exact Hne.
        reflexivity.
      * cbn [Db.documents]. now apply (filter_filter_other Db.d_projectId).
      * cbn [Db.features]. now apply (filter_filter_other Db.f_projectId).
      * cbn [Db.sprints]. now apply (filter_filter_other Db.s_projectId).
  - right. cbn [fst snd]. repeat split.
Qed.

(** X11.  DELETE /sprints/:id: when the id names a sprint the answer is
    204, the sprint is gone (GET answers 404) and so are its items, while
    every other sprint is fetched as before with its items and the other
    tables are untouched; when it names none the answer is the 404 problem
    [Sprint Not Found] and the store is the same. *)
Theorem delete_sprint_cascades {I} (id : Db.Id) (request : Http.Request I)
    (st : Db.Store) :
  let st' := fst (ById.deleteSprint id request st) in
  let response := snd (ById.deleteSprint id request st) in
  (response = Http.send 204 tt
   /\ Db.sprint_findUnique id st <> None
   /\ (forall J (fetch : Http.Request J),
         Http.statusCode (ById.getSprint id fetch st') = 404%Z)
   /\ Db.sprintItems_of id st' = []
   /\ (forall other, other <> id ->
         forall J (fetch : Http.Request J),
           ById.getSprint other fetch st' = ById.getSprint other fetch st)
   /\ Db.projects st' = Db.projects st /\ Db.documents st' = Db.documents st
   /\ Db.features st' = Db.features st)
  \/ (Db.sprint_findUnique id st = None /\ st' = st
      /\ Http.statusCode response = 404%Z
      /\ exists p, Http.body response = Http.ProblemDetails p
                   /\ Http.title p = "Sprint Not Found"
                   /\ Http.detail p = ("Sprint with ID " ++ id ++ " not found")%string).
Proof.
  cbv zeta. unfold ById.deleteSprint, Cascade.sprint_delete.
  destruct (Db.sprint_findUnique id st) as [s |] eqn:E.
  - left. cbn [fst snd]. split; [reflexivity |]. split; [discriminate |].
    split; [| split; [| split; [| repeat split]]].
    + intros J fetch. unfold ById.getSprint, Db.sprint_findUnique.
      cbn [Db.sprints]. rewrite (find_filter_same Db.s_id). reflexivity.
    + unfold Db.sprintItems_of. cbn [Db.sprintItems].
      apply (filter_filter_same Db.i_sprintId).
    + intros other Hne J fetch. unfold ById.getSprint, Db.sprint_findUnique.
      cbn [Db.sprints]. rewrite (find_filter_other Db.s_id) by exact Hne.
      destruct (find _ (Db.sprints st)) as [q |] eqn:Eq; [| reflexivity].
      apply find_some in Eq as [_ Eq]. apply String.eqb_eq in Eq.
      unfold Db.sprintItems_of, Db.project_findUnique. cbn [Db.sprintItems Db.projects].
      rewrite Eq, (filter_filter_other Db.i_sprintId) by exact Hne. reflexivity.
  - right. cbn [fst snd]. split; [reflexivity |]. split; [reflexivity |].
    split; [reflexivity |]. eexists. split; [reflexivity |]. split; reflexivity.
Qed.

(** X12.  DELETE /features/:id: when the id names a feature the answer is
    204, GET /features/:id on it answers 404 afterwards, every other
    feature is fetched as before and the other tables are untouched; when
    it names none the answer is the 404 problem [Feature Not Found] and
    the store is the same. *)
Theorem delete_feature_outcomes {I} (id : Db.Id) (request : Http.Request I)
    (st : Db.Store) :
  let st' := fst (ById.deleteFeature id request st) in
  let response := snd (ById.deleteFeature id request st) in
  (response = Http.send 204 tt
   /\ Db.feature_findUnique id st <> None
   /\ (forall J (fetch : Http.Request J),
         Http.statusCode (ById.getFeature id fetch st') = 404%Z)
   /\ (forall other, other <> id ->
         forall J (fetch : Http.Request J),
           ById.getFeature other fetch st' = ById.getFeature other fetch st)
   /\ Db.projects st' = Db.projects st /\ Db.documents st' = Db.documents st
   /\ Db.sprints st' = Db.sprints st /\ Db.sprintItems st' = Db.sprintItems st)
  \/ (Db.feature_findUnique id st = None /\ st' = st
      /\ Http.statusCode response = 404%Z
      /\ exists p, Http.body response = Http.ProblemDetails p
                   /\ Http.title p = "Feature Not Found"
                   /\ Http.detail p = ("Feature with ID " ++ id ++ " not found")%string).
Proof.
  cbv zeta. unfold ById.deleteFeature, Cascade.feature_delete.
  destruct (Db.feature_findUnique id st) as [f |] eqn:E.
  - left. cbn [fst snd]. split; [reflexivity |]. split; [discriminate |].
    split; [| split; [| repeat split]].
    + intros J fetch. unfold ById.getFeature, Db.feature_findUnique.
      cbn [Db.features]. rewrite (find_filter_same Db.f_id). reflexivity.
    + intros other Hne J fetch. unfold ById.getFeature, Db.feature_findUnique.
      cbn [Db.features]. rewrite (find_filter_other Db.f_id) by exact Hne.
      reflexivity.
  - right. cbn [fst snd]. split; [reflexivity |]. split; [reflexivity |].
    split; [reflexivity |]. eexists. split; [reflexivity |]. split; reflexivity.
Qed.

(** ** [orderBy]: the rows in order *)

Section Ordering.

Context {A : Type} (leb : A -> A -> bool).

Lemma insertBy_hd (x y : A) (l : list A) :
  HdRel (fun a b => leb a b = true) y l -> leb y x = true ->
  HdRel (fun a b => leb a b = true) y (Db.insertBy leb x l).
Proof.
  intros Hl Hyx. destruct l as [| z l]; cbn; [now constructor |].
  destruct (leb x z); constructor; [exact Hyx |]. now inversion Hl.
Qed.

Lemma insertBy_sorted (x : A) (l : list A) :
  Invariant.totalTest leb -> Invariant.ascending leb l ->
  Invariant.ascending leb (Db.insertBy leb x l).
Proof.
  intros Htot. unfold Invariant.ascending.
  induction 1 as [| y l Hs IH Hhd]; cbn; [repeat constructor |].
  destruct (leb x y) eqn:E.
  - constructor; [now constructor | now constructor].
  - constructor; [exact IH |]. apply insertBy_hd; [exact Hhd |].
    destruct (Htot x y) as [H | H]; [congruence | exact H].
Qed.

Lemma sortBy_sorted (l : list A) :
  Invariant.totalTest leb -> Invariant.ascending leb (Db.sortBy leb l).
Proof.
  intros Htot. induction l as [| x l IH]; [constructor |].
  change (Db.sortBy leb (x :: l)) with (Db.insertBy leb x (Db.sortBy leb l)).
  now apply insertBy_sorted.
Qed.

Lemma insertBy_perm (x : A) (l : list A) : Permutation (Db.insertBy leb x l) (x :: l).
Proof.
  induction l as [| y l IH]; cbn; [reflexivity |].
  destruct (leb x y); [reflexivity |].
  rewrite IH. apply perm_swap.
Qed.

Lemma sortBy_perm (l : list A) : Permutation (Db.sortBy leb l) l.
Proof.
  induction l as [| x l IH]; [reflexivity |].
  change (Db.sortBy leb (x :: l)) with (Db.insertBy leb x (Db.sortBy leb l)).
  rewrite insertBy_perm. now constructor.
Qed.

(** Rows that are already in order stay as they are. *)
Lemma sortBy_ascending (l : list A) :
  Invariant.ascending leb l -> Db.sortBy leb l = l.
Proof.
  unfold Invariant.ascending. induction 1 as [| x l Hs IH Hhd]; [reflexivity |].
  change (Db.sortBy leb (x :: l)) with (Db.insertBy leb x (Db.sortBy leb l)).
  rewrite IH. destruct Hhd as [| y l Hxy]; cbn; [reflexivity |]. now rewrite Hxy.
Qed.

Lemma ascending_skipn (n : nat) (l : list A) :
  Invariant.ascending leb l -> Invariant.ascending leb (skipn n l).
Proof.
  unfold Invariant.ascending. revert l.
  induction n as [| n IH]; intros l H; [exact H |].
  destruct l as [| x l]; [constructor |]. cbn. apply IH. now inversion H.
Qed.

Lemma ascending_firstn (n : nat) (l : list A) :
  Invariant.ascending leb l -> Invariant.ascending leb (firstn n l).
Proof.
  unfold Invariant.ascending. revert l.
  induction n as [| n IH]; intros l H; [constructor |].
  destruct l as [| x l]; [constructor |]. cbn.
  inversion H as [| ? ? Hs Hhd]; subst. constructor; [now apply IH |].
  destruct l as [| y l]; [destruct n; constructor |].
  destruct n; cbn; constructor. now inversion Hhd.
Qed.

End Ordering.

Lemma orderBy_inDirection {A} (leb : A -> A -> bool) (o : Db.SortOrder) (l : list A) :
  Invariant.totalTest leb -> Invariant.inDirection leb o (Db.orderBy leb o l).
Proof.
  intros Htot. destruct o; cbn.
  - now apply sortBy_sorted.
  - apply sortBy_sorted. intros a b. destruct (Htot a b); auto.
Qed.

Lemma orderBy_perm {A} (leb : A -> A -> bool) (o : Db.SortOrder) (l : list A) :
  Permutation (Db.orderBy leb o l) l.
Proof. destruct o; apply sortBy_perm. Qed.

Lemma item_order_total :
  Invariant.totalTest (fun a b => (Db.i_order a <=? Db.i_order b)%Z).
Proof. intros a b. rewrite !Z.leb_le. lia. Qed.

(** X13.  GET /sprints/:id on the id of a sprint answers 200 with that
    sprint, its project, and its items: every item of the sprint exactly
    once, in ascending [order]. *)
Theorem get_sprint_items_ascending {I} (id : Db.Id) (request : Http.Request I)
    (st : Db.Store) (s : Db.Sprint)
    (Hfound : Db.sprint_findUnique id st = Some s) :
  exists detail,
    ById.getSprint id request st = Http.send 200 detail
    /\ ById.sprint detail = s
    /\ ById.project detail = Db.project_findUnique (Db.s_projectId s) st
    /\ Permutation (ById.items detail) (Db.sprintItems_of id st)
    /\ Invariant.ascending (fun a b => (Db.i_order a <=? Db.i_order b)%Z)
                           (ById.items detail).
Proof.
  unfold ById.getSprint. rewrite Hfound.
  assert (Hid : Db.s_id s = id).
  { apply find_some in Hfound as [_ H]. now apply String.eqb_eq. }
  eexists. split; [reflexivity |]. cbn [ById.sprint ById.project ById.items].
  split; [reflexivity |]. split; [reflexivity |]. rewrite Hid. split.
  - apply orderBy_perm.
  - apply (orderBy_inDirection _ Db.asc), item_order_total.
Qed.

Lemma get_sprint_items_ascending_witness :
  exists detail,
    ById.getSprint "cksprint00001" (Samples.request tt) Samples.store
    = Http.send 200 detail
    /\ Permutation (ById.items detail) [Samples.oldItem].
Proof.
  destruct (get_sprint_items_ascending "cksprint00001" (Samples.request tt) Samples.store
              Samples.sprint1 eq_refl) as (detail & H & _ & _ & Hp & _).
  exists detail. split; [exact H | exact Hp].
Defined.

(** ** Sprints: create, then fetch *)

Lemma createItems_positions env sprintId items : forall i tx created tx',
  Sprints.createItems env sprintId i items tx = inr (created, tx') ->
  Forall (fun item => Sprints.it_order item = 0%Z) items ->
  map Db.i_order created = map Z.of_nat (seq i (List.length items)).
Proof.
  induction items as [| item rest IH]; intros i tx created tx' H Hzero.
  - cbn in H. injection H as <- <-. reflexivity.
  - cbn [Sprints.createItems] in H. unfold Db.sprintItem_create in H.
    destruct (Db.itemInsertFails env i); [discriminate |].
    match type of H with
    | context [Sprints.createItems env sprintId (S i) rest ?t] =>
        destruct (Sprints.createItems env sprintId (S i) rest t)
          as [e | [more tx'']] eqn:E; [discriminate |]
    end.
    injection H as <- <-. inversion Hzero as [| ? ? H0 Hrest]; subst.
    cbn [map List.length seq Db.i_order]. f_equal.
    + unfold Sprints.storedOrder. now rewrite H0.
    + exact (IH _ _ _ _ E Hrest).
Qed.

Lemma positions_ascending (rows : list Db.SprintItem) : forall i n,
  map Db.i_order rows = map Z.of_nat (seq i n) ->
  Invariant.ascending (fun a b => (Db.i_order a <=? Db.i_order b)%Z) rows.
Proof.
  unfold Invariant.ascending.
  induction rows as [| r rows IH]; intros i n H; [constructor |].
  destruct n as [| n]; [discriminate |]. cbn in H. injection H as Hr Hrows.
  constructor; [exact (IH _ _ Hrows) |].
  destruct rows as [| r' rows]; [constructor |].
  destruct n as [| n]; [discriminate |]. cbn in Hrows. injection Hrows as Hr' _.
  constructor. apply Z.leb_le. lia.
Qed.

(** X14.  Create a sprint, then fetch it.  When POST /sprints answers 201
    for items none of which has an [order] other than 0, and the store's
    new sprint id is not in use, GET /sprints/:id on the new sprint
    answers 200 with that sprint and with exactly the created items, in
    the order of submission. *)
Theorem created_sprint_is_fetched_with_items {I} (env : Db.Env)
    (request : Http.Request Sprints.SprintBody) (fetch : Http.Request I)
    (st st' : Db.Store) (result : Sprints.SprintWithItems)
    (submitted : list Sprints.ItemBody)
    (Hitems : Sprints.items (Http.input request) = Some submitted)
    (Hplain : Forall (fun b => Sprints.order b = None \/ Sprints.order b = Some 0%Z)
                     submitted)
    (Hpost : Sprints.postSprints env request st = (st', Http.send 201 result))
    (HfreshSprint : Db.sprint_findUnique (Db.freshId env 0) st = None)
    (HfreshItems : Db.sprintItems_of (Db.freshId env 0) st = []) :
  exists detail,
    ById.getSprint (Db.s_id (Sprints.sprint result)) fetch st' = Http.send 200 detail
    /\ ById.sprint detail = Sprints.sprint result
    /\ ById.items detail = Sprints.sprintItems result
    /\ map Db.i_text (ById.items detail)
       = map (fun b => Sprints.it_text (Sprints.SprintItemSchema_data b)) submitted.
Proof.
  unfold Sprints.postSprints in Hpost.
  destruct (Sprints.CreateSprintSchema (Http.input request)) as [issues | data] eqn:Hparse;
    [discriminate |].
  apply finish_inr in Hparse as [_ ->].
  cbn [Sprints.c_projectId Sprints.c_code Sprints.c_startDate Sprints.c_endDate] in Hpost.
  destruct (Db.project_findUnique _ st); [| discriminate].
  destruct (Db.sprint_findByCode _ _ st) eqn:Ecode; [discriminate |].
  destruct (Sprints.endNotAfterStart _ _); [discriminate |].
  unfold Db.transaction, Sprints.createSprintTx, Db.sprint_create in Hpost.
  cbn [Sprints.c_projectId Sprints.c_code Sprints.c_items] in Hpost.
  rewrite Ecode, Hitems in Hpost.
  match type of Hpost with
  | context [Sprints.createItems ?e ?s 0 ?l ?t] =>
      destruct (Sprints.createItems e s 0 l t) as [e' | [created tx']] eqn:Ec;
        [discriminate |]
  end.
  injection Hpost as <- <-. cbn [Sprints.sprint Sprints.sprintItems Db.s_id] in *.
  destruct (createItems_rows _ _ _ _ _ _ _ Ec) as (Hi & _ & _ & _ & Hs & Hlen & Hall & Hnth).
  cbn [Db.sprintItems Db.sprints] in Hi, Hs.
  assert (Hzero : Forall (fun item => Sprints.it_order item = 0%Z)
                         (map Sprints.SprintItemSchema_data submitted)).
  { apply Forall_map. eapply Forall_impl; [| exact Hplain].
    intros b [H | H]; unfold Sprints.SprintItemSchema_data; cbn; now rewrite H. }
  pose proof (createItems_positions _ _ _ _ _ _ _ Ec Hzero) as Hpos.
  unfold ById.getSprint, Db.sprint_findUnique. rewrite Hs.
  unfold Db.sprint_findUnique in HfreshSprint.
  rewrite (find_app_fresh _ _ _ HfreshSprint). cbn [Db.s_id]. rewrite String.eqb_refl.
  eexists. split; [reflexivity |]. cbn [ById.sprint ById.items].
  split; [reflexivity |].
  assert (Hof : Db.sprintItems_of (Db.freshId env 0) tx' = created).
  { unfold Db.sprintItems_of in *. rewrite Hi, filter_app, HfreshItems.
    cbn [app]. now apply filter_all_of. }
  cbn [Db.s_id]. rewrite Hof. unfold ById.itemsByOrder, Db.orderBy.
  rewrite (sortBy_ascending _ _ (positions_ascending _ _ _ Hpos)).
  split; [reflexivity |].
  clear - Hnth Hlen. revert created Hnth Hlen.
  generalize 0%nat as i.
  induction submitted as [| b rest IH]; intros i created Hnth Hlen.
  - destruct created; [reflexivity | discriminate].
  - destruct created as [| row created]; [discriminate |].
    cbn [map]. f_equal.
    + destruct (Hnth 0%nat (Sprints.SprintItemSchema_data b) eq_refl)
        as [row' (Hr & Ht & _)].
      cbn in Hr. injection Hr as <-. exact Ht.
    + apply (IH (S i)).
      * intros k item Hk. destruct (Hnth (S k) item Hk) as [row' (Hr & Ht & Hc & Ho)].
        exists row'. split; [exact Hr |]. split; [exact Ht |]. split; [exact Hc |].
        rewrite Ho. f_equal. lia.
      * cbn in Hlen. now injection Hlen.
Qed.

Lemma created_sprint_is_fetched_with_items_witness :
  exists detail,
    ById.getSprint "cknew00000000" (Samples.request tt)
      (fst (Sprints.postSprints Samples.env
              (Samples.request
                 (Sprints.mkSprintBody (Some "ckproject0001") (Some "SPR-2") (Some "Second")
                    None None None
                    (Some [Sprints.mkItemBody (Some "a") None None;
                           Sprints.mkItemBody (Some "b") (Some true) (Some 0%Z)])))
              Samples.store))
    = Http.send 200 detail
    /\ map Db.i_text (ById.items detail) = ["a"; "b"].
Proof.
  assert (Hplain : Forall (fun b => Sprints.order b = None \/ Sprints.order b = Some 0%Z)
                     [Sprints.mkItemBody (Some "a") None None;
                      Sprints.mkItemBody (Some "b") (Some true) (Some 0%Z)]).
  { constructor; [left; reflexivity |]. constructor; [right; reflexivity |]. constructor. }
  destruct (created_sprint_is_fetched_with_items Samples.env
              (Samples.request
                 (Sprints.mkSprintBody (Some "ckproject0001") (Some "SPR-2") (Some "Second")
                    None None None
                    (Some [Sprints.mkItemBody (Some "a") None None;
                           Sprints.mkItemBody (Some "b") (Some true) (Some 0%Z)])))
              (Samples.request tt) Samples.store _ _ _ eq_refl Hplain
              eq_refl eq_refl eq_refl)
    as (detail & Hget & _ & _ & Htexts).
  exists detail. split; [exact Hget | exact Htexts].
Defined.

(** ** Sprints and features: the rows of a list page *)

Lemma in_firstn {A} (x : A) (n : nat) (l : list A) : In x (firstn n l) -> In x l.
Proof.
  revert l. induction n as [| n IH]; intros [| y l]; cbn; try contradiction.
  intros [H | H]; [now left | right; now apply IH].
Qed.

Lemma in_skipn {A} (x : A) (n : nat) (l : list A) : In x (skipn n l) -> In x l.
Proof.
  revert l. induction n as [| n IH]; intros [| y l]; cbn; try contradiction; auto.
Qed.

Lemma in_window {A} (take skip : option Z) (rows page : list A) (x : A) :
  Db.window take skip rows = inr page -> In x page -> In x rows.
Proof.
  unfold Db.window.
  destruct (_ <? 0)%Z; [discriminate |].
  destruct take as [n |].
  - destruct (0 <=? n)%Z; intros H; injection H as <-; intros Hx.
    + now apply in_firstn, in_skipn in Hx.
    + apply in_rev in Hx. apply in_firstn, in_skipn in Hx. now apply in_rev.
  - intros H; injection H as <-. apply in_skipn.
Qed.

(** A page keeps the order of the rows it is cut from. *)
Lemma window_ascending {A} (leb : A -> A -> bool) (take skip : option Z)
    (rows page : list A) :
  Db.window take skip rows = inr page ->
  Invariant.ascending leb rows -> Invariant.ascending leb page.
Proof.
  unfold Db.window.
  destruct (_ <? 0)%Z; [discriminate |].
  destruct take as [n |].
  - destruct (0 <=? n)%Z; intros H; injection H as <-; intros Hs.
    + now apply ascending_firstn, ascending_skipn.
    + rewrite skipn_rev, firstn_rev, rev_involutive.
      now apply ascending_skipn, ascending_firstn.
  - intros H; injection H as <-. apply ascending_skipn.
Qed.

(** The rows of a page that [findMany] returns. *)
Lemma findMany_rows {A} (matches : A -> bool) (leb : A -> A -> bool) (o : Db.SortOrder)
    (take skip : option Z) (rows page : list A) :
  Invariant.totalTest leb ->
  Db.findMany matches (Db.orderBy leb o) take skip rows = inr page ->
  (forall x, In x page -> In x rows /\ matches x = true)
  /\ Invariant.inDirection leb o page.
Proof.
  intros Htot H. unfold Db.findMany in H. split.
  - intros x Hx. apply (in_window _ _ _ _ _ H) in Hx.
    apply (Permutation_in _ (orderBy_perm leb o _)) in Hx.
    now apply filter_In in Hx.
  - pose proof (orderBy_inDirection leb o (filter matches rows) Htot) as Hs.
    destruct o; cbn in *; exact (window_ascending _ _ _ _ _ H Hs).
Qed.

Lemma featureOrder_total (column : string) :
  Invariant.totalTest (Features.featureOrder column).
Proof.
  unfold Features.featureOrder, Invariant.totalTest.
  repeat match goal with |- context [String.eqb column ?c] => destruct (String.eqb column c) end;
    intros a b; try apply String.leb_total; rewrite !Z.leb_le; lia.
Qed.

Lemma sprintOrder_total (column : string) :
  Invariant.totalTest (Sprints.sprintOrder column).
Proof.
  unfold Sprints.sprintOrder, Invariant.totalTest.
  repeat match goal with |- context [String.eqb column ?c] => destruct (String.eqb column c) end;
    intros a b; try apply String.leb_total; try (rewrite !Z.leb_le; lia).
  unfold Db.optLeb. destruct (Db.s_startDate a), (Db.s_startDate b); auto.
  rewrite !Z.leb_le. lia.
Qed.

(** X15.  Whenever GET /features or GET /sprints answers 200, the query
    has passed the schema (and, for features, carries no [area]); every
    row of the page is a row of the table that belongs to the project and
    has the status the query names; the rows come in the requested order
    ([sortBy], [sortOrder]); a feature comes with its project, and a sprint
    with the number of its items and the number of the checked ones among
    them. *)
Theorem list_rows_match_and_are_ordered :
  (forall asInt request st list,
     Features.getFeatures asInt request st = Http.send 200 list ->
     exists query,
       Features.ListFeaturesQuerySchema (Http.input request) = inr query
       /\ Http.truthy (Features.l_area query) = false
       /\ (forall f p, In (f, p) (Features.features list) ->
             In f (Db.features st)
             /\ (forall pid, Features.l_projectId query = Some pid -> pid <> "" ->
                   Db.f_projectId f = pid)
             /\ (forall s, Features.l_status query = Some s -> Db.f_status f = s)
             /\ p = Db.project_findUnique (Db.f_projectId f) st)
       /\ Invariant.inDirection (Features.featureOrder (Features.l_sortBy query))
            (Features.directionOf (Features.l_sortOrder query))
            (map fst (Features.features list)))
  /\ (forall asInt request st list,
        Sprints.getSprints asInt request st = Http.send 200 list ->
        exists query,
          Sprints.ListSprintsQuerySchema (Http.input request) = inr query
          /\ (forall row, In row (Sprints.sprints list) ->
                In (Sprints.r_sprint row) (Db.sprints st)
                /\ (forall pid, Sprints.l_projectId query = Some pid -> pid <> "" ->
                      Db.s_projectId (Sprints.r_sprint row) = pid)
                /\ (forall x, Sprints.l_status query = Some x ->
                      Db.s_status (Sprints.r_sprint row) = x)
                /\ Sprints.r_itemCount row
                   = List.length (Db.sprintItems_of (Db.s_id (Sprints.r_sprint row)) st)
                /\ Sprints.r_completedItemCount row
                   = List.length
                       (filter Db.i_checked
                          (Db.sprintItems_of (Db.s_id (Sprints.r_sprint row)) st))
                /\ (Sprints.r_completedItemCount row <= Sprints.r_itemCount row)%nat)
          /\ Invariant.inDirection (Sprints.sprintOrder (Sprints.l_sortBy query))
               (Features.directionOf (Sprints.l_sortOrder query))
               (map Sprints.r_sprint (Sprints.sprints list))).
Proof.
  split; intros asInt request st list H.
  - unfold Features.getFeatures in H.
    destruct (Features.ListFeaturesQuerySchema (Http.input request)) as [issues | query];
      [discriminate H |].
    exists query. split; [reflexivity |].
    destruct (Features.featureWhere _ _ _) as [e | matches] eqn:Ew; [discriminate H |].
    destruct (featureWhere_selects _ _ _ _ Ew) as [Harea Hsel].
    destruct (Db.intOfNumber asInt (Features.l_limit query)) as [e | take];
      [discriminate H |].
    destruct (Db.intOfNumber asInt (Features.l_offset query)) as [e | skip];
      [discriminate H |].
    destruct (Db.findMany _ _ _ _ _) as [e | page] eqn:Epage; [discriminate H |].
    injection H as <-. cbn [Features.features].
    destruct (findMany_rows _ _ _ _ _ _ _ (featureOrder_total _) Epage) as [Hin Hsorted].
    split; [exact Harea |]. split.
    + intros f p Hf. apply in_map_iff in Hf as [f' [E Hf]]. injection E as <- <-.
      destruct (Hin _ Hf) as [Hrow Hm]. apply Hsel in Hm as [Hp Hs]. auto.
    + rewrite map_map. cbn [fst]. now rewrite map_id.
  - unfold Sprints.getSprints in H.
    destruct (Sprints.ListSprintsQuerySchema (Http.input request)) as [issues | query];
      [discriminate H |].
    exists query. split; [reflexivity |]. cbv zeta in H.
    destruct (Db.intOfNumber asInt (Sprints.l_limit query)) as [e | take];
      [discriminate H |].
    destruct (Db.intOfNumber asInt (Sprints.l_offset query)) as [e | skip];
      [discriminate H |].
    destruct (Db.findMany _ _ _ _ _) as [e | page] eqn:Epage; [discriminate H |].
    injection H as <-. cbn [Sprints.sprints].
    destruct (findMany_rows _ _ _ _ _ _ _ (sprintOrder_total _) Epage) as [Hin Hsorted].
    split.
    + intros row Hrow. apply in_map_iff in Hrow as [s [<- Hs]].
      cbn [Sprints.r_sprint Sprints.r_itemCount Sprints.r_completedItemCount].
      destruct (Hin _ Hs) as [Hstored Hm]. apply sprintWhere_selects in Hm as [Hp Hx].
      repeat split; auto. apply filter_length_le.
    + rewrite map_map. cbn [Sprints.r_sprint]. now rewrite map_id.
Qed.

Lemma list_rows_match_and_are_ordered_witness :
  exists list,
    Features.getFeatures Samples.integersOnly
      (Samples.request
         (Features.mkFeatureQuery (Some "ckproject0001") (Some "PLANNED") None None None
                                  None None))
      Samples.busyStore = Http.send 200 list
    /\ Features.features list = [(Samples.feature1, Some Samples.project1)]
    /\ Forall (fun row => Db.f_status (fst row) = Db.F_PLANNED) (Features.features list).
Proof.
  eexists. split; [reflexivity |]. split; [reflexivity |].
  constructor; [| constructor].
  destruct list_rows_match_and_are_ordered as [H _].
  destruct (H Samples.integersOnly
              (Samples.request
                 (Features.mkFeatureQuery (Some "ckproject0001") (Some "PLANNED") None None
                                          None None None))
              Samples.busyStore _ eq_refl) as (query & Hq & _ & Hrows & _).
  injection Hq as <-.
  destruct (Hrows Samples.feature1 (Some Samples.project1) (or_introl eq_refl))
    as (_ & _ & Hstatus & _).
  exact (Hstatus Db.F_PLANNED eq_refl).
Defined.

(** ** Projects: creation *)

(** X16.  POST /projects has two outcomes.  Either the body has a [name]
    of 1 to 100 characters: the answer is 201 with a project of that name,
    which is the one new row, and GET /projects then counts one project
    more.  Or it has not: the answer is 400 with the issues of the schema
    and the store is the same. *)
Theorem post_project_outcomes (env : Db.Env) (request : Http.Request Projects.ProjectBody)
    (st : Db.Store) :
  let st' := fst (Projects.postProjects env request st) in
  let response := snd (Projects.postProjects env request st) in
  (exists n project,
     Projects.name (Http.input request) = Some n
     /\ (1 <= String.length n <= 100)%nat
     /\ response = Http.send 201 project
     /\ Db.p_name project = n
     /\ Db.projects st' = Db.projects st ++ [project]
     /\ Db.documents st' = Db.documents st /\ Db.features st' = Db.features st
     /\ Db.sprints st' = Db.sprints st /\ Db.sprintItems st' = Db.sprintItems st
     /\ forall Q (list : Http.Request Q),
          exists before after,
            Http.body (Projects.getProjects list st) = Http.Payload before
            /\ Http.body (Projects.getProjects list st') = Http.Payload after
            /\ Projects.total after = S (Projects.total before))
  \/ (exists issues,
        response = Http.mkResponse 400 Http.json (Http.ValidationFailed issues)
        /\ issues <> [] /\ st' = st
        /\ match Projects.name (Http.input request) with
           | Some n => String.length n = 0%nat \/ (100 < String.length n)%nat
           | None => True
           end).
Proof.
  cbv zeta. unfold Projects.postProjects, Projects.createProjectSchema.
  destruct (Projects.name (Http.input request)) as [n |]; cbn [Zod.required].
  - unfold Zod.zString. cbn [flat_map Zod.checkString app].
    destruct (Nat.ltb_spec (String.length n) 1) as [H1 | H1];
      destruct (Nat.ltb_spec 100 (String.length n)) as [H2 | H2];
      cbn [app Zod.finish fst snd Db.project_create].
    + lia.
    + right. eexists. split; [reflexivity |]. split; [discriminate |].
      split; [reflexivity |]. left. lia.
    + right. eexists. split; [reflexivity |]. split; [discriminate |].
      split; [reflexivity |]. right. lia.
    + left. exists n. eexists. split; [reflexivity |]. split; [lia |].
      split; [reflexivity |]. cbn [Db.p_name Db.projects Db.documents Db.features
                                   Db.sprints Db.sprintItems].
      repeat (split; [reflexivity |]).
      intros Q list. unfold Projects.getProjects. cbn [Http.body Http.send Db.projects].
      eexists. eexists. split; [reflexivity |]. split; [reflexivity |].
      cbn [Projects.total]. rewrite !length_orderBy, length_app. cbn. lia.
  - right. cbn [Zod.finish fst snd]. eexists. split; [reflexivity |].
    split; [discriminate |]. split; [reflexivity | exact I].
Qed.

(** ** Features and sprints: the natural key of a project *)

(** X17.  A feature id and a sprint code are taken once per project.
    After POST /features answers 201, any further valid POST /features for
    the same project and feature id answers the 409 problem [Feature
    Already Exists] and writes nothing; likewise [Sprint Already Exists]
    for POST /sprints with the same project and code. *)
Theorem second_create_is_conflict :
  (forall env env2 request request2 st st' response data2,
     Features.postFeatures env request st = (st', response) ->
     Http.statusCode response = 201%Z ->
     Features.CreateFeatureSchema (Http.input request2) = inr data2 ->
     Features.projectId (Http.input request2) = Features.projectId (Http.input request) ->
     Features.featureId (Http.input request2) = Features.featureId (Http.input request) ->
     exists p,
       Features.postFeatures env2 request2 st' = (st', Http.sendProblem p)
       /\ Http.status p = 409%Z /\ Http.title p = "Feature Already Exists")
  /\ (forall env env2 request request2 st st' response data2,
        Sprints.postSprints env request st = (st', response) ->
        Http.statusCode response = 201%Z ->
        Sprints.CreateSprintSchema (Http.input request2) = inr data2 ->
        Sprints.projectId (Http.input request2) = Sprints.projectId (Http.input request) ->
        Sprints.code (Http.input request2) = Sprints.code (Http.input request) ->
        exists p,
          Sprints.postSprints env2 request2 st' = (st', Http.sendProblem p)
          /\ Http.status p = 409%Z /\ Http.title p = "Sprint Already Exists").
Proof.
  split.
  - intros env env2 request request2 st st' response data2 Hpost Hcreated Hparse2 Hp Hf.
    unfold Features.postFeatures in Hpost.
    destruct (Features.CreateFeatureSchema (Http.input request)) as [issues | data] eqn:Hparse;
      [injection Hpost as <- <-; discriminate Hcreated |].
    apply finish_inr in Hparse as [_ ->].
    cbn [Features.c_projectId Features.c_featureId] in Hpost.
    destruct (Db.project_findUnique _ st) as [project |] eqn:Eproject;
      [| injection Hpost as <- <-; discriminate Hcreated].
    destruct (Db.feature_findByFeatureId _ _ st) eqn:Efeature;
      [injection Hpost as <- <-; discriminate Hcreated |].
    unfold Db.feature_create in Hpost. rewrite Efeature in Hpost.
    injection Hpost as <- <-.
    unfold Features.postFeatures. rewrite Hparse2.
    apply finish_inr in Hparse2 as [_ ->].
    cbn [Features.c_projectId Features.c_featureId]. rewrite Hp, Hf.
    unfold Db.project_findUnique in *. cbn [Db.projects]. rewrite Eproject.
    unfold Db.feature_findByFeatureId in *. cbn [Db.features].
    rewrite (find_app_fresh _ _ _ Efeature). cbn [Db.f_projectId Db.f_featureId].
    rewrite !String.eqb_refl. cbn [andb].
    eexists. split; [reflexivity |]. split; reflexivity.
  - intros env env2 request request2 st st' response data2 Hpost Hcreated Hparse2 Hp Hc.
    unfold Sprints.postSprints in Hpost.
    destruct (Sprints.CreateSprintSchema (Http.input request)) as [issues | data] eqn:Hparse;
      [injection Hpost as <- <-; discriminate Hcreated |].
    apply finish_inr in Hparse as [_ ->].
    cbn [Sprints.c_projectId Sprints.c_code Sprints.c_startDate Sprints.c_endDate] in Hpost.
    destruct (Db.project_findUnique _ st) as [project |] eqn:Eproject;
      [| injection Hpost as <- <-; discriminate Hcreated].
    destruct (Db.sprint_findByCode _ _ st) eqn:Ecode;
      [injection Hpost as <- <-; discriminate Hcreated |].
    destruct (Sprints.endNotAfterStart _ _);
      [injection Hpost as <- <-; discriminate Hcreated |].
    unfold Db.transaction, Sprints.createSprintTx, Db.sprint_create in Hpost.
    cbn [Sprints.c_projectId Sprints.c_code Sprints.c_items] in Hpost.
    rewrite Ecode in Hpost.
    match type of Hpost with
    | context [Sprints.createItems ?e ?s 0 ?l ?t] =>
        destruct (Sprints.createItems e s 0 l t) as [e' | [created tx']] eqn:Ec;
          [injection Hpost as <- <-; discriminate Hcreated |]
    end.
    injection Hpost as <- <-.
    destruct (createItems_rows _ _ _ _ _ _ _ Ec) as (_ & Hprojects & _ & _ & Hsprints & _).
    cbn [Db.projects Db.sprints] in Hprojects, Hsprints.
    unfold Sprints.postSprints. rewrite Hparse2.
    apply finish_inr in Hparse2 as [_ ->].
    cbn [Sprints.c_projectId Sprints.c_code]. rewrite Hp, Hc.
    unfold Db.project_findUnique in *. rewrite Hprojects, Eproject.
    unfold Db.sprint_findByCode in *. rewrite Hsprints.
    rewrite (find_app_fresh _ _ _ Ecode). cbn [Db.s_projectId Db.s_code].
    rewrite !String.eqb_refl. cbn [andb].
    eexists. split; [reflexivity |]. split; reflexivity.
Qed.

Lemma second_create_is_conflict_witness :
  Http.statusCode
    (snd (Sprints.postSprints Samples.env (Samples.request (Samples.newSprint 100 200))
            (fst (Sprints.postSprints Samples.env
                    (Samples.request (Samples.newSprint 100 200)) Samples.store))))
  = 409%Z.
Proof.
  destruct second_create_is_conflict as [_ H].
  destruct (H Samples.env Samples.env (Samples.request (Samples.newSprint 100 200))
              (Samples.request (Samples.newSprint 100 200)) Samples.store _ _ _
              eq_refl eq_refl eq_refl eq_refl eq_refl) as (p & Hrun & Hstatus & _).
  exact (eq_trans (f_equal (fun x => Http.statusCode (snd x)) Hrun) Hstatus).
Defined.

(** ** Sprints: creation is all or nothing *)

(** X18.  POST /sprints writes the sprint and its items together or not
    at all.  Either the answer is 201: the sprint is the one new row of
    its table, its items are the new rows of theirs and all belong to it,
    and no other table changes.  Or the answer is not 201 and the store is
    the same.  If the store rejects the insert of one of the items, the
    answer is 500 and not even the sprint row is kept. *)
Theorem sprint_creation_is_atomic (env : Db.Env)
    (request : Http.Request Sprints.SprintBody) (st : Db.Store) :
  let st' := fst (Sprints.postSprints env request st) in
  let response := snd (Sprints.postSprints env request st) in
  ((exists result,
      response = Http.send 201 result
      /\ Db.sprints st' = Db.sprints st ++ [Sprints.sprint result]
      /\ Db.sprintItems st' = Db.sprintItems st ++ Sprints.sprintItems result
      /\ Forall (fun row => Db.i_sprintId row = Db.s_id (Sprints.sprint result))
                (Sprints.sprintItems result)
      /\ Db.projects st' = Db.projects st /\ Db.documents st' = Db.documents st
      /\ Db.features st' = Db.features st)
   \/ (Http.statusCode response <> 201%Z /\ st' = st))
  /\ (forall data k,
        Sprints.CreateSprintSchema (Http.input request) = inr data ->
        Db.project_findUnique (Sprints.c_projectId data) st <> None ->
        Db.sprint_findByCode (Sprints.c_projectId data) (Sprints.c_code data) st = None ->
        Sprints.endNotAfterStart (Sprints.c_startDate data) (Sprints.c_endDate data) = false ->
        (k < List.length (Sprints.c_items data))%nat ->
        Db.itemInsertFails env k = true ->
        Http.statusCode response = 500%Z /\ st' = st).
Proof.
  cbv zeta. unfold Sprints.postSprints. split.
  - destruct (Sprints.CreateSprintSchema (Http.input request)) as [issues | data];
      [right; split; [discriminate | reflexivity] |].
    destruct (Db.project_findUnique _ st);
      [| right; split; [discriminate | reflexivity]].
    destruct (Db.sprint_findByCode _ _ st) eqn:Ecode;
      [right; split; [discriminate | reflexivity] |].
    destruct (Sprints.endNotAfterStart _ _);
      [right; split; [discriminate | reflexivity] |].
    unfold Db.transaction, Sprints.createSprintTx, Db.sprint_create. rewrite Ecode.
    match goal with
    | |- context [Sprints.createItems ?e ?s 0 ?l ?t] =>
        destruct (Sprints.createItems e s 0 l t) as [e' | [created tx']] eqn:Ec;
          [right; split; [discriminate | reflexivity] |]
    end.
    left. cbn [fst snd].
    destruct (createItems_rows _ _ _ _ _ _ _ Ec) as (Hi & Hp & Hd & Hf & Hs & _ & Hall & _).
    cbn [Db.sprintItems Db.sprints Db.projects Db.documents Db.features] in *.
    eexists. split; [reflexivity |]. cbn [Sprints.sprint Sprints.sprintItems Db.s_id].
    auto 10.
  - intros data k Hparse Hproject Hcode Hdates Hk Hfail. rewrite Hparse.
    destruct (Db.project_findUnique _ st); [| now elim Hproject].
    rewrite Hcode, Hdates.
    unfold Db.transaction, Sprints.createSprintTx, Db.sprint_create. rewrite Hcode.
    match goal with
    | |- context [Sprints.createItems ?e ?s 0 ?l ?t] =>
        destruct (createItems_fault e s l 0 t) as [e' ->]
    end.
    + exists k. split; [exact Hk | exact Hfail].
    + split; reflexivity.
Qed.

Lemma sprint_creation_is_atomic_witness :
  Http.statusCode
    (snd (Sprints.postSprints Samples.faultyEnv
            (Samples.request (Samples.newSprint 100 200)) Samples.store)) = 500%Z
  /\ fst (Sprints.postSprints Samples.faultyEnv
            (Samples.request (Samples.newSprint 100 200)) Samples.store) = Samples.store.
Proof.
  destruct (sprint_creation_is_atomic Samples.faultyEnv
              (Samples.request (Samples.newSprint 100 200)) Samples.store) as [_ H].
  apply (H _ 1%nat eq_refl); [discriminate | reflexivity | reflexivity | | reflexivity].
  cbn. lia.
Defined.

(** ** Sprints and features: what an update leaves alone *)

(** X19.  PATCH /sprints/:id with a body without [items] never touches
    the item table.  When it answers 200, the response carries the sprint
    with the items it had; the sprint keeps its id and project, and each
    of [code], [name], [status], [startDate], [endDate] that the body
    leaves out keeps its stored value. *)
Theorem patch_sprint_without_items (env : Db.Env) (id : Db.Id)
    (request : Http.Request Sprints.SprintBody) (st : Db.Store)
    (Hitems : Sprints.items (Http.input request) = None) :
  let st' := fst (Sprints.patchSprint env id request st) in
  let response := snd (Sprints.patchSprint env id request st) in
  Db.sprintItems st' = Db.sprintItems st
  /\ (Http.statusCode response = 200%Z ->
      exists existing updated,
        Db.sprint_findUnique id st = Some existing
        /\ response
           = Http.send 200 (Sprints.mkSprintWithItems updated (Db.sprintItems_of id st))
        /\ Db.sprint_findUnique id st' = Some updated
        /\ Db.s_id updated = id
        /\ Db.s_projectId updated = Db.s_projectId existing
        /\ (Sprints.code (Http.input request) = None ->
            Db.s_code updated = Db.s_code existing)
        /\ (Sprints.name (Http.input request) = None ->
            Db.s_name updated = Db.s_name existing)
        /\ (Sprints.status (Http.input request) = None ->
            Db.s_status updated = Db.s_status existing)
        /\ (Sprints.startDate (Http.input request) = None ->
            Db.s_startDate updated = Db.s_startDate existing)
        /\ (Sprints.endDate (Http.input request) = None ->
            Db.s_endDate updated = Db.s_endDate existing)).
Proof.
  cbv zeta. unfold Sprints.patchSprint.
  destruct (Sprints.UpdateSprintSchema (Http.input request)) as [issues | updates] eqn:Hparse;
    [split; [reflexivity | discriminate] |].
  apply finish_inr in Hparse as [_ ->].
  destruct (Db.sprint_findUnique id st) as [existing |] eqn:Efound;
    [| split; [reflexivity | discriminate]].
  destruct (Sprints.codeConflict _ existing st); [split; [reflexivity | discriminate] |].
  destruct (Sprints.endNotAfterStart _ _); [split; [reflexivity | discriminate] |].
  unfold Db.transaction, Sprints.updateSprintTx.
  cbn [Sprints.u_items Sprints.u_code Sprints.u_name Sprints.u_status Sprints.u_startDate
       Sprints.u_endDate].
  rewrite Hitems.
  destruct (Db.sprint_update _ _ _ _ _ _ _ st) as [e | [updated tx]] eqn:Eu;
    [split; [reflexivity | discriminate] |].
  cbn [fst snd].
  destruct (sprint_update_tables _ _ _ _ _ _ _ _ _ _ Eu) as (Hi & _).
  split; [exact Hi |]. intros _.
  unfold Db.sprint_update in Eu. rewrite Efound in Eu.
  assert (Hid : Db.s_id existing = id).
  { apply find_some in Efound as [_ H]. now apply String.eqb_eq. }
  match type of Eu with
  | context [if ?c then inl _ else inr _] => destruct c
  end; [discriminate |].
  injection Eu as <- <-.
  match goal with
  | |- context [if ?c then Db.mkSprint _ _ _ _ _ _ _ _ _ else _] => destruct c
  end;
    (exists existing; eexists; split; [reflexivity |]; split; [reflexivity |];
     cbn [Db.s_id Db.s_projectId Db.s_code Db.s_name Db.s_status Db.s_startDate
          Db.s_endDate];
     split;
     [ unfold Db.sprint_findUnique in *; cbn [Db.sprints];
       erewrite (find_map_same Db.s_id); [reflexivity | exact Hid | exact Efound] |];
     split; [exact Hid |]; split; [reflexivity |];
     repeat split; intros E; try rewrite E; reflexivity).
Qed.

Lemma patch_sprint_without_items_witness :
  Sprints.items (Sprints.mkSprintBody None None (Some "Renamed") None None None None) = None
  /\ Db.sprintItems
       (fst (Sprints.patchSprint Samples.env "cksprint00001"
               (Samples.request
                  (Sprints.mkSprintBody None None (Some "Renamed") None None None None))
               Samples.store))
     = [Samples.oldItem].
Proof.
  split; [reflexivity |].
  destruct (patch_sprint_without_items Samples.env "cksprint00001"
              (Samples.request
                 (Sprints.mkSprintBody None None (Some "Renamed") None None None None))
              Samples.store eq_refl) as [H _].
  exact H.
Defined.

(** X20.  PATCH /features/:id answers 200 only for a stored feature; the
    feature of the response is the one GET /features/:id returns
    afterwards; it keeps its id and project, and each of [featureId],
    [title], [version], [status], [area] that the body leaves out keeps
    its stored value, as does [version] when the body gives the empty
    string.  Any other answer leaves the store as it is. *)
Theorem patch_feature_result (env : Db.Env) (id : Db.Id)
    (request : Http.Request Features.FeatureBody) (st : Db.Store) :
  let st' := fst (Features.patchFeature env id request st) in
  let response := snd (Features.patchFeature env id request st) in
  (Http.statusCode response <> 200%Z -> st' = st)
  /\ (Http.statusCode response = 200%Z ->
      exists existing updated,
        Db.feature_findUnique id st = Some existing
        /\ response = Http.send 200 updated
        /\ Db.feature_findUnique id st' = Some updated
        /\ Db.f_id updated = id
        /\ Db.f_projectId updated = Db.f_projectId existing
        /\ (Features.featureId (Http.input request) = None ->
            Db.f_featureId updated = Db.f_featureId existing)
        /\ (Features.title (Http.input request) = None ->
            Db.f_title updated = Db.f_title existing)
        /\ (Http.truthy (Features.version (Http.input request)) = false ->
            Db.f_version updated = Db.f_version existing)
        /\ (Features.status (Http.input request) = None ->
            Db.f_status updated = Db.f_status existing)
        /\ (Features.area (Http.input request) = None ->
            Db.f_area updated = Db.f_area existing)).
Proof.
  cbv zeta. unfold Features.patchFeature.
  destruct (Features.UpdateFeatureSchema (Http.input request)) as [issues | updates]
    eqn:Hparse; [split; [reflexivity | discriminate] |].
  apply finish_inr in Hparse as [_ ->].
  destruct (Db.feature_findUnique id st) as [existing |] eqn:Efound;
    [| split; [reflexivity | discriminate]].
  match goal with
  | |- context [if ?c then (st, _) else _] => destruct c
  end; [split; [reflexivity | discriminate] |].
  cbn [Features.u_featureId Features.u_title Features.u_version Features.u_status
       Features.u_area].
  destruct (Db.feature_update _ _ _ _ _ _ _ st) as [e | [updated tx]] eqn:Eu;
    [split; [reflexivity | discriminate] |].
  cbn [fst snd]. split; [intros H; now elim H |]. intros _.
  unfold Db.feature_update in Eu. rewrite Efound in Eu.
  assert (Hid : Db.f_id existing = id).
  { apply find_some in Efound as [_ H]. now apply String.eqb_eq. }
  match type of Eu with
  | context [if ?c then inl _ else inr _] => destruct c
  end; [discriminate |].
  injection Eu as <- <-.
  match goal with
  | |- context [if ?c then Db.mkFeature _ _ _ _ _ _ _ _ _ else _] => destruct c
  end;
    (exists existing; eexists; split; [reflexivity |]; split; [reflexivity |];
     cbn [Db.f_id Db.f_projectId Db.f_featureId Db.f_title Db.f_version Db.f_status
          Db.f_area];
     split;
     [ unfold Db.feature_findUnique in *; cbn [Db.features];
       erewrite (find_map_same Db.f_id); [reflexivity | exact Hid | exact Efound] |];
     split; [exact Hid |]; split; [reflexivity |];
     repeat split; intros E; try rewrite E; reflexivity).
Qed.

Lemma patch_feature_result_witness :
  let feature :=
    Db.mkFeature "ckfeature0001" "ckproject0001" "FEAT-001" "Login" "0.1.0" Db.F_PLANNED
                 "auth" 5 5 in
  let st := Db.mkStore [Samples.project1] [] [feature] [] [] in
  let body := Features.mkFeatureBody None None (Some "Sign in") (Some "") None None in
  exists updated,
    snd (Features.patchFeature Samples.env "ckfeature0001" (Samples.request body) st)
    = Http.send 200 updated
    /\ Db.f_version updated = "0.1.0" /\ Db.f_area updated = "auth".
Proof.
  cbv zeta.
  destruct (patch_feature_result Samples.env "ckfeature0001"
              (Samples.request
                 (Features.mkFeatureBody None None (Some "Sign in") (Some "") None None))
              (Db.mkStore [Samples.project1] []
                 [Db.mkFeature "ckfeature0001" "ckproject0001" "FEAT-001" "Login" "0.1.0"
                    Db.F_PLANNED "auth" 5 5] [] [])) as [_ H].
  destruct (H eq_refl)
    as (existing & updated & Hfound & Hr & _ & _ & _ & _ & _ & Hversion & _ & Harea).
  injection Hfound as <-.
  exists updated. split; [exact Hr |]. split; [exact (Hversion eq_refl) | exact (Harea eq_refl)].
Defined.

(** ** The gateway: the headers of [ApiClient.request] *)

Lemma header_setHeader_same (k v : string) (h : ApiClient.Headers) :
  ApiClient.header k (ApiClient.setHeader k v h) = Some v.
Proof.
  induction h as [| [k' v'] h IH]; cbn.
  - now rewrite String.eqb_refl.
  - destruct (String.eqb k' k) eqn:E; cbn.
    + now rewrite String.eqb_refl.
    + now rewrite E.
Qed.

Lemma header_setHeader_other (k k' v : string) (h : ApiClient.Headers) :
  k' <> k ->
  ApiClient.header k (ApiClient.setHeader k' v h) = ApiClient.header k h.
Proof.
  intros Hne. induction h as [| [k'' v''] h IH]; cbn.
  - destruct (String.eqb_spec k' k); [contradiction | reflexivity].
  - destruct (String.eqb_spec k'' k') as [-> | E]; cbn.
    + destruct (String.eqb_spec k' k); [contradiction | reflexivity].
    + destruct (String.eqb k'' k); [reflexivity | exact IH].
Qed.

Lemma header_absent (k : string) (h : ApiClient.Headers) :
  ~ In k (map fst h) -> ApiClient.header k h = None.
Proof.
  induction h as [| [k' v'] h IH]; cbn; [reflexivity |].
  intros H. destruct (String.eqb_spec k' k) as [E | _]; [elim H; now left |].
  apply IH. intros Hin. apply H. now right.
Qed.

(** [{ ...a, ...b }] read at one key: the member of [b] if it has one,
    that of [a] otherwise. *)
Lemma header_spread (k : string) (b : ApiClient.Headers) : forall a,
  NoDup (map fst b) ->
  ApiClient.header k (ApiClient.spread a b)
  = match ApiClient.header k b with
    | Some v => Some v
    | None => ApiClient.header k a
    end.
Proof.
  unfold ApiClient.spread.
  induction b as [| [k' v'] b IH]; intros a Hb; cbn; [reflexivity |].
  inversion Hb as [| ? ? Hnotin Hb']; subst. rewrite (IH _ Hb'). cbn [fst snd].
  destruct (String.eqb_spec k' k) as [-> | E].
  - rewrite (header_absent _ _ Hnotin). apply header_setHeader_same.
  - now rewrite (header_setHeader_other _ _ _ _ E).
Qed.

(** X21.  The headers [ApiClient.request] hands to [fetch], for caller
    headers with distinct names.  A caller header overrides the default
    [Content-Type] and even the [X-Request-ID]; but [Authorization] is the
    bearer token whenever one is configured, and [X-Idempotency-Key] is
    the idempotency key whenever one is given, whatever the caller headers
    say.  The url is the base url followed by the path, and a GET carries
    no body. *)
Theorem api_client_headers {B} (config : ApiClient.Config) (randomUUID method path : string)
    (options : ApiClient.Options B) (extra : ApiClient.Headers)
    (Hextra : ApiClient.o_headers options = Some extra)
    (Hdistinct : NoDup (map fst extra)) :
  let sent := ApiClient.request config randomUUID method path options in
  let orElse (k : string) (v : string) :=
    match ApiClient.header k extra with Some x => Some x | None => Some v end in
  ApiClient.header "Content-Type" (ApiClient.r_headers sent)
  = orElse "Content-Type" "application/json"
  /\ ApiClient.header "X-Request-ID" (ApiClient.r_headers sent)
     = orElse "X-Request-ID"
         (if Http.truthy (ApiClient.o_requestId options)
          then Documents.get (ApiClient.o_requestId options) else randomUUID)
  /\ ApiClient.header "Authorization" (ApiClient.r_headers sent)
     = (if Http.truthy (ApiClient.token config)
        then Some ("Bearer " ++ Documents.get (ApiClient.token config))%string
        else ApiClient.header "Authorization" extra)
  /\ ApiClient.header "X-Idempotency-Key" (ApiClient.r_headers sent)
     = (if Http.truthy (ApiClient.o_idempotencyKey options)
        then ApiClient.o_idempotencyKey options
        else ApiClient.header "X-Idempotency-Key" extra)
  /\ ApiClient.r_url sent = (ApiClient.baseUrl config ++ path)%string
  /\ (method = "GET" -> ApiClient.r_body sent = None).
Proof.
  cbv zeta. unfold ApiClient.request. cbn [ApiClient.r_headers ApiClient.r_url
    ApiClient.r_body]. rewrite Hextra.
  set (defaults := [("Content-Type", "application/json"); ("X-Request-ID", _)]).
  assert (Hs : forall k, ApiClient.header k (ApiClient.spread defaults extra)
                         = match ApiClient.header k extra with
                           | Some v => Some v
                           | None => ApiClient.header k defaults
                           end)
    by (intros k; now apply header_spread).
  destruct (Http.truthy (ApiClient.token config)) eqn:Et;
    destruct (Http.truthy (ApiClient.o_idempotencyKey options)) eqn:Ek;
    repeat split;
    try (intros ->; reflexivity);
    repeat first
      [ rewrite header_setHeader_same
      | rewrite header_setHeader_other by discriminate
      | rewrite Hs ];
    try reflexivity;
    try (destruct (ApiClient.o_idempotencyKey options); [reflexivity | discriminate Ek]);
    try (destruct (ApiClient.header _ extra); reflexivity).
Qed.

Lemma api_client_headers_witness :
  ApiClient.header "X-Request-ID"
    (ApiClient.r_headers
       (ApiClient.request (B := unit) (ApiClient.mkConfig "http://api" 30 (Some "secret"))
          Samples.uuid "GET" "/projects"
          (ApiClient.mkOptions (Some tt)
             (Some [("X-Request-ID", "mine"); ("Authorization", "Basic abc")])
             (Some "theirs") None)))
  = Some "mine".
Proof.
  assert (Hd : NoDup (map fst [("X-Request-ID", "mine"); ("Authorization", "Basic abc")])).
  { cbn. constructor; [intros [H | []]; discriminate H |].
    constructor; [intros [] | constructor]. }
  destruct (api_client_headers (B := unit) (ApiClient.mkConfig "http://api" 30 (Some "secret"))
              Samples.uuid "GET" "/projects"
              (ApiClient.mkOptions (Some tt)
                 (Some [("X-Request-ID", "mine"); ("Authorization", "Basic abc")])
                 (Some "theirs") None)
              _ eq_refl Hd) as (_ & H & _).
  exact H.
Defined.

(** ** The gateway and the API: the two create schemas *)

Lemma app_nil_congr {A B} (l1 r1 : list A) (l2 r2 : list B) :
  (l1 = [] <-> l2 = []) -> (r1 = [] <-> r2 = []) ->
  (l1 ++ r1 = [] <-> l2 ++ r2 = []).
Proof.
  intros Hl Hr. split; intros H; apply app_eq_nil in H as [H1 H2];
    apply Hl in H1; apply Hr in H2; now rewrite H1, H2.
Qed.

Lemma finish_passes {D} (issues : Zod.Issues) (d : D) :
  issues = [] <-> exists data, Zod.finish issues d = inr data.
Proof.
  split; [intros ->; eexists; reflexivity |].
  intros [data H]. now apply finish_inr in H.
Qed.

Ltac same_checks :=
  unfold Zod.required, Zod.optional, Zod.zString, Zod.zEnum;
  cbn [flat_map Zod.checkString];
  repeat match goal with
         | |- context [if ?c then _ else _] => destruct c
         end;
  cbn [app]; split; intros H; try discriminate H; reflexivity.

Lemma gateway_document_schema_agrees (args : Tools.Args) :
  Tools.createDocumentIssues args = []
  <-> exists data,
        Documents.createDocumentSchema
          (Documents.mkDocumentBody (Tools.a_projectId args) (Tools.a_kind args)
             (Tools.a_title args) (Tools.a_content args) (Tools.a_slug args))
        = inr data.
Proof.
  unfold Documents.createDocumentSchema. rewrite <- finish_passes.
  unfold Tools.createDocumentIssues, Tools.idSchema, Tools.slugSchema, Documents.slugChecks.
  cbn [Documents.projectId Documents.kind Documents.title Documents.content Documents.slug].
  repeat apply app_nil_congr.
  - destruct (Tools.a_projectId args); same_checks.
  - destruct (Tools.a_kind args); same_checks.
  - destruct (Tools.a_title args); same_checks.
  - destruct (Tools.a_content args); same_checks.
  - destruct (Tools.a_slug args); same_checks.
Qed.

(** X22.  The gateway checks a [create_document] and a [create_project]
    call with the rules of the API.  The arguments pass the gateway's
    document schema exactly when the body built from them passes the
    API's [createDocumentSchema]; so the POST /documents that
    [create_document] issues is never answered 400, and the POST /projects
    that [create_project] issues is answered 201. *)
Theorem gateway_create_passes_api_validation
    (config : ApiClient.Config) (uuid : string) (args : Tools.Args) :
  (Tools.createDocumentIssues args = []
   <-> exists data,
         Documents.createDocumentSchema
           (Documents.mkDocumentBody (Tools.a_projectId args) (Tools.a_kind args)
              (Tools.a_title args) (Tools.a_content args) (Tools.a_slug args))
         = inr data)
  /\ (forall sent,
        Tools.handleCreateDocument config uuid args = inr sent ->
        exists body,
          ApiClient.r_method sent = "POST"
          /\ ApiClient.r_url sent = (ApiClient.baseUrl config ++ "/documents")%string
          /\ ApiClient.r_body sent = Some (ApiClient.SentDocument body)
          /\ forall env request st,
               Http.input request = body ->
               In (Http.statusCode (snd (Documents.postDocuments env request st)))
                  [201; 404; 409; 429; 500]%Z)
  /\ (forall sent,
        Tools.handleCreateProject config uuid args = inr sent ->
        exists name,
          ApiClient.r_method sent = "POST"
          /\ ApiClient.r_url sent = (ApiClient.baseUrl config ++ "/projects")%string
          /\ ApiClient.r_body sent = Some (ApiClient.SentProject name)
          /\ forall env request st,
               Http.input request = Projects.mkProjectBody name ->
               Http.statusCode (snd (Projects.postProjects env request st)) = 201%Z).
Proof.
  split; [apply gateway_document_schema_agrees |]. split.
  - intros sent H. unfold Tools.handleCreateDocument in H.
    destruct (Zod.finish _ args) as [issues | validatedArgs] eqn:Hparse; [discriminate |].
    apply finish_inr in Hparse as [Hnil ->]. injection H as <-.
    apply app_eq_nil in Hnil as [Hnil _].
    apply gateway_document_schema_agrees in Hnil as [data Hdata].
    eexists. split; [reflexivity |]. split; [reflexivity |]. split; [reflexivity |].
    intros env request st Hbody. unfold Documents.postDocuments. rewrite Hbody, Hdata.
    destruct (Db.project_findUnique _ st).
    + destruct (Db.document_create _ _ _ _ _ _ st) as [[| | | |] | [document st']];
        cbn [snd]; try (cbn; auto; fail);
        match goal with
        | |- In (Http.statusCode ?r) _ =>
            let K := fresh in
            assert (K : In (Http.statusCode r) [404; 409; 429; 500]%Z)
              by (apply errorHandler_status_of_route_error; eauto);
            cbn in K |- *; tauto
        end.
    + cbn [snd].
      match goal with
      | |- In (Http.statusCode ?r) _ =>
          let K := fresh in
          assert (K : In (Http.statusCode r) [404; 409; 429; 500]%Z)
            by (apply errorHandler_status_of_route_error; eauto);
          cbn in K |- *; tauto
      end.
  - intros sent H. unfold Tools.handleCreateProject in H.
    destruct (Zod.finish _ args) as [issues | validatedArgs] eqn:Hparse; [discriminate |].
    apply finish_inr in Hparse as [Hnil ->]. injection H as <-.
    apply app_eq_nil in Hnil as [Hnil _].
    eexists. split; [reflexivity |]. split; [reflexivity |]. split; [reflexivity |].
    intros env request st Hbody.
    unfold Projects.postProjects, Projects.createProjectSchema. rewrite Hbody.
    cbn [Projects.name].
    destruct (Tools.a_name args) as [n |]; [| discriminate Hnil].
    unfold Zod.required, Zod.zString in *. cbn [flat_map Zod.checkString] in *.
    destruct (String.length n <? 1)%nat; [discriminate Hnil |].
    destruct (100 <? String.length n)%nat; [discriminate Hnil |].
    reflexivity.
Qed.

Lemma gateway_create_passes_api_validation_witness :
  exists sent,
    Tools.handleCreateDocument Samples.config Samples.uuid Samples.createDocumentArgs
    = inr sent
    /\ ApiClient.r_url sent = "http://localhost:4000/api/v1/documents".
Proof.
  destruct (gateway_create_passes_api_validation Samples.config Samples.uuid
              Samples.createDocumentArgs) as (_ & H & _).
  eexists. split; [reflexivity |].
  destruct (H _ eq_refl) as (body & _ & Hurl & _). exact Hurl.
Defined.

(** ** Documents: the rows of a list page, and the counts of a project *)

Lemma in_documentOrderBy q order rows x :
  Documents.documentOrderBy q = inr order -> In x (order rows) -> In x rows.
Proof.
  unfold Documents.documentOrderBy.
  destruct (Documents.q_sortOrder q) as [o |]; [| intros H; now injection H as <-].
  destruct (Documents.q_sortBy q) as [column |]; [| discriminate].
  destruct (Documents.documentOrder column); [| discriminate].
  destruct (Documents.sortOrderOf o); [| discriminate].
  intros H. injection H as <-. apply Permutation_in, orderBy_perm.
Qed.

(** X23.  Whatever GET /documents is asked, a 200 answer lists stored
    documents only, and only documents of the project and of the kind the
    query names. *)
Theorem listed_documents_match_query (asInt : string -> option Z)
    (request : Http.Request Documents.DocumentQuery) (st : Db.Store)
    (list : Documents.DocumentList)
    (Hlist : Documents.getDocuments asInt request st = Http.send 200 list) :
  forall d, In d (Documents.documents list) ->
    In d (Db.documents st)
    /\ (forall p, Documents.q_projectId (Http.input request) = Some p -> p <> "" ->
          Db.d_projectId d = p)
    /\ (forall k, Documents.q_kind (Http.input request) = Some k -> k <> "" ->
          Db.kindName (Db.d_kind d) = k).
Proof.
  unfold Documents.getDocuments in Hlist. cbv zeta in Hlist.
  destruct (Documents.documentWhere (Http.input request)) as [e | matches] eqn:Ew.
  { apply (f_equal Http.statusCode) in Hlist. route_error Hlist. }
  destruct (Documents.documentOrderBy (Http.input request)) as [e | order] eqn:Eo.
  { apply (f_equal Http.statusCode) in Hlist. route_error Hlist. }
  destruct (Documents.intArgument asInt (Documents.q_limit _)) as [e | take].
  { apply (f_equal Http.statusCode) in Hlist. route_error Hlist. }
  destruct (Documents.intArgument asInt (Documents.q_offset _)) as [e | skip].
  { apply (f_equal Http.statusCode) in Hlist. route_error Hlist. }
  unfold Db.findMany in Hlist.
  destruct (Db.window take skip _) as [e | rows] eqn:Ewin.
  { apply (f_equal Http.statusCode) in Hlist. route_error Hlist. }
  injection Hlist as <-. cbn [Documents.documents].
  intros d Hd. apply (in_window _ _ _ _ _ Ewin) in Hd.
  apply (in_documentOrderBy _ _ _ _ Eo) in Hd. apply filter_In in Hd as [Hin Hm].
  split; [exact Hin |].
  unfold Documents.documentWhere in Ew.
  destruct (Http.truthy (Documents.q_kind (Http.input request))) eqn:Ek.
  - destruct (Db.kindOfName _) as [k' |] eqn:Ekind; [| discriminate].
    injection Ew as <-. apply Bool.andb_true_iff in Hm as [Hp Hk]. split.
    + intros p Ep Hne. rewrite Ep in Hp. unfold Http.truthy in Hp.
      destruct (String.eqb_spec p ""); [contradiction |]. now apply String.eqb_eq in Hp.
    + intros k Eq Hne. apply String.eqb_eq in Hk. rewrite Hk.
      rewrite Eq in Ekind. cbn [Documents.get] in Ekind.
      unfold Db.kindOfName in Ekind. apply find_some in Ekind as [_ E].
      now apply String.eqb_eq in E.
  - injection Ew as <-. apply Bool.andb_true_iff in Hm as [Hp _]. split.
    + intros p Ep Hne. rewrite Ep in Hp. unfold Http.truthy in Hp.
      destruct (String.eqb_spec p ""); [contradiction |]. now apply String.eqb_eq in Hp.
    + intros k Eq Hne. rewrite Eq in Ek. unfold Http.truthy in Ek.
      destruct (String.eqb_spec k ""); [contradiction | discriminate].
Qed.

Lemma listed_documents_match_query_witness :
  exists list,
    Documents.getDocuments Samples.strictClient
      (Samples.request
         (Documents.mkDocumentQuery (Some "ckproject0001") None None None None None))
      Samples.store = Http.send 200 list
    /\ In Samples.document1 (Documents.documents list)
    /\ In Samples.document1 (Db.documents Samples.store).
Proof.
  eexists. split; [reflexivity |]. split; [left; reflexivity |].
  destruct (listed_documents_match_query Samples.strictClient
              (Samples.request
                 (Documents.mkDocumentQuery (Some "ckproject0001") None None None None None))
              Samples.store _ eq_refl Samples.document1 (or_introl eq_refl)) as (H & _).
  exact H.
Defined.

(** X24.  GET /projects/:id reports how many documents, features and
    sprints carry the project's id; after POST /documents has answered 201
    for a project, that project's document count is one higher and
    nothing else of its answer has changed. *)
Theorem project_counts_follow_documents {I} (env : Db.Env)
    (request : Http.Request Documents.DocumentBody) (fetch : Http.Request I)
    (st st' : Db.Store) (document : Db.Document)
    (project : Db.Project) (counts : Projects.ProjectCounts)
    (Hpost : Documents.postDocuments env request st = (st', Http.send 201 document))
    (Hget : ById.getProject (Db.d_projectId document) fetch st
            = Http.send 200 (project, counts)) :
  Projects.documents counts
  = List.length (filter (fun d => String.eqb (Db.d_projectId d) (Db.d_projectId document))
                        (Db.documents st))
  /\ ById.getProject (Db.d_projectId document) fetch st'
     = Http.send 200
         (project,
          Projects.mkCounts (S (Projects.documents counts)) (Projects.features counts)
                            (Projects.sprints counts)).
Proof.
  unfold Documents.postDocuments in Hpost.
  destruct (Documents.createDocumentSchema (Http.input request)) as [issues | data];
    [discriminate |].
  destruct (Db.project_findUnique _ st); [| discriminate].
  unfold Db.document_create in Hpost.
  destruct (Db.slugTaken _ _ _ st); [discriminate |].
  injection Hpost as <- <-. cbn [Db.d_projectId] in *.
  unfold ById.getProject in *. unfold Db.project_findUnique in *. cbn [Db.projects].
  destruct (find _ (Db.projects st)) as [found |] eqn:Ep; [| discriminate].
  injection Hget as <- <-.
  apply find_some in Ep as [_ Ep]. apply String.eqb_eq in Ep.
  unfold Projects.countsOf, Db.count.
  cbn [Projects.documents Projects.features Projects.sprints Db.documents Db.features
       Db.sprints]. rewrite Ep. split; [reflexivity |].
  rewrite filter_app, length_app. cbn [filter Db.d_projectId].
  rewrite String.eqb_refl. cbn [List.length]. rewrite Nat.add_1_r. reflexivity.
Qed.

Lemma project_counts_follow_documents_witness :
  exists project counts,
    ById.getProject "ckproject0001" (Samples.request tt)
      (fst (Documents.postDocuments Samples.env
              (Samples.request (Samples.document "ckproject0001" "Second one" None))
              Samples.store))
    = Http.send 200 (project, counts)
    /\ Projects.documents counts = 2%nat.
Proof.
  destruct (project_counts_follow_documents Samples.env
              (Samples.request (Samples.document "ckproject0001" "Second one" None))
              (Samples.request tt) Samples.store _ _ _ _ eq_refl eq_refl) as [_ H].
  eexists. eexists. split; [exact H | reflexivity].
Defined.

(** ** Projects: the list *)

(** X25.  GET /projects answers 200 with every stored project exactly
    once, most recently updated first, each with the numbers of its
    documents, features and sprints, and with [total] the number of
    projects; the query string makes no difference. *)
Theorem project_list_is_complete_and_ordered {Q} (request : Http.Request Q)
    (st : Db.Store) :
  exists list,
    Projects.getProjects request st = Http.send 200 list
    /\ Permutation (map fst (Projects.projects list)) (Db.projects st)
    /\ Invariant.inDirection (fun a b => (Db.p_updatedAt a <=? Db.p_updatedAt b)%Z) Db.desc
         (map fst (Projects.projects list))
    /\ (forall p c, In (p, c) (Projects.projects list) -> c = Projects.countsOf st p)
    /\ Projects.total list = List.length (Db.projects st)
    /\ forall Q' (other : Http.Request Q'),
         Projects.getProjects other st = Http.send 200 list.
Proof.
  unfold Projects.getProjects. eexists. split; [reflexivity |].
  cbn [Projects.projects Projects.total]. rewrite map_map. cbn [fst]. rewrite map_id.
  split; [apply orderBy_perm |]. split.
  - apply orderBy_inDirection. intros a b. rewrite !Z.leb_le. lia.
  - split; [| split; [apply length_orderBy | reflexivity]].
    intros p c H. apply in_map_iff in H as [p' [E _]]. now injection E as <- <-.
Qed.

(** ** The update schemas against the create schemas *)

Lemma required_then_optional {A} (create update : list Zod.PathSeg -> A -> Zod.Issues)
    (p : list Zod.PathSeg) (v : option A) :
  (forall a, create p a = [] -> update p a = []) ->
  Zod.required create p v = [] -> Zod.optional update p v = [].
Proof. intros H. destruct v; cbn; [apply H | discriminate]. Qed.

Lemma optional_then_optional {A} (create update : list Zod.PathSeg -> A -> Zod.Issues)
    (p : list Zod.PathSeg) (v : option A) :
  (forall a, create p a = [] -> update p a = []) ->
  Zod.optional create p v = [] -> Zod.optional update p v = [].
Proof. intros H. destruct v; cbn; [apply H | reflexivity]. Qed.

Lemma zString_tail (c : Zod.StringCheck) (checks : list Zod.StringCheck)
    (p : list Zod.PathSeg) (s : string) :
  Zod.zString (c :: checks) p s = [] -> Zod.zString checks p s = [].
Proof. unfold Zod.zString. cbn [flat_map]. intros H. now apply app_eq_nil in H. Qed.

Lemma finish_inr_nil {D} (issues : Zod.Issues) (d : D) :
  issues = [] -> Zod.finish issues d = inr d.
Proof. intros ->. reflexivity. Qed.

Lemma app_nil_both {A} (l r : list A) : l = [] /\ r = [] -> l ++ r = [].
Proof. intros [-> ->]. reflexivity. Qed.

Ltac passes :=
  match goal with
  | H : Zod.finish _ _ = inr _ |- _ => apply finish_inr in H as [H _]
  end;
  repeat match goal with
         | H : _ ++ _ = [] |- _ => apply app_eq_nil in H as [? H]
         end;
  eexists; apply finish_inr_nil;
  repeat (apply app_nil_both; split);
  first [ eapply required_then_optional; [| eassumption]; intros a Ha; exact Ha
        | eapply optional_then_optional; [| eassumption]; intros a Ha; exact Ha
        | eapply required_then_optional; [| eassumption]; intros a Ha;
          exact (zString_tail _ _ _ _ Ha) ].

(** X26.  A body that the create schema of a resource accepts is accepted
    by its update schema too, for projects, documents, features and
    sprints; and each update schema accepts the empty body. *)
Theorem create_body_passes_update_schema :
  (forall b n, Projects.createProjectSchema b = inr n ->
     exists u, Projects.updateProjectSchema b = inr u)
  /\ (forall b data, Documents.createDocumentSchema b = inr data ->
        exists u, Documents.updateDocumentSchema b = inr u)
  /\ (forall b data, Features.CreateFeatureSchema b = inr data ->
        exists u, Features.UpdateFeatureSchema b = inr u)
  /\ (forall b data, Sprints.CreateSprintSchema b = inr data ->
        exists u, Sprints.UpdateSprintSchema b = inr u)
  /\ (exists u, Projects.updateProjectSchema (Projects.mkProjectBody None) = inr u)
  /\ (exists u, Documents.updateDocumentSchema
                  (Documents.mkDocumentBody None None None None None) = inr u)
  /\ (exists u, Features.UpdateFeatureSchema
                  (Features.mkFeatureBody None None None None None None) = inr u)
  /\ (exists u, Sprints.UpdateSprintSchema
                  (Sprints.mkSprintBody None None None None None None None) = inr u).
Proof.
  repeat apply conj; try (eexists; reflexivity).
  - intros b n H. unfold Projects.createProjectSchema in H.
    unfold Projects.updateProjectSchema.
    apply finish_inr in H as [H _]. eexists. apply finish_inr_nil.
    eapply required_then_optional; [| exact H]. intros a Ha; exact Ha.
  - intros b data H. unfold Documents.createDocumentSchema in H.
    unfold Documents.updateDocumentSchema. passes.
  - intros b data H. unfold Features.CreateFeatureSchema in H.
    unfold Features.UpdateFeatureSchema. passes.
  - intros b data H. unfold Sprints.CreateSprintSchema in H.
    unfold Sprints.UpdateSprintSchema. passes.
Qed.

Lemma create_body_passes_update_schema_witness :
  exists u,
    Documents.updateDocumentSchema (Samples.document "ckproject0001" "Test Document" None)
    = inr u.
Proof.
  destruct create_body_passes_update_schema as (_ & H & _).
  exact (H (Samples.document "ckproject0001" "Test Document" None) _ eq_refl).
Defined.

(** ** Documents: the keys of the table *)

Lemma ids_unique_after_filter (keep : Db.Document -> bool) (rows : list Db.Document) :
  NoDup (map Db.d_id rows) -> NoDup (map Db.d_id (filter keep rows)).
Proof.
  induction rows as [| row rows IH]; cbn; [trivial |].
  intros H. inversion H as [| ? ? Hnew Hrows]; subst.
  destruct (keep row); cbn; [constructor |]; auto.
  intros Hin. apply Hnew. apply in_map_iff in Hin as [other [E Hother]].
  apply filter_In in Hother as [Hother _]. apply in_map_iff. eauto.
Qed.

Lemma map_id_replace (id : Db.Id) (new : Db.Document) (l : list Db.Document) :
  Db.d_id new = id ->
  map Db.d_id (map (fun d => if String.eqb (Db.d_id d) id then new else d) l)
  = map Db.d_id l.
Proof.
  intros Hnew. induction l as [| x l IH]; cbn; [reflexivity |]. f_equal; [| exact IH].
  destruct (String.eqb_spec (Db.d_id x) id); congruence.
Qed.

Lemma slugTaken_except_false (projectId id : Db.Id) (slug : string) (st : Db.Store)
    (d : Db.Document) :
  Db.slugTaken projectId (Some slug) (Some id) st = false ->
  In d (Db.documents st) -> Db.d_projectId d = projectId -> Db.d_slug d = Some slug ->
  Db.d_id d = id.
Proof.
  unfold Db.slugTaken. intros H Hin Hp Hs.
  destruct (String.eqb_spec (Db.d_id d) id) as [E | E]; [exact E |]. exfalso.
  assert (K : existsb (fun d0 => String.eqb (Db.d_projectId d0) projectId
                        && Db.optEqb (Db.d_slug d0) (Some slug)
                        && negb (String.eqb (Db.d_id d0) id)) (Db.documents st) = true).
  { apply existsb_exists. exists d. split; [exact Hin |].
    rewrite Hp, Hs. cbn [Db.optEqb]. rewrite !String.eqb_refl.
    destruct (String.eqb_spec (Db.d_id d) id); [contradiction | reflexivity]. }
  congruence.
Qed.

(** X27.  The keys of the document table hold after every document route.
    If no two documents share an id, and no two documents of one project
    share a slug, then the same is true of the store that POST /documents
    leaves (the store's new id being unused), of the store that PATCH
    /documents/:id leaves, also when the body moves the document to
    another project, and of the store that DELETE /documents/:id leaves,
    whatever the request and the answer. *)
Theorem document_keys_are_kept (st : Db.Store)
    (Hkeys : Invariant.documentsWellFormed st) :
  (forall env request,
     ~ In (Db.freshId env 0) (map Db.d_id (Db.documents st)) ->
     Invariant.documentsWellFormed (fst (Documents.postDocuments env request st)))
  /\ (forall env id request,
        Invariant.documentsWellFormed (fst (Documents.patchDocument env id request st)))
  /\ (forall I id (request : Http.Request I),
        Invariant.documentsWellFormed (fst (ById.deleteDocument id request st))).
Proof.
  destruct Hkeys as [Hids Hslugs]. repeat apply conj.
  - intros env request Hfresh. unfold Documents.postDocuments.
    destruct (Documents.createDocumentSchema _) as [issues | data]; [now split |].
    destruct (Db.project_findUnique _ st); [| now split].
    unfold Db.document_create.
    destruct (Db.slugTaken _ _ _ st) eqn:Etaken; [now split |].
    cbn [fst]. split.
    + unfold Invariant.documentIdsUnique. cbn [Db.documents].
      rewrite map_app. cbn [map Db.d_id].
      apply NoDup_app; [exact Hids | repeat constructor; intros [] | ].
      intros x Hx [<- | []]. exact (Hfresh Hx).
    + unfold Invariant.documentSlugsUnique. cbn [Db.documents].
      pose proof (proj1 (slugTaken_false_iff _ _ _) Etaken) as Hfree.
      intros d1 d2 slug H1 H2 Hp Hs1 Hs2.
      apply in_app_or in H1 as [H1 | [<- | []]];
        apply in_app_or in H2 as [H2 | [<- | []]].
      * exact (Hslugs _ _ _ H1 H2 Hp Hs1 Hs2).
      * exfalso. cbn [Db.d_projectId Db.d_slug] in Hp, Hs2.
        apply (Hfree d1 H1 Hp). congruence.
      * exfalso. cbn [Db.d_projectId Db.d_slug] in Hp, Hs1.
        apply (Hfree d2 H2 (eq_sym Hp)). congruence.
      * reflexivity.
  - intros env id request. unfold Documents.patchDocument. cbv zeta.
    destruct (match Documents.kind (Http.input request) with
              | Some k => _ | None => _ end) as [e | kind']; [now split |].
    destruct (Db.document_update _ _ _ _ _ _ _ st) as [e | [document tx]] eqn:Eu;
      [destruct e; now split |].
    cbn [fst].
    destruct (document_update_result _ _ _ _ _ _ _ _ _ _ Eu)
      as (old & Efind & Hsame & _ & Hproject & _ & _ & _ & Hslug & -> & Hfree & _).
    assert (Hid : Db.d_id old = id).
    { apply find_some in Efind as [_ H]. now apply String.eqb_eq. }
    assert (Hold : In old (Db.documents st)) by now apply find_some in Efind.
    assert (Hdoc : Db.d_id document = id) by congruence.
    split.
    + unfold Invariant.documentIdsUnique. cbn [Db.documents].
      now rewrite map_id_replace.
    + unfold Invariant.documentSlugsUnique. cbn [Db.documents].
      intros d1 d2 slug H1 H2 Hp Hs1 Hs2.
      apply in_map_iff in H1 as [x1 [E1 H1]]. apply in_map_iff in H2 as [x2 [E2 H2]].
      assert (Hnew : forall x, In x (Db.documents st) ->
                Db.d_projectId x = Db.d_projectId document ->
                Db.d_slug x = Some slug -> Db.d_slug document = Some slug ->
                Db.d_id x = id).
      { intros x Hx Hpx Hsx Hsd.
        match type of Hfree with
        | Db.given ?p || Db.given ?s = true -> _ =>
            destruct p as [moved |] eqn:Eproject; [| destruct s as [written |] eqn:Eslug]
        end.
        - specialize (Hfree eq_refl). rewrite Hsd in Hfree.
          exact (slugTaken_except_false _ _ _ _ _ Hfree Hx Hpx Hsx).
        - specialize (Hfree eq_refl). rewrite Hsd in Hfree.
          exact (slugTaken_except_false _ _ _ _ _ Hfree Hx Hpx Hsx).
        - cbn [Db.orElse] in Hproject. rewrite <- Hid.
          apply (Hslugs x old slug Hx Hold); congruence. }
      destruct (String.eqb_spec (Db.d_id x1) id) as [I1 | I1];
        destruct (String.eqb_spec (Db.d_id x2) id) as [I2 | I2]; subst d1 d2.
      * reflexivity.
      * rewrite Hdoc. symmetry. apply (Hnew x2 H2); congruence.
      * rewrite Hdoc. apply (Hnew x1 H1); congruence.
      * exact (Hslugs _ _ _ H1 H2 Hp Hs1 Hs2).
  - intros I id request. unfold ById.deleteDocument, Cascade.document_delete.
    destruct (Cascade.document_findUnique id st); [| now split].
    cbn [fst]. split.
    + unfold Invariant.documentIdsUnique. cbn [Db.documents].
      now apply ids_unique_after_filter.
    + unfold Invariant.documentSlugsUnique. cbn [Db.documents].
      intros d1 d2 slug H1 H2. apply filter_In in H1 as [H1 _], H2 as [H2 _].
      exact (Hslugs _ _ _ H1 H2).
Qed.

Lemma document_keys_are_kept_witness :
  let move :=
    Samples.request (Documents.mkDocumentBody (Some "ckproject0002") None None None None) in
  Invariant.documentsWellFormed Samples.store
  /\ map Db.d_projectId
       (Db.documents
          (fst (Documents.patchDocument Samples.env "ckdocument001" move Samples.store)))
     = ["ckproject0002"]
  /\ Invariant.documentsWellFormed
       (fst (Documents.patchDocument Samples.env "ckdocument001" move Samples.store))
  /\ Invariant.documentsWellFormed
       (fst (Documents.postDocuments Samples.env
               (Samples.request (Samples.document "ckproject0001" "Another" None))
               Samples.store)).
Proof.
  cbv zeta.
  assert (H : Invariant.documentsWellFormed Samples.store).
  { split.
    - repeat constructor. intros [].
    - intros d1 d2 slug [<- | []] [<- | []] _ _ _. reflexivity. }
  split; [exact H |]. split; [reflexivity |].
  destruct (document_keys_are_kept Samples.store H) as (Hpost & Hpatch & _).
  split; [apply Hpatch |].
  apply Hpost. cbn. intros [E | []]. discriminate E.
Defined.

(** ** The gateway: what the list and by-id tools send *)

Lemma zEnum_member (members : list string) (p : list Zod.PathSeg) (s : string) :
  Zod.zEnum members p s = [] -> In s members.
Proof.
  unfold Zod.zEnum. destruct (existsb _ members) eqn:E; [| discriminate].
  intros _. apply existsb_exists in E as [m [Hm E]]. apply String.eqb_eq in E. now subst.
Qed.

Lemma zRange_bounds (lo : Z) (hi : option Z) (p : list Zod.PathSeg) (n : Z) :
  Tools.zRange lo hi p n = [] ->
  (lo <= n)%Z /\ match hi with Some h => (n <= h)%Z | None => True end.
Proof.
  unfold Tools.zRange, Zod.zCoerceRange. intros H. apply app_eq_nil in H as [H1 H2].
  destruct (Z.ltb_spec n lo); [discriminate |]. split; [lia |].
  destruct hi as [h |]; [| exact I]. destruct (Z.ltb_spec h n); [discriminate | lia].
Qed.

(** X28.  Every request the [list_documents] tool issues is a GET without
    body on [/documents] whose query carries an explicit page: a [limit]
    between 1 and 100 (20 if the caller gave none), an [offset] of at
    least 0 (0 by default), a [sortBy] among createdAt, updatedAt, title
    (updatedAt by default) and a [sortOrder] asc or desc (desc by
    default), after the caller's [projectId] and [kind] if given. *)
Theorem list_documents_tool_sends_page
    (config : ApiClient.Config) (uuid : string)
    (searchParams : list (string * ApiClient.QueryValue) -> string)
    (args : Tools.Args) (sent : ApiClient.HttpRequest ApiClient.Sent)
    (Hsent : Tools.handleListDocuments config uuid searchParams args = inr sent) :
  exists limit offset sortBy sortOrder,
    (1 <= limit <= 100)%Z /\ (0 <= offset)%Z
    /\ In sortBy ["createdAt"; "updatedAt"; "title"] /\ In sortOrder ["asc"; "desc"]
    /\ limit = match Tools.a_limit args with Some n => n | None => 20%Z end
    /\ offset = match Tools.a_offset args with Some n => n | None => 0%Z end
    /\ sortBy = match Tools.a_sortBy args with Some x => x | None => "updatedAt" end
    /\ sortOrder = match Tools.a_sortOrder args with Some x => x | None => "desc" end
    /\ ApiClient.r_method sent = "GET" /\ ApiClient.r_body sent = None
    /\ ApiClient.r_url sent
       = (ApiClient.baseUrl config ++ "/documents"
          ++ (let query :=
                searchParams
                  ((match Tools.a_projectId args with
                    | Some p => [("projectId", ApiClient.QString p)]
                    | None => []
                    end)
                   ++ (match Tools.a_kind args with
                       | Some k => [("kind", ApiClient.QString k)]
                       | None => []
                       end)
                   ++ [("limit", ApiClient.QNumber limit);
                       ("offset", ApiClient.QNumber offset);
                       ("sortBy", ApiClient.QString sortBy);
                       ("sortOrder", ApiClient.QString sortOrder)])%list in
              if String.eqb query "" then "" else "?" ++ query))%string.
Proof.
  unfold Tools.handleListDocuments in Hsent.
  destruct (Zod.finish _ args) as [issues | validatedArgs] eqn:Hparse; [discriminate |].
  apply finish_inr in Hparse as [Hnil ->]. injection Hsent as <-.
  apply app_eq_nil in Hnil as [Hnil _]. unfold Tools.listDocumentsIssues in Hnil.
  repeat match type of Hnil with
         | _ ++ _ = [] => apply app_eq_nil in Hnil as [? Hnil]
         end.
  do 4 eexists.
  split; [| split; [| split; [| split; [| split; [reflexivity
    | split; [reflexivity | split; [reflexivity | split; [reflexivity |]]]]]]]].
  - destruct (Tools.a_limit args) as [n |]; [| lia].
    match goal with H : Zod.optional (Tools.zRange 1 _) _ _ = [] |- _ =>
      apply zRange_bounds in H as [? ?] end. lia.
  - destruct (Tools.a_offset args) as [n |]; [| lia].
    match goal with H : Zod.optional (Tools.zRange 0 _) _ _ = [] |- _ =>
      apply zRange_bounds in H as [? _] end. lia.
  - destruct (Tools.a_sortBy args) as [x |]; [| cbn; auto].
    match goal with H : Zod.optional (Zod.zEnum ["createdAt"; _; _]) _ _ = [] |- _ =>
      exact (zEnum_member _ _ _ H) end.
  - destruct (Tools.a_sortOrder args) as [x |]; [| cbn; auto].
    exact (zEnum_member _ _ _ Hnil).
  - unfold ApiClient.getDocuments, ApiClient.request.
    cbn [ApiClient.r_method ApiClient.r_body ApiClient.r_url String.eqb Ascii.eqb Bool.eqb].
    split; [reflexivity |]. split; [reflexivity |].
    destruct (Tools.a_projectId args), (Tools.a_kind args); reflexivity.
Qed.

Lemma list_documents_tool_sends_page_witness :
  exists sent,
    Tools.handleListDocuments Samples.config Samples.uuid (fun _ => "q")
      (Tools.mkArgs None None None None None None None (Some 5%Z) None None None None None)
    = inr sent
    /\ ApiClient.r_url sent = "http://localhost:4000/api/v1/documents?q".
Proof.
  eexists. split; [reflexivity |].
  destruct (list_documents_tool_sends_page Samples.config Samples.uuid (fun _ => "q")
              (Tools.mkArgs None None None None None None None (Some 5%Z) None None None
                 None None) _ eq_refl)
    as (limit & offset & sortBy & sortOrder & _ & _ & _ & _ & _ & _ & _ & _ & _ & _ & Hurl).
  exact Hurl.
Defined.

(** X29.  The six tools that work on one document or project by id put
    the id into the url as it was given.  When one of them issues a
    request, the argument [id] is present and passes zod's cuid check, the
    method is the tool's, the url is the base url, then [/documents/] or
    [/projects/], then the id, character for character, and the id never
    travels in the body.  Conversely the four GET and DELETE tools issue
    their request for every id that passes the check.  The check asks for
    a leading [c] followed by eight or more characters other than white
    space and the hyphen, so it admits ids that hold [/] or [.], and the
    url is built from them without any encoding. *)
Theorem by_id_tools_send_the_id_verbatim
    (config : ApiClient.Config) (uuid : string) (args : Tools.Args)
    (method collection : string) (handler : Catalogue.Handler)
    (Htool : In (method, collection, handler)
                [("GET", "/documents/", Tools.handleGetDocument);
                 ("PATCH", "/documents/", Tools.handleUpdateDocument);
                 ("DELETE", "/documents/", Tools.handleDeleteDocument);
                 ("GET", "/projects/", Tools.handleGetProject);
                 ("PATCH", "/projects/", Tools.handleUpdateProject);
                 ("DELETE", "/projects/", Tools.handleDeleteProject)]) :
  (forall sent, handler config uuid args = inr sent ->
   exists id,
     Tools.a_id args = Some id
     /\ Pattern.cuidPattern id = true
     /\ ApiClient.r_method sent = method
     /\ ApiClient.r_url sent = (ApiClient.baseUrl config ++ collection ++ id)%string
     /\ match ApiClient.r_body sent with
        | None => method <> "PATCH"
        | Some (ApiClient.SentDocumentUpdate fields _) =>
            method = "PATCH" /\ Documents.projectId fields = None
        | Some (ApiClient.SentProjectUpdate _ _) => method = "PATCH"
        | Some _ => False
        end)
  /\ (forall id, Tools.a_id args = Some id -> Pattern.cuidPattern id = true ->
      method <> "PATCH" ->
      exists sent,
        handler config uuid args = inr sent
        /\ ApiClient.r_method sent = method
        /\ ApiClient.r_url sent = (ApiClient.baseUrl config ++ collection ++ id)%string
        /\ ApiClient.r_body sent = None).
Proof.
  split.
  - intros sent Hsent. cbn in Htool.
    repeat (destruct Htool as [Htool | Htool]; [injection Htool as <- <- <- |]);
      [.. | contradiction];
      unfold Tools.handleGetDocument, Tools.handleUpdateDocument,
        Tools.handleDeleteDocument, Tools.handleGetProject, Tools.handleUpdateProject,
        Tools.handleDeleteProject in Hsent;
      (destruct (Zod.finish _ args) as [issues | validatedArgs] eqn:Hparse;
       [discriminate |]);
      apply finish_inr in Hparse as [Hnil ->]; injection Hsent as <-;
      apply app_eq_nil in Hnil as [Hnil _];
      (destruct (Tools.a_id args) as [id |]; [| discriminate Hnil]);
      exists id; (split; [reflexivity |]);
      (split;
       [ unfold Zod.required, Tools.idSchema, Zod.zString in Hnil;
         cbn [flat_map Zod.checkString] in Hnil;
         destruct (Pattern.cuidPattern id); [reflexivity | discriminate Hnil] |]);
      cbn; repeat split; try discriminate; reflexivity.
  - intros id Hid Hcuid Hverb. cbn in Htool.
    repeat (destruct Htool as [Htool | Htool]; [injection Htool as <- <- <- |]);
      [.. | contradiction]; try (now contradiction Hverb);
      unfold Tools.handleGetDocument, Tools.handleDeleteDocument, Tools.handleGetProject,
        Tools.handleDeleteProject;
      rewrite Hid;
      unfold Zod.required, Zod.optional, Tools.idSchema, Zod.zString;
      cbn [flat_map Zod.checkString]; rewrite Hcuid;
      (destruct (Tools.a_requestId args); cbn;
       (eexists; split; [reflexivity |]); cbn; rewrite Hid; repeat split; reflexivity).
Qed.

Lemma by_id_tools_send_the_id_verbatim_witness :
  (exists sent,
     Tools.handleDeleteProject Samples.config Samples.uuid
       (Tools.mkArgs (Some "ckproject0001") None None None None None None None None None
          None None None) = inr sent
     /\ ApiClient.r_url sent = "http://localhost:4000/api/v1/projects/ckproject0001")
  /\ (exists sent,
        Tools.handleDeleteDocument Samples.config Samples.uuid
          (Tools.mkArgs (Some "c12345678/../../projects/ckproject0001") None None None None
             None None None None None None None None) = inr sent
        /\ ApiClient.r_method sent = "DELETE"
        /\ ApiClient.r_url sent
           = "http://localhost:4000/api/v1/documents/c12345678/../../projects/ckproject0001").
Proof.
  split.
  - eexists. split; [reflexivity |].
    destruct (by_id_tools_send_the_id_verbatim Samples.config Samples.uuid
                (Tools.mkArgs (Some "ckproject0001") None None None None None None None
                   None None None None None)
                "DELETE" "/projects/" Tools.handleDeleteProject
                ltac:(do 5 right; left; reflexivity)) as [Hsent _].
    destruct (Hsent _ eq_refl) as (id & Hid & _ & _ & Hurl & _).
    injection Hid as <-. exact Hurl.
  - destruct (by_id_tools_send_the_id_verbatim Samples.config Samples.uuid
                (Tools.mkArgs (Some "c12345678/../../projects/ckproject0001") None None
                   None None None None None None None None None None)
                "DELETE" "/documents/" Tools.handleDeleteDocument
                ltac:(do 2 right; left; reflexivity)) as [_ Hissued].
    destruct (Hissued _ eq_refl eq_refl ltac:(discriminate))
      as (sent & Hsent & Hmethod & Hurl & _).
    exists sent. repeat split; assumption.
Defined.

(** ** Features: create, then fetch *)

(** X30.  When POST /features answers 201 and the store's new id is not
    in use, the feature of the response is the one new row; it belongs to
    a stored project, its feature id has the form FEAT-digits, an absent
    [version] has become 0.1.0 and an absent [status] PLANNED; and GET
    /features/:id on its id returns it together with that project. *)
Theorem created_feature_is_fetched {I} (env : Db.Env)
    (request : Http.Request Features.FeatureBody) (fetch : Http.Request I)
    (st st' : Db.Store) (response : Http.Response Db.Feature)
    (Hpost : Features.postFeatures env request st = (st', response))
    (Hcreated : Http.statusCode response = 201%Z)
    (Hfresh : Db.feature_findUnique (Db.freshId env 0) st = None) :
  exists feature project,
    response = Http.send 201 feature
    /\ Db.features st' = Db.features st ++ [feature]
    /\ Features.projectId (Http.input request) = Some (Db.f_projectId feature)
    /\ Features.featureId (Http.input request) = Some (Db.f_featureId feature)
    /\ Pattern.featPattern (Db.f_featureId feature) = true
    /\ (Features.version (Http.input request) = None -> Db.f_version feature = "0.1.0")
    /\ (Features.status (Http.input request) = None -> Db.f_status feature = Db.F_PLANNED)
    /\ Db.project_findUnique (Db.f_projectId feature) st = Some project
    /\ ById.getFeature (Db.f_id feature) fetch st' = Http.send 200 (feature, Some project).
Proof.
  unfold Features.postFeatures in Hpost.
  destruct (Features.CreateFeatureSchema (Http.input request)) as [issues | data] eqn:Hparse;
    [injection Hpost as <- <-; discriminate Hcreated |].
  apply finish_inr in Hparse as [Hnil ->].
  cbn [Features.c_projectId Features.c_featureId Features.c_title Features.c_version
       Features.c_status Features.c_area] in Hpost.
  destruct (Db.project_findUnique _ st) as [project |] eqn:Eproject;
    [| injection Hpost as <- <-; discriminate Hcreated].
  destruct (Db.feature_findByFeatureId _ _ st) eqn:Efeature;
    [injection Hpost as <- <-; discriminate Hcreated |].
  unfold Db.feature_create in Hpost. rewrite Efeature in Hpost.
  injection Hpost as <- <-.
  apply app_eq_nil in Hnil as [Hp Hnil]. apply app_eq_nil in Hnil as [Hf _].
  destruct (Features.projectId (Http.input request)) as [p |]; [| discriminate Hp].
  destruct (Features.featureId (Http.input request)) as [f |]; [| discriminate Hf].
  cbn [Features.get] in *.
  eexists. exists project. split; [reflexivity |].
  cbn [Db.features Db.f_projectId Db.f_featureId Db.f_version Db.f_status Db.f_id].
  do 3 (split; [reflexivity |]). split.
  { unfold Zod.required, Zod.zString, Features.featureIdFormat in Hf.
    cbn [flat_map Zod.checkString] in Hf. apply app_eq_nil in Hf as [_ Hf].
    apply app_eq_nil in Hf as [Hf _].
    destruct (Pattern.featPattern f); [reflexivity | discriminate Hf]. }
  split; [intros ->; reflexivity |]. split; [intros ->; reflexivity |].
  split; [exact Eproject |].
  unfold ById.getFeature, Db.feature_findUnique. cbn [Db.features].
  unfold Db.feature_findUnique in Hfresh.
  rewrite (find_app_fresh _ _ _ Hfresh). cbn [Db.f_id]. rewrite String.eqb_refl.
  cbn [Db.f_projectId]. unfold Db.project_findUnique in *. cbn [Db.projects].
  rewrite Eproject. reflexivity.
Qed.

Lemma created_feature_is_fetched_witness :
  exists feature project,
    ById.getFeature (Db.f_id feature) (Samples.request tt)
      (fst (Features.postFeatures Samples.env
              (Samples.request
                 (Features.mkFeatureBody (Some "ckproject0001") (Some "FEAT-001")
                    (Some "Login") None None (Some "auth")))
              Samples.store))
    = Http.send 200 (feature, Some project)
    /\ Db.f_version feature = "0.1.0".
Proof.
  destruct (created_feature_is_fetched Samples.env
              (Samples.request
                 (Features.mkFeatureBody (Some "ckproject0001") (Some "FEAT-001")
                    (Some "Login") None None (Some "auth")))
              (Samples.request tt) Samples.store _ _ eq_refl eq_refl eq_refl)
    as (feature & project & _ & _ & _ & _ & _ & Hversion & _ & _ & Hget).
  exists feature, project. split; [exact Hget | exact (Hversion eq_refl)].
Defined.
